(** * apikit: endpoint composition, token authentication, multipart decoding

    A shallow embedding of the request pipeline of
    github.com/likearthian/apikit and the properties its design document
    states about it.

    Conventions of the embedding.
    - A Go [string] is a sequence of bytes: [string] of 8-bit [ascii].
    - A Go [int] / [int64] is a [Z]; every number that occurs stays far
      below the 64-bit range, apart from [strconv.Atoi], whose range check
      is written out.
    - A Go function that can panic returns a [res]: [Done v] or
      [Panicked msg].
    - A Go [(T, error)] result is a pair [T * option error]; [None] is the
      nil error.
    - Handlers run in a state monad over a world [W], so that "the wrapped
      handler is not invoked" is observable.
    - [map[string]T] is stdpp's [gmap string T]. *)

From Stdlib Require Import ZArith NArith String Ascii List Bool Lia.
From Stdlib Require Import DecimalString DecimalPos DecimalZ.
From stdpp Require Import base option list gmap strings.

Local Open Scope string_scope.
Local Open Scope Z_scope.

(** ** Results of Go calls *)

Inductive res (A : Type) : Type :=
| Done (a : A)
| Panicked (msg : string).
Arguments Done {A} a.
Arguments Panicked {A} msg.

Definition res_bind {A B} (r : res A) (k : A -> res B) : res B :=
  match r with
  | Done a => k a
  | Panicked msg => Panicked msg
  end.

Notation "'let?' x ':=' r 'in' k" := (res_bind r (fun x => k))
  (at level 10, x pattern, r at level 100, k at level 200).

(** ** Errors

    An error value is identified the way Go identifies it: a package-level
    [errors.New] / [fmt.Errorf] variable is one allocation, named by its
    package and variable ([Var]); an error built while a request runs is a
    fresh allocation ([Fresh]) that is identical to no variable. *)

Inductive site : Type :=
| Var (pkg name : string)
| Fresh.

(** The error types of github.com/dgrijalva/jwt-go/v4 that the code
    switches on, and the others the parser returns. *)
Inductive jwtErrorType : Type :=
| MalformedTokenError
| UnverfiableTokenError
| InvalidSignatureError
| TokenExpiredError
| TokenNotValidYetError
| InvalidAudienceError
| InvalidIssuerError
| InvalidClaimsError.

Inductive numErrorKind : Type := ErrSyntax | ErrRange.

Inductive error : Type :=
| errorString (at_ : site) (msg : string)
| wrapError (msg : string) (inner : error)
| jwtError (ty : jwtErrorType) (msg : string)
| jwtWrapped (ty : jwtErrorType) (msg : string) (inner : error)
| NumError (func num : string) (kind : numErrorKind)
| EOF.

Definition site_eqb (a b : site) : bool :=
  match a, b with
  | Var p n, Var p' n' => String.eqb p p' && String.eqb n n'
  | _, _ => false
  end.

(** [err == target] for a target that is a package variable. *)
Definition same_error (err target : error) : bool :=
  match err, target with
  | errorString a _, errorString b _ => site_eqb a b
  | _, _ => false
  end.

Module errors.

Definition New (pkg name msg : string) : error := errorString (Var pkg name) msg.

(** [errors.Is]: walk the [Unwrap] chain looking for [target]. *)
Fixpoint Is (err target : error) : bool :=
  same_error err target ||
  match err with
  | wrapError _ inner => Is inner target
  | jwtWrapped _ _ inner => Is inner target
  | _ => false
  end.

End errors.

Module fmt.

(** [fmt.Errorf] without a [%w] verb, called while a request runs. *)
Definition Errorf (msg : string) : error := errorString Fresh msg.

(** [fmt.Errorf] with one [%w] verb. *)
Definition Errorfw (msg : string) (wrapped : error) : error := wrapError msg wrapped.

End fmt.

(** ** Dynamic values and the execution context *)

Record StandardClaims : Type := {
  Audience : list string;
  ExpiresAt : option Z;
  NotBefore : option Z;
  Subject : string;
}.

(** [jwt.Claims] implementations that occur in the repository. *)
Inductive Claims : Type :=
| ClaimsStandard (c : StandardClaims)
| ClaimsAuth (c : StandardClaims) (Username : string) (IsAdmin : bool)
             (Meta : list (string * string))
| ClaimsMap (m : list (string * string)).

(** Go's [interface{}], restricted to the dynamic types that flow through
    the modelled code. *)
Inductive any : Type :=
| AString (s : string)
| ANumber (z : Z)
| ABool (b : bool)
| ABytes (b : string)
| AClaims (c : Claims)
| AStringMap (m : gmap string string).

(** [v.(string)] with the comma-ok form. *)
Definition as_string (v : option any) : option string :=
  match v with
  | Some (AString s) => Some s
  | _ => None
  end.

Module context.

(** A context key is compared by dynamic type and value. *)
Record Key : Type := { keyType : string; keyVal : Z }.

Definition Key_eqb (a b : Key) : bool :=
  String.eqb (keyType a) (keyType b) && Z.eqb (keyVal a) (keyVal b).

(** A context is a chain of derived contexts, newest first;
    [Background] is the empty chain. *)
Definition Context : Type := list (Key * any).

Definition Background : Context := [].

Definition WithValue (parent : Context) (k : Key) (v : any) : Context :=
  (k, v) :: parent.

Fixpoint Value (ctx : Context) (k : Key) : option any :=
  match ctx with
  | [] => None
  | (k', v) :: parent => if Key_eqb k' k then Some v else Value parent k
  end.

End context.
Import context.

(** ** Slices

    [l[n]] panics outside [0, len(l)). *)

Definition len {A} (l : list A) : Z := Z.of_nat (length l).

Definition index {A} (l : list A) (n : Z) : res A :=
  if n <? 0 then Panicked "index out of range"
  else match l !! Z.to_nat n with
       | Some x => Done x
       | None => Panicked "index out of range"
       end.

(** * Standard library: strconv, math/rand *)

Module strconv.

Definition is_digit (c : ascii) : bool :=
  let n := N_of_ascii c in ((48 <=? n) && (n <=? 57))%N.

Definition digit_val (c : ascii) : Z := Z.of_N (N_of_ascii c) - 48.

(** Base-10 digits, most significant first; [None] at the first byte
    that is not a digit. *)
Fixpoint parse_digits (s : string) (acc : Z) : option Z :=
  match s with
  | EmptyString => Some acc
  | String c s' =>
      if is_digit c then parse_digits s' (acc * 10 + digit_val c) else None
  end.

Definition maxInt : Z := 2 ^ 63 - 1.
Definition minInt : Z := - 2 ^ 63.

(** [strconv.Atoi] on a 64-bit platform: an optional sign, then one or
    more decimal digits; a value outside the [int] range is a range
    error (with the nearest bound as value), anything else a syntax
    error. *)
Definition Atoi (s : string) : Z * option error :=
  let '(neg, body) :=
    match s with
    | String "+" s' => (false, s')
    | String "-" s' => (true, s')
    | _ => (false, s)
    end in
  match body with
  | EmptyString => (0, Some (NumError "Atoi" s ErrSyntax))
  | _ =>
      match parse_digits body 0 with
      | None => (0, Some (NumError "Atoi" s ErrSyntax))
      | Some v =>
          let n := if neg then - v else v in
          if n >? maxInt then (maxInt, Some (NumError "Atoi" s ErrRange))
          else if n <? minInt then (minInt, Some (NumError "Atoi" s ErrRange))
          else (n, None)
      end
  end.

(** [strconv.Itoa]: the decimal rendering. *)
Definition Itoa (n : Z) : string := NilZero.string_of_int (Z.to_int n).

End strconv.

Module rand.

(** [r.Intn(n)] for a generator whose next raw sample is [sample]:
    panics for [n <= 0], otherwise yields a value of [[0, n)].  Every
    value of [[0, n)] is the result for some sample. *)
Definition Intn (sample : Z) (n : Z) : res Z :=
  if n <=? 0 then Panicked "invalid argument to Intn"
  else Done (sample mod n).

End rand.

(** * The token library github.com/dgrijalva/jwt-go/v4

    The library is outside the repository.  Its control flow in
    [ParseWithClaims] is written out; the segment codec, the signature
    check and the claim validation are the fields of [Library]. *)

Module jwt.

Inductive SigningMethod : Type :=
| SigningMethodHS256
| SigningMethodHS384
| SigningMethodHS512
| SigningMethodRS256
| SigningMethodES256
| SigningMethodNone.

Definition SigningMethod_eqb (a b : SigningMethod) : bool :=
  match a, b with
  | SigningMethodHS256, SigningMethodHS256
  | SigningMethodHS384, SigningMethodHS384
  | SigningMethodHS512, SigningMethodHS512
  | SigningMethodRS256, SigningMethodRS256
  | SigningMethodES256, SigningMethodES256
  | SigningMethodNone, SigningMethodNone => true
  | _, _ => false
  end.

Definition Alg (m : SigningMethod) : string :=
  match m with
  | SigningMethodHS256 => "HS256"
  | SigningMethodHS384 => "HS384"
  | SigningMethodHS512 => "HS512"
  | SigningMethodRS256 => "RS256"
  | SigningMethodES256 => "ES256"
  | SigningMethodNone => "none"
  end.

Record Token : Type := {
  Raw : string;
  Method : SigningMethod;
  Header : gmap string any;
  TokenClaims : Claims;
  Signature : string;
  Valid : bool;
}.

Inductive ParserOption : Type :=
| WithAudience (aud : string).

(** [type Keyfunc func(token) (interface{}, error)]; the key is [None]
    for a nil interface. *)
Definition Keyfunc : Type := Token -> res (option any * option error).

Record Library : Type := {
  (** split and decode the three segments: the token with its method,
      header and claims, and the signing input and signature segment *)
  ParseUnverified : string -> Claims -> (Token * (string * string)) + error;
  (** [Method.Verify(signingString, signature, key)] *)
  Verify : SigningMethod -> string -> string -> option any -> option error;
  (** [Claims.Valid(helper)] under the parser options *)
  ClaimsValid : Claims -> list ParserOption -> option error;
  (** [Token.SignedString(key)] *)
  SignedString : Token -> any -> string * option error;
}.

Definition NewWithClaims (method : SigningMethod) (claims : Claims) : Token :=
  {| Raw := "";
     Method := method;
     Header := <["typ" := AString "JWT"]> (<["alg" := AString (Alg method)]> ∅);
     TokenClaims := claims;
     Signature := "";
     Valid := false |}.

(** [jwt.ParseWithClaims(tokenString, claims, keyFunc, options...)].
    The result is the token when the error is nil, and the error
    otherwise (no caller in the repository looks at the token of a
    failed parse). *)
Definition ParseWithClaims (lib : Library) (tokenString : string) (claims : Claims)
           (keyFunc : Keyfunc) (options : list ParserOption) : res (Token + error) :=
  match ParseUnverified lib tokenString claims with
  | inr err => Done (inr err)
  | inl (token, (signingInput, sig)) =>
      let? (key, kerr) := keyFunc token in
      match kerr with
      | Some err =>
          Done (inr (jwtWrapped UnverfiableTokenError "Keyfunc returned an error" err))
      | None =>
          match Verify lib (Method token) signingInput sig key with
          | Some err => Done (inr (jwtWrapped InvalidSignatureError "" err))
          | None =>
              match ClaimsValid lib (TokenClaims token) options with
              | Some err => Done (inr err)
              | None =>
                  Done (inl {| Raw := Raw token; Method := Method token;
                               Header := Header token;
                               TokenClaims := TokenClaims token;
                               Signature := sig; Valid := true |})
              end
          end
      end
  end.

(** The dynamic type a [switch err.(type)] sees. *)
Definition typeOf (err : error) : option jwtErrorType :=
  match err with
  | jwtError ty _ | jwtWrapped ty _ _ => Some ty
  | _ => None
  end.

End jwt.

(** * Package api *)

Module api.

(** api/context.go *)
Definition ContextKey (i : Z) : Key := {| keyType := "api.ContextKey"; keyVal := i |}.
Definition ContextKeyJWTToken : Key := ContextKey 0.
Definition ContextKeyAuthClaims : Key := ContextKey 1.
Definition ContextKeyApikey : Key := ContextKey 2.

Definition GetApikeyFromContext (ctx : Context) : string :=
  match as_string (Value ctx ContextKeyApikey) with
  | Some apikey => apikey
  | None => ""
  end.

(** ** Endpoints and middlewares

    [type Endpoint[I, O any] func(context.Context, I) (O, error)], run
    over a world [W]. *)
Definition Endpoint (W I O : Type) : Type :=
  Context -> I -> W -> res (O * option error) * W.

Definition Middleware (W I O : Type) : Type := Endpoint W I O -> Endpoint W I O.

Section Chain.
Context {W I O : Type}.

(** The loop [for i := len(others) - 1; i >= 0; i-- { next = others[i](next) }],
    entered with [i + 1 = k].  The index is always in range; the
    [None] branch is unreachable. *)
Fixpoint chainLoop (others : list (Middleware W I O)) (k : nat)
         (next : Endpoint W I O) : Endpoint W I O :=
  match k with
  | 0%nat => next
  | S i =>
      match others !! i with
      | Some m => chainLoop others i (m next)
      | None => next
      end
  end.

(** [func Chain(outer, others...) Middleware] *)
Definition Chain (outer : Middleware W I O) (others : list (Middleware W I O))
  : Middleware W I O :=
  fun next => outer (chainLoop others (length others) next).

(** [func (ep Endpoint) Chain(outer, others...) Endpoint] *)
Definition Endpoint_Chain (ep : Endpoint W I O) (outer : Middleware W I O)
           (others : list (Middleware W I O)) : Endpoint W I O :=
  outer (chainLoop others (length others) ep).

(** Follows the design document: [compose([M0, ..., Mn])(h) = M0(M1(...Mn(h)))]. *)
Fixpoint nested (ms : list (Middleware W I O)) (h : Endpoint W I O) : Endpoint W I O :=
  match ms with
  | [] => h
  | m :: ms' => m (nested ms' h)
  end.

End Chain.

(** ** Token errors (package variables of api) *)

Definition ErrTokenContextMissing : error :=
  errors.New "api" "ErrTokenContextMissing"
             "token up for parsing was not passed through the context".
Definition ErrTokenInvalid : error :=
  errors.New "api" "ErrTokenInvalid" "JWT Token was invalid".
Definition ErrTokenExpired : error :=
  errors.New "api" "ErrTokenExpired" "JWT Token is expired".
Definition ErrTokenMalformed : error :=
  errors.New "api" "ErrTokenMalformed" "JWT Token is malformed".
Definition ErrTokenNotActive : error :=
  errors.New "api" "ErrTokenNotActive" "token is not valid yet".
Definition ErrUnexpectedSigningMethod : error :=
  errors.New "api" "ErrUnexpectedSigningMethod" "unexpected signing method".

(** The error built by [fmt.Errorf("not authorized to access this resource")]. *)
Definition notAuthorized : error := fmt.Errorf "not authorized to access this resource".

(** ** Options *)

Definition jwtSigningMethod : jwt.SigningMethod := jwt.SigningMethodHS256.

Definition ClaimsFactory : Type := unit -> Claims.

Definition emptyStandardClaims : StandardClaims :=
  {| Audience := []; ExpiresAt := None; NotBefore := None; Subject := "" |}.

Definition MapClaimsFactory : ClaimsFactory := fun _ => ClaimsMap [].

(** Returns [&AuthClaims{}]. *)
Definition StandardClaimsFactory : ClaimsFactory :=
  fun _ => ClaimsAuth emptyStandardClaims "" false [].

Record jwtOption : Type := {
  ClaimFactory : option ClaimsFactory;
  JwtSigningMethod : option jwt.SigningMethod;
  ParserOptions : list jwt.ParserOption;
}.

Definition JwtOption : Type := jwtOption -> jwtOption.

Definition zeroJwtOption : jwtOption :=
  {| ClaimFactory := None; JwtSigningMethod := None; ParserOptions := [] |}.

Definition DefaultJwtOptions : jwtOption :=
  {| ClaimFactory := Some StandardClaimsFactory; JwtSigningMethod := None;
     ParserOptions := [] |}.

Definition WithAudience (aud : string) : JwtOption :=
  fun opt => {| ClaimFactory := ClaimFactory opt;
                JwtSigningMethod := JwtSigningMethod opt;
                ParserOptions := ParserOptions opt ++ [jwt.WithAudience aud] |}.

Definition WithClaimsFactory (claimFactory : ClaimsFactory) : JwtOption :=
  fun opt => {| ClaimFactory := Some claimFactory;
                JwtSigningMethod := JwtSigningMethod opt;
                ParserOptions := ParserOptions opt |}.

Definition WithJwtSigningMethod (method : jwt.SigningMethod) : JwtOption :=
  fun opt => {| ClaimFactory := ClaimFactory opt;
                JwtSigningMethod := Some method;
                ParserOptions := ParserOptions opt |}.

(** [for _, o := range options { o(opt) }] *)
Definition applyOptions (options : list JwtOption) (opt : jwtOption) : jwtOption :=
  fold_left (fun acc o => o acc) options opt.

(** ** Key registry and token creation *)

Definition DefaultKeys : list string := ["6ai1Vz6dHy9PbLCKUc8QtadUIuOUMuHQ"].

(** The sixteen keys [DefaultKeys] holds in api/auth_middleware.go. *)
Definition DefaultKeys16 : list string :=
  ["6ai1Vz6dHy9PbLCKUc8QtadUIuOUMuHQ"; "rUpWCnIwgvHfEpKJpXknmw5ozfBrpzbz";
   "bczvJVnrzXk5WHzSTm5GNMQo5nBfHnyK"; "PQsc8LdzrV6Mn7Kq71E31N4vRhNpj30q";
   "W9X0Y1Z2A3B4C5D6E7F8G9H0I1J2K3L4"; "M5N6O7P8Q9R0S1T2U3V4W5X6Y7Z8A9B0";
   "C1D2E3F4G5H6I7J8K9L0M1N2O3P4Q5R6"; "S7T8U9V0W1X2Y3Z4A5B6C7D8E9F0G1H2";
   "I3J4K5L6M7N8O9P0Q1R2S3T4U5V6W7X8"; "Y9Z0A1B2C3D4E5F6G7H8I9J0K1L2M3N4";
   "Z0A1B2C3D4E5F6G7H8I9J0K1L2M3N4O5"; "P6Q7R8S9T0U1V2W3X4Y5Z6A7B8C9D0E1";
   "F2G3H4I5J6K7L8M9N0O1P2Q3R4S5T6U7"; "V8W9X0Y1Z2A3B4C5D6E7F8G9H0I1J2K3";
   "L4M5N6O7P8Q9R0S1T2U3V4W5X6Y7Z8A9"; "B0C1D2E3F4G5H6I7J8K9L0M1N2O3P4Q5"].

(** [token.Header["kid"] = kid] *)
Definition withKid (token : jwt.Token) (kid : any) : jwt.Token :=
  {| jwt.Raw := jwt.Raw token; jwt.Method := jwt.Method token;
     jwt.Header := <["kid" := kid]> (jwt.Header token);
     jwt.TokenClaims := jwt.TokenClaims token;
     jwt.Signature := jwt.Signature token; jwt.Valid := jwt.Valid token |}.

(** The index [CreateToken] signs with: [r.Intn(len(keys) - 1)], then
    the range check that resets it to 1. *)
Definition selectKeyIndex (keys : list string) (sample : Z) : res Z :=
  let? n := rand.Intn sample (len keys - 1) in
  Done (if (n <? 0) || (n >? len keys - 1) then 1 else n).

(** [func CreateToken(claimFactory, keys) (string, error)]; [sample] is
    the next raw sample of the generator seeded from the clock. *)
Definition CreateToken (lib : jwt.Library) (claimFactory : ClaimsFactory)
           (keys : list string) (sample : Z) : res (string * option error) :=
  let claims := claimFactory tt in
  let token := jwt.NewWithClaims jwtSigningMethod claims in
  let? n := selectKeyIndex keys sample in
  let kid := strconv.Itoa n in
  let? key := index keys n in
  Done (jwt.SignedString lib (withKid token (AString kid)) (ABytes key)).

(** [func getKey(token, keys) (any, error)] *)
Definition getKey (token : jwt.Token) (keys : list string)
  : res (option any * option error) :=
  match jwt.Header token !! "kid" with
  | Some (AString kid) =>
      let '(n, err) := strconv.Atoi kid in
      match err with
      | Some e => Done (None, Some (fmt.Errorfw "failed to parse the kid ID. " e))
      | None =>
          if n >? len keys - 1
          then Done (None, Some (fmt.Errorf "kid index is out of range"))
          else
            let? key := index keys n in
            Done (Some (ABytes key), None)
      end
  | _ => Panicked "interface conversion: interface {} is not string"
  end.

Definition DefaultJwtKeyGetterFunc : jwt.Keyfunc := fun token => getKey token DefaultKeys.

Definition CreateJwtKeyGetterFunc (keys : list string) : jwt.Keyfunc :=
  fun token => getKey token keys.

(** ** The JWT endpoint middleware *)

(** The key callback handed to the parser. *)
Definition checkedKeyfunc (keyFn : jwt.Keyfunc) : jwt.Keyfunc :=
  fun token =>
    if negb (jwt.SigningMethod_eqb (jwt.Method token) jwtSigningMethod)
    then Done (None, Some ErrUnexpectedSigningMethod)
    else keyFn token.

(** The claims instance the middleware parses into. *)
Definition claimsFor (options : list JwtOption) : Claims :=
  match ClaimFactory (applyOptions options zeroJwtOption) with
  | None => StandardClaimsFactory
  | Some f => f
  end tt.

(** An endpoint instrumented with an invocation counter. *)
Definition counting {W I O : Type} (ep : Endpoint W I O) : Endpoint (nat * W) I O :=
  fun c request '(n, w) =>
    let '(r, w') := ep c request w in (r, (S n, w')).

Section JWT.
Context {W I O : Type}.
(** [var out O]: the zero value of the response type. *)
Variable out : O.
Variable lib : jwt.Library.

(** [func WithJWTAuthEPMiddleware(ep, keyFn, options...) Endpoint].  The
    variant in api/auth_middleware.go takes the key function from its
    options, [DefaultJwtKeyGetterFunc] by default, and is this function
    at that [keyFn]. *)
Definition WithJWTAuthEPMiddleware (ep : Endpoint W I O) (keyFn : jwt.Keyfunc)
           (options : list JwtOption) : Endpoint W I O :=
  fun ctx request w =>
    let opt := applyOptions options zeroJwtOption in
    let claimFactory :=
      match ClaimFactory opt with
      | None => StandardClaimsFactory
      | Some f => f
      end in
    match as_string (Value ctx ContextKeyJWTToken) with
    | None => (Done (out, Some ErrTokenContextMissing), w)
    | Some tokenString =>
        match jwt.ParseWithClaims lib tokenString (claimFactory tt)
                                  (checkedKeyfunc keyFn) (ParserOptions opt) with
        | Panicked msg => (Panicked msg, w)
        | Done (inr err) =>
            match jwt.typeOf err with
            | Some MalformedTokenError => (Done (out, Some ErrTokenMalformed), w)
            | Some TokenExpiredError => (Done (out, Some ErrTokenExpired), w)
            | Some TokenNotValidYetError => (Done (out, Some ErrTokenNotActive), w)
            | _ => (Done (out, Some notAuthorized), w)
            end
        | Done (inl token) =>
            if negb (jwt.Valid token)
            then (Done (out, Some ErrTokenInvalid), w)
            else ep (WithValue ctx ContextKeyAuthClaims (AClaims (jwt.TokenClaims token)))
                    request w
        end
    end.

Definition JWTMiddleware (keyFn : jwt.Keyfunc) (options : list JwtOption)
  : Middleware W I O :=
  fun next => WithJWTAuthEPMiddleware next keyFn options.

End JWT.

Definition ParseJwtError (err : error) : string :=
  match jwt.typeOf err with
  | Some MalformedTokenError => "JWT Token is malformed"
  | Some TokenExpiredError => "JWT Token is expired"
  | Some TokenNotValidYetError => "token is not valid yet"
  | _ => "not authorized to access this resource"
  end.

End api.

(** * Package apikit: the error-to-status translator (errs.go) *)

Module apikit.

Definition ErrBucketNotFound : error := errors.New "apikit" "ErrBucketNotFound" "bucket not found".
Definition ErrKeyAlreadyExists : error := errors.New "apikit" "ErrKeyAlreadyExists" "key already exists".
Definition ErrKeynotFound : error := errors.New "apikit" "ErrKeynotFound" "key not found".
Definition ErrBadRequest : error := errors.New "apikit" "ErrBadRequest" "bad request".
Definition ErrInvalidUserPassword : error :=
  errors.New "apikit" "ErrInvalidUserPassword" "invalid user or password".
Definition ErrForbidden : error :=
  errors.New "apikit" "ErrForbidden" "not authorized to access this resource".
Definition ErrUnauthorized : error := errors.New "apikit" "ErrUnauthorized" "unauthorized".
Definition ErrNoRow : error := errors.New "apikit" "ErrNoRow" "no row".

Definition ErrTokenContextMissing : error :=
  errors.New "apikit" "ErrTokenContextMissing"
             "token up for parsing was not passed through the context".
Definition ErrTokenInvalid : error :=
  errors.New "apikit" "ErrTokenInvalid" "JWT Token was invalid".
Definition ErrTokenExpired : error :=
  errors.New "apikit" "ErrTokenExpired" "JWT Token is expired".
Definition ErrTokenMalformed : error :=
  errors.New "apikit" "ErrTokenMalformed" "JWT Token is malformed".
Definition ErrTokenNotActive : error :=
  errors.New "apikit" "ErrTokenNotActive" "token is not valid yet".
Definition ErrUnexpectedSigningMethod : error :=
  errors.New "apikit" "ErrUnexpectedSigningMethod" "unexpected signing method".

(** net/http status codes *)
Definition StatusBadRequest : Z := 400.
Definition StatusUnauthorized : Z := 401.
Definition StatusForbidden : Z := 403.
Definition StatusNotFound : Z := 404.
Definition StatusRequestEntityTooLarge : Z := 413.
Definition StatusInternalServerError : Z := 500.
Definition StatusNetworkAuthenticationRequired : Z := 511.

(** [func Err2code(err error) int]: the first matching case of the
    switch decides; without a match the initial value stays. *)
Definition Err2code (err : error) : Z :=
  if errors.Is err ErrKeynotFound then StatusNotFound
  else if errors.Is err ErrBadRequest then StatusBadRequest
  else if errors.Is err ErrInvalidUserPassword then StatusNetworkAuthenticationRequired
  else if errors.Is err ErrUnauthorized then StatusUnauthorized
  else if errors.Is err ErrForbidden then StatusForbidden
  else if errors.Is err ErrTokenExpired
          || errors.Is err ErrTokenInvalid
          || errors.Is err ErrTokenMalformed
          || errors.Is err ErrTokenNotActive then StatusUnauthorized
  else StatusInternalServerError.

End apikit.

(** * Standard library: unicode/utf8, strings, net/textproto *)

(** The value of a byte, and the conversion [byte(x)], which keeps the
    low eight bits. *)
Definition byte (c : ascii) : Z := Z.of_N (N_of_ascii c).
Definition chr (b : Z) : ascii := ascii_of_N (Z.to_N (b mod 256)).

Module utf8.

Definition RuneError : Z := 0xFFFD.
Definition RuneSelf : Z := 0x80.
Definition MaxRune : Z := 0x10FFFF.

Definition between (lo x hi : Z) : bool := (lo <=? x) && (x <=? hi).

(** The table [first] with [acceptRanges]: for a lead byte, the length
    of the sequence and the range accepted for its second byte. *)
Definition lead (b0 : Z) : option (Z * (Z * Z)) :=
  if between 0xC2 b0 0xDF then Some (2, (0x80, 0xBF))
  else if b0 =? 0xE0 then Some (3, (0xA0, 0xBF))
  else if between 0xE1 b0 0xEC then Some (3, (0x80, 0xBF))
  else if b0 =? 0xED then Some (3, (0x80, 0x9F))
  else if between 0xEE b0 0xEF then Some (3, (0x80, 0xBF))
  else if b0 =? 0xF0 then Some (4, (0x90, 0xBF))
  else if between 0xF1 b0 0xF3 then Some (4, (0x80, 0xBF))
  else if b0 =? 0xF4 then Some (4, (0x80, 0x8F))
  else None.

Definition cont (b : Z) : bool := between 0x80 b 0xBF.
Definition low6 (b : Z) : Z := Z.land b 0x3F.

(** [utf8.DecodeRuneInString]: the first rune and its width in bytes;
    an invalid or truncated sequence is [(RuneError, 1)]. *)
Definition DecodeRuneInString (s : string) : Z * nat :=
  match s with
  | EmptyString => (RuneError, 0%nat)
  | String c0 s1 =>
      let b0 := byte c0 in
      if b0 <? RuneSelf then (b0, 1%nat)
      else
        match lead b0, s1 with
        | Some (sz, (lo, hi)), String c1 s2 =>
            let b1 := byte c1 in
            if negb (between lo b1 hi) then (RuneError, 1%nat)
            else if sz <=? 2
            then (Z.lor (Z.shiftl (Z.land b0 0x1F) 6) (low6 b1), 2%nat)
            else
              match s2 with
              | String c2 s3 =>
                  let b2 := byte c2 in
                  if negb (cont b2) then (RuneError, 1%nat)
                  else if sz <=? 3
                  then (Z.lor (Z.shiftl (Z.land b0 0x0F) 12)
                              (Z.lor (Z.shiftl (low6 b1) 6) (low6 b2)), 3%nat)
                  else
                    match s3 with
                    | String c3 _ =>
                        let b3 := byte c3 in
                        if negb (cont b3) then (RuneError, 1%nat)
                        else (Z.lor (Z.shiftl (Z.land b0 0x07) 18)
                                (Z.lor (Z.shiftl (low6 b1) 12)
                                   (Z.lor (Z.shiftl (low6 b2) 6) (low6 b3))), 4%nat)
                    | EmptyString => (RuneError, 1%nat)
                    end
              | EmptyString => (RuneError, 1%nat)
              end
        | _, _ => (RuneError, 1%nat)
        end
  end.

Definition tail (r : Z) (shift : Z) : ascii :=
  chr (Z.lor 0x80 (low6 (Z.shiftr r shift))).

Definition encode3 (r : Z) : string :=
  String (chr (Z.lor 0xE0 (Z.shiftr r 12))) (String (tail r 6) (String (tail r 0) "")).

(** [utf8.AppendRune] to the empty buffer. *)
Definition EncodeRune (r : Z) : string :=
  if between 0 r 0x7F then String (chr r) ""
  else if between 0 r 0x7FF
  then String (chr (Z.lor 0xC0 (Z.shiftr r 6))) (String (tail r 0) "")
  else if (r <? 0) || (MaxRune <? r) || between 0xD800 r 0xDFFF then encode3 RuneError
  else if r <=? 0xFFFF then encode3 r
  else String (chr (Z.lor 0xF0 (Z.shiftr r 18)))
         (String (tail r 12) (String (tail r 6) (String (tail r 0) ""))).

End utf8.

Module unicode.

Definition upperASCII (b : Z) : Z :=
  if utf8.between 97 b 122 then b - 32 else b.

Definition lowerASCII (b : Z) : Z :=
  if utf8.between 65 b 90 then b + 32 else b.

(** [unicode.ToUpper].  The case tables of the Unicode database are the
    parameter [table], consulted above ASCII; U+FFFD has no case
    mapping. *)
Definition ToUpper (table : Z -> Z) (r : Z) : Z :=
  if r <=? 0x7F then upperASCII r
  else if r =? utf8.RuneError then r
  else table r.

End unicode.

Module strings.

Fixpoint mapBytes (f : Z -> Z) (s : string) : string :=
  match s with
  | EmptyString => EmptyString
  | String c s' => String (chr (f (byte c))) (mapBytes f s')
  end.

Fixpoint isASCII (s : string) : bool :=
  match s with
  | EmptyString => true
  | String c s' => (byte c <? utf8.RuneSelf) && isASCII s'
  end.

(** [strings.Map(mapping, s)]: every rune of [s] (an invalid byte counts
    as U+FFFD) is replaced by its image, and dropped when the image is
    negative.  [skip] counts the bytes of the current rune still to be
    passed over. *)
Fixpoint MapFrom (mapping : Z -> Z) (s : string) (skip : nat) : string :=
  match s with
  | EmptyString => EmptyString
  | String _ s' =>
      match skip with
      | S k => MapFrom mapping s' k
      | 0%nat =>
          let '(c, width) := utf8.DecodeRuneInString s in
          let r := mapping c in
          (if 0 <=? r then utf8.EncodeRune r else "") ++ MapFrom mapping s' (width - 1)
      end
  end.

Definition Map (mapping : Z -> Z) (s : string) : string := MapFrom mapping s 0.

(** [strings.ToUpper]: bytewise on an ASCII-only string, by runes
    otherwise. *)
Definition ToUpper (table : Z -> Z) (s : string) : string :=
  if isASCII s then mapBytes unicode.upperASCII s
  else Map (unicode.ToUpper table) s.

(** Bytewise ASCII case folding, used to state case-insensitive
    equality. *)
Definition foldASCII (s : string) : string := mapBytes unicode.lowerASCII s.

Definition EqualFoldASCII (a b : string) : bool :=
  String.eqb (foldASCII a) (foldASCII b).

End strings.

(** [len(s)], [s[:n]] and [s[n:]] for [0 <= n <= len(s)]. *)
Definition slen (s : string) : Z := Z.of_nat (String.length s).

Fixpoint stake (n : Z) (s : string) : string :=
  match s with
  | EmptyString => EmptyString
  | String c s' => if n <=? 0 then EmptyString else String c (stake (n - 1) s')
  end.

Fixpoint sdrop (n : Z) (s : string) : string :=
  match s with
  | EmptyString => EmptyString
  | String c s' => if n <=? 0 then s else sdrop (n - 1) s'
  end.

Module textproto.

(** [validHeaderFieldByte]: the token characters of RFC 7230. *)
Definition validHeaderFieldByte (b : Z) : bool :=
  utf8.between 48 b 57 || utf8.between 65 b 90 || utf8.between 97 b 122
  || existsb (Z.eqb b) [33; 35; 36; 37; 38; 39; 42; 43; 45; 46; 94; 95; 96; 124; 126].

Fixpoint canonicalize (upper : bool) (s : string) : string :=
  match s with
  | EmptyString => EmptyString
  | String c s' =>
      let b := byte c in
      let b' := if upper then unicode.upperASCII b else unicode.lowerASCII b in
      String (chr b') (canonicalize (b' =? 45) s')
  end.

Fixpoint allValid (s : string) : bool :=
  match s with
  | EmptyString => true
  | String c s' => validHeaderFieldByte (byte c) && allValid s'
  end.

(** [textproto.CanonicalMIMEHeaderKey]: a key with a byte outside the
    token characters is returned unchanged. *)
Definition CanonicalMIMEHeaderKey (s : string) : string :=
  if allValid s then canonicalize true s else s.

Definition MIMEHeader : Type := gmap string (list string).

Definition Get (h : MIMEHeader) (key : string) : string :=
  match h !! CanonicalMIMEHeaderKey key with
  | Some (v :: _) => v
  | _ => ""
  end.

End textproto.

(** * Standard library: net/http, mime/multipart, io *)

Module nethttp.

(** One part of a multipart body.  [Content] is what the part delivers
    before it ends; [ReadErr] is the error it ends with, [None] for a
    clean end ([io.EOF]). *)
Record Part : Type := {
  FormName : string;
  FileName : string;
  PartHeader : textproto.MIMEHeader;
  Content : string;
  ReadErr : option error;
}.

(** What [NextPart] yields call after call: the parts in arrival order,
    then the error [final]: [None] stands for [io.EOF], as does
    [Some EOF]; any other error is that of a malformed body. *)
Record MultipartReader : Type := {
  parts : list Part;
  final : option error;
}.

Record Request : Type := {
  Header : textproto.MIMEHeader;
  ctx : Context;
  Query : gmap string (list string);
  Multipart : MultipartReader + error;
}.

(** [r.WithContext(ctx)]: a copy of the request that carries [ctx];
    the receiver is left as it is. *)
Definition WithContext (r : Request) (c : Context) : Request :=
  {| Header := Header r; ctx := c; Query := Query r; Multipart := Multipart r |}.

(** A response writer: the status line once written, and the body so
    far. *)
Record ResponseWriter : Type := {
  Status : option Z;
  Body : string;
}.

Definition newResponseWriter : ResponseWriter := {| Status := None; Body := "" |}.

(** [http.Error(w, msg, code)] *)
Definition Error (w : ResponseWriter) (msg : string) (code : Z) : ResponseWriter :=
  {| Status := match Status w with None => Some code | st => st end;
     Body := Body w ++ msg ++ String (chr 10) "" |}.

(** [http.Handler], run over a world [W]. *)
Definition Handler (W : Type) : Type :=
  ResponseWriter -> Request -> W -> res (ResponseWriter * W).

(** [io.CopyN(dst, src, n)] into an empty buffer: the bytes copied,
    their number and the error. *)
Definition CopyN (src : Part) (n : Z) : string * Z * option error :=
  let n' := Z.max n 0 in
  if n' <=? slen (Content src)
  then (stake n' (Content src), n', None)
  else (Content src, slen (Content src),
        Some (match ReadErr src with Some e => e | None => EOF end)).

End nethttp.

(** * Package transport/http *)

Module http.
Import nethttp.

Definition ContextKey (i : Z) : Key := {| keyType := "http.ContextKey"; keyVal := i |}.
Definition ContextKeyURLParams : Key := ContextKey 16.

Definition ApikeyFromHeader (r : Request) : string :=
  textproto.Get (Header r) "X-Api-Key".

Section Transport.
(** The Unicode case tables behind [strings.ToUpper]. *)
Variable upperTable : Z -> Z.

(** [func TokenFromHeader(r) string] *)
Definition TokenFromHeader (r : Request) : string :=
  let bearer := textproto.Get (Header r) "Authorization" in
  if (slen bearer >? 7)
     && String.eqb (strings.ToUpper upperTable (stake 7 bearer)) "BEARER "
  then sdrop 7 bearer
  else "".

Context {W : Type}.
Variable lib : jwt.Library.

(** The key callback of the HTTP middlewares; the expected method
    comes from the options. *)
Definition httpKeyfunc (method : jwt.SigningMethod) (keyFn : jwt.Keyfunc) : jwt.Keyfunc :=
  fun token =>
    if negb (jwt.SigningMethod_eqb (jwt.Method token) method)
    then Done (None, Some api.ErrUnexpectedSigningMethod)
    else keyFn token.

Definition optionsOf (options : list api.JwtOption)
  : api.ClaimsFactory * jwt.SigningMethod * list jwt.ParserOption :=
  let opt := api.applyOptions options api.DefaultJwtOptions in
  (match api.ClaimFactory opt with
   | None => api.StandardClaimsFactory
   | Some f => f
   end,
   match api.JwtSigningMethod opt with
   | None => jwt.SigningMethodHS256
   | Some m => m
   end,
   api.ParserOptions opt).

Definition errorText (err : error) : string :=
  match err with
  | errorString _ msg => msg
  | _ => ""
  end.

(** [func MakeHttpJwtMiddleware(keyFn, options...)] *)
Definition MakeHttpJwtMiddleware (keyFn : jwt.Keyfunc) (options : list api.JwtOption)
           (next : Handler W) : Handler W :=
  fun w r world =>
    let tokenString := TokenFromHeader r in
    if String.eqb tokenString ""
    then Done (Error w "Not Authorized" apikit.StatusUnauthorized, world)
    else
      let '(claimFactory, jwtSigningMethod, parserOptions) := optionsOf options in
      let? parsed := jwt.ParseWithClaims lib tokenString (claimFactory tt)
                       (httpKeyfunc jwtSigningMethod keyFn) parserOptions in
      match parsed with
      | inr err => Done (Error w (api.ParseJwtError err) apikit.StatusUnauthorized, world)
      | inl token =>
          if negb (jwt.Valid token)
          then Done (Error w (errorText api.ErrTokenInvalid) apikit.StatusUnauthorized, world)
          else
            let c := WithValue (ctx r) api.ContextKeyJWTToken (AString tokenString) in
            let c := WithValue c api.ContextKeyAuthClaims (AClaims (jwt.TokenClaims token)) in
            let r := WithContext r c in
            next w r world
      end.

(** [func MakeHttpApikeyMiddleware(validateFn)].  The two
    [r.WithContext(...)] statements build copies of the request and
    drop them; [r] itself goes on to [next]. *)
Definition MakeHttpApikeyMiddleware (validateFn : string -> option any)
           (next : Handler W) : Handler W :=
  fun w r world =>
    let apikey := ApikeyFromHeader r in
    if String.eqb apikey ""
    then Done (Error w "Apikey required. Authorized" apikit.StatusUnauthorized, world)
    else
      match validateFn apikey with
      | None =>
          Done (Error w "Apikey Validation failed. Not Authorized"
                      apikit.StatusUnauthorized, world)
      | Some claims =>
          let _ := WithContext r (WithValue (ctx r) api.ContextKeyAuthClaims claims) in
          let _ := WithContext r (WithValue (ctx r) api.ContextKeyApikey (AString apikey)) in
          next w r world
      end.

(** [func MakeHttpJwtAndApikeyMiddleware(jwtKeyFn, apikeyValidateFn, options...)] *)
Definition MakeHttpJwtAndApikeyMiddleware (jwtKeyFn : jwt.Keyfunc)
           (apikeyValidateFn : string -> option any) (options : list api.JwtOption)
           (next : Handler W) : Handler W :=
  fun w r world =>
    let tokenString := TokenFromHeader r in
    let apikey := ApikeyFromHeader r in
    if String.eqb tokenString "" && String.eqb apikey ""
    then Done (Error w "Not Authorized" apikit.StatusUnauthorized, world)
    else
      let '(claimFactory, jwtSigningMethod, parserOptions) := optionsOf options in
      if negb (String.eqb tokenString "")
      then
        let? parsed := jwt.ParseWithClaims lib tokenString (claimFactory tt)
                         (httpKeyfunc jwtSigningMethod jwtKeyFn) parserOptions in
        match parsed with
        | inr err => Done (Error w (api.ParseJwtError err) apikit.StatusUnauthorized, world)
        | inl token =>
            if negb (jwt.Valid token)
            then Done (Error w (errorText api.ErrTokenInvalid)
                             apikit.StatusUnauthorized, world)
            else
              let _ := WithContext r (WithValue (ctx r) api.ContextKeyAuthClaims
                                                (AClaims (jwt.TokenClaims token))) in
              let _ := WithContext r (WithValue (ctx r) api.ContextKeyJWTToken
                                                (AString tokenString)) in
              next w r world
        end
      else
        match apikeyValidateFn apikey with
        | None =>
            Done (Error w "Apikey Validation failed. Not Authorized"
                        apikit.StatusUnauthorized, world)
        | Some claims =>
            let _ := WithContext r (WithValue (ctx r) api.ContextKeyAuthClaims claims) in
            let _ := WithContext r (WithValue (ctx r) api.ContextKeyApikey
                                              (AString apikey)) in
            next w r world
        end.

End Transport.

End http.

(** ** Request decoders for multipart bodies *)

Module decode.
Import nethttp.

(** [url.Values] *)
Abbreviation Values := (gmap string (list string)).

(** [formData[name] = append(formData[name], v)] *)
Definition appendValue (formData : Values) (name v : string) : Values :=
  <[name := (default [] (formData !! name) ++ [v])%list]> formData.

(** [r.URL.Query()] with the URL parameters of the context added, one
    value per parameter. *)
Definition queryWithParams (c : Context) (r : Request) : Values :=
  match Value c http.ContextKeyURLParams with
  | Some (AStringMap params) =>
      merge (fun q p =>
               match p with
               | None => q
               | Some v => Some (default [] q ++ [v])%list
               end) (Query r) params
  | _ => Query r
  end.

(** The read end of the pipe a file part is streamed through: the bytes
    a reader gets before the stream ends, and the error it ends with
    ([None] for [io.EOF]).  The feeding goroutine itself is not
    modelled. *)
Record Stream : Type := {
  Data : string;
  Err : option error;
}.

Definition isEOF (e : error) : bool :=
  match e with
  | EOF => true
  | _ => false
  end.

(** The in-memory cap [5 * 1024 * 1024] of the decoders. *)
Definition defaultMaxMemory : Z := 5 * 1024 * 1024.

(** A non-file part that fits the cap and ends cleanly. *)
Definition isField (maxMemory : Z) (p : Part) : bool :=
  String.eqb (FileName p) "" && (slen (Content p) <=? maxMemory)
  && match ReadErr p with None => true | Some _ => false end.

(** A part within its limit that ends cleanly: a non-file part within
    the cap, or a file part within the file-size limit. *)
Definition isWithin (maxMemory maxFileSize : Z) (p : Part) : bool :=
  match ReadErr p with
  | Some _ => false
  | None =>
      if String.eqb (FileName p) "" then slen (Content p) <=? maxMemory
      else slen (Content p) <=? maxFileSize
  end.

(** The form data after the parts [ps], each stored under its form name
    with its whole content. *)
Definition collect (ps : list Part) (formData : Values) : Values :=
  fold_left (fun fd p => appendValue fd (FormName p) (Content p)) ps formData.

Section Decoders.
(** The request type [T], its zero value [new(T)], and the binders of
    the repository that are outside the source tree. *)
Variable T : Type.
Variable newT : T.
Variable AddFileStream : string -> Stream -> string -> T -> T.
Variable SetFileStream : string -> string -> Stream -> string -> T -> T.
Variable BindFormData : T -> Values -> T * option error.
Variable BindURLQuery : T -> Values -> T * option error.
Variable Unmarshal : string -> T -> T * option error.
Variable ErrBadRequest : error.
Variable HeaderContentType : string.
Variable HttpContentTypeJson : string.

(** The part loop of the single-file decoders.  [inl] is the state at
    the [break] (or at [io.EOF]); [inr] is the error of an early
    return.  [closeWithError] tells whether the feeder passes a read
    error on to the pipe. *)
Fixpoint singleFileLoop (closeWithError : bool) (maxMemory : Z)
         (ps : list Part) (final : option error)
         (reqObj : T) (formData : Values) : (T * Values) + error :=
  match ps with
  | [] =>
      (* [if err == io.EOF { break }; if err != nil { return nil, err }] *)
      let err := default EOF final in
      if isEOF err then inl (reqObj, formData) else inr err
  | part :: rest =>
      let name := FormName part in
      let filename := FileName part in
      if String.eqb filename ""
      then
        let '(b, n, err) := CopyN part (maxMemory + 1) in
        match err with
        | Some e =>
            if negb (isEOF e) then inr e
            else if maxMemory - n <? 0
            then inr (fmt.Errorf "multipart: message to large")
            else singleFileLoop closeWithError maxMemory rest final reqObj
                                (appendValue formData name b)
        | None =>
            if maxMemory - n <? 0
            then inr (fmt.Errorf "multipart: message to large")
            else singleFileLoop closeWithError maxMemory rest final reqObj
                                (appendValue formData name b)
        end
      else
        let pr := {| Data := Content part;
                     Err := if closeWithError then ReadErr part else None |} in
        inl (AddFileStream filename pr (textproto.Get (PartHeader part) "content-type")
                           reqObj, formData)
  end.

(** The binding passes that follow the loop. *)
Definition bindAll (c : Context) (r : Request) (reqObj : T) (formData : Values)
  : option T * option error :=
  match BindFormData reqObj formData with
  | (_, Some err) => (None, Some err)
  | (reqObj, None) =>
      match BindURLQuery reqObj (queryWithParams c r) with
      | (_, Some err) => (None, Some err)
      | (reqObj, None) => (Some reqObj, None)
      end
  end.

(** [DefaultSingleFileUploadStreamDecoder] with its cap as a
    parameter.  An early return hands back the fresh [reqObj]. *)
Definition DefaultSingleFileUploadStreamDecoderWith (maxMemory : Z)
           (c : Context) (r : Request) : option T * option error :=
  match Multipart r with
  | inr err => (Some newT, Some err)
  | inl reader =>
      match singleFileLoop true maxMemory (parts reader) (final reader) newT ∅ with
      | inr err => (Some newT, Some err)
      | inl (reqObj, formData) => bindAll c r reqObj formData
      end
  end.

Definition DefaultSingleFileUploadStreamDecoder :=
  DefaultSingleFileUploadStreamDecoderWith defaultMaxMemory.

(** The generic [CommonFileUploadStreamDecoder] (kept as
    [OldCommonFileUploadStreamDecoder]) with its cap as a parameter.
    An early return hands back nil. *)
Definition CommonFileUploadStreamDecoderWith (maxMemory : Z)
           (c : Context) (r : Request) : option T * option error :=
  match Multipart r with
  | inr err => (None, Some err)
  | inl reader =>
      match singleFileLoop false maxMemory (parts reader) (final reader) newT ∅ with
      | inr err => (None, Some err)
      | inl (reqObj, formData) => bindAll c r reqObj formData
      end
  end.

Definition CommonFileUploadStreamDecoder :=
  CommonFileUploadStreamDecoderWith defaultMaxMemory.

(** The part loop of [CreateMultipartStreamDecoder]: every part is
    read, files into a buffer of at most [maxFileSize] bytes. *)
Fixpoint multipartLoop (maxDataMemory maxFileSize : Z)
         (ps : list Part) (final : option error)
         (reqObj : T) (formData : Values) (jsonData : list string)
  : (T * Values * list string) + error :=
  match ps with
  | [] =>
      (* [if err == io.EOF { break }; if err != nil { return nil, err }] *)
      let err := default EOF final in
      if isEOF err then inl (reqObj, formData, jsonData) else inr err
  | part :: rest =>
      let name := FormName part in
      let filename := FileName part in
      if String.eqb filename ""
      then
        let '(b, n, err) := CopyN part (maxDataMemory + 1) in
        if match err with Some e => negb (isEOF e) | None => false end
        then inr (default EOF err)
        else if maxDataMemory - n <? 0
        then inr (fmt.Errorfw ". multipart: message too large" ErrBadRequest)
        else if String.eqb (textproto.Get (PartHeader part) HeaderContentType)
                           HttpContentTypeJson
        then multipartLoop maxDataMemory maxFileSize rest final reqObj formData
                           (jsonData ++ [b])%list
        else multipartLoop maxDataMemory maxFileSize rest final reqObj
                           (appendValue formData name b) jsonData
      else
        let '(b, n, err) := CopyN part (maxFileSize + 1) in
        if match err with Some e => negb (isEOF e) | None => false end
        then inr (default EOF err)
        else if maxFileSize - n <? 0
        then inr (fmt.Errorfw ". multipart: file too large" ErrBadRequest)
        else multipartLoop maxDataMemory maxFileSize rest final
               (SetFileStream name filename {| Data := b; Err := None |}
                              (textproto.Get (PartHeader part) "content-type") reqObj)
               formData jsonData
  end.

(** How the buffering loop sorts the parts it reads: a non-file part
    whose content-type header is the JSON type goes to [jsonData], every
    other non-file part is a form value, and a file part is handed to
    [SetFileStream] with its buffered content. *)
Definition isJson (p : Part) : bool :=
  String.eqb (FileName p) ""
  && String.eqb (textproto.Get (PartHeader p) HeaderContentType) HttpContentTypeJson.

Definition isFormValue (p : Part) : bool :=
  String.eqb (FileName p) ""
  && negb (String.eqb (textproto.Get (PartHeader p) HeaderContentType) HttpContentTypeJson).

Definition buffered (ps : list Part) (reqObj : T) : T :=
  fold_left (fun obj p =>
               if String.eqb (FileName p) "" then obj
               else SetFileStream (FormName p) (FileName p)
                                  {| Data := Content p; Err := None |}
                                  (textproto.Get (PartHeader p) "content-type") obj)
            ps reqObj.

(** [for i := range jsonData { json.Unmarshal(jsonData[i], reqObj) }] *)
Fixpoint unmarshalAll (jsonData : list string) (reqObj : T) : T * option error :=
  match jsonData with
  | [] => (reqObj, None)
  | j :: rest =>
      match Unmarshal j reqObj with
      | (reqObj, Some err) => (reqObj, Some err)
      | (reqObj, None) => unmarshalAll rest reqObj
      end
  end.

Definition CreateMultipartStreamDecoderWith (maxDataMemory maxFileSize : Z)
           (c : Context) (r : Request) : option T * option error :=
  match Multipart r with
  | inr err => (None, Some err)
  | inl reader =>
      match multipartLoop maxDataMemory maxFileSize (parts reader) (final reader)
                          newT ∅ [] with
      | inr err => (None, Some err)
      | inl (reqObj, formData, jsonData) =>
          match BindFormData reqObj formData with
          | (_, Some err) => (None, Some err)
          | (reqObj, None) =>
              match unmarshalAll jsonData reqObj with
              | (_, Some err) => (None, Some err)
              | (reqObj, None) =>
                  match BindURLQuery reqObj (queryWithParams c r) with
                  | (_, Some err) => (None, Some err)
                  | (reqObj, None) => (Some reqObj, None)
                  end
              end
          end
      end
  end.

(** [func CreateMultipartStreamDecoder(maxFileSize int64)] *)
Definition CreateMultipartStreamDecoder (maxFileSize : Z) :=
  CreateMultipartStreamDecoderWith defaultMaxMemory maxFileSize.

End Decoders.

End decode.

(** * Package result (result/result.go) *)

Module result.

Section Result.
Context {T : Type}.

(** [type result[T any] struct { val T; err error }] *)
Record result : Type := { val : T; err : option error }.

Definition IsErr (r : result) : bool :=
  match err r with
  | Some _ => true
  | None => false
  end.

Definition IsOk (r : result) : bool := negb (IsErr r).

(** [func (r result[T]) Map(fn func(val T)) Result[T]]; the variables the
    callback writes to are the state [S]. *)
Definition Map {S : Type} (r : result) (fn : T -> S -> S) (s : S) : result * S :=
  if IsOk r then (r, fn (val r) s) else (r, s).

(** [func (r result[T]) MapErr(fn func(err error)) Result[T]] *)
Definition MapErr {S : Type} (r : result) (fn : error -> S -> S) (s : S) : result * S :=
  match err r with
  | Some e => (r, fn e s)
  | None => (r, s)
  end.

Definition Ok (v : T) : result := {| val := v; err := None |}.

(** [func Err[T any](err error) Result[T]]; [zero] is the zero value of
    [T], and the argument may be the nil error. *)
Definition Err (zero : T) (e : option error) : result := {| val := zero; err := e |}.

(** [func UnwrapOrElse[T any](res Result[T], elseVal T) T] *)
Definition UnwrapOrElse (res : result) (elseVal : T) : T :=
  snd (Map res (fun v _ => v) elseVal).

End Result.

Arguments result T : clear implicits.

(** [func MapResult[T, U any](res Result[T], mapFn func(T) U) Result[U]];
    [None] is the nil interface [newRes] starts as. *)
Definition MapResult {T U : Type} (zeroU : U) (res : result T) (mapFn : T -> U)
  : option (result U) :=
  let newRes : option (result U) := None in
  let '(res1, newRes) := Map res (fun v _ => Some (Ok (mapFn v))) newRes in
  let '(_, newRes) := MapErr res1 (fun e _ => Some (Err zeroU (Some e))) newRes in
  newRes.

End result.

(** * Package apikit: response envelopes and endpoint logging
      (response.go, logging.go) *)

Module response.

Record PaginationDTO : Type := { Page : Z; Total : Z }.

Record BaseResponse : Type := {
  RequestID : string;
  StatusCode : Z;
  StatusText : string;
  Data : option any;
  Error : string;
  Pagination : option PaginationDTO;
}.

(** [func SuccessResponse(requestID, data, pagination...) BaseResponse] *)
Definition SuccessResponse (requestID : string) (data : option any)
           (pagination : list PaginationDTO) : BaseResponse :=
  {| RequestID := requestID; StatusCode := 200; StatusText := "success";
     Data := data; Error := "";
     Pagination := match pagination with
                   | [] => None
                   | first :: _ => Some first
                   end |}.

Section ErrorResponse.
(** [http.StatusText] and the [Error] method of error values. *)
Variable httpStatusText : Z -> string.
Variable errorMessage : error -> string.

(** [func ErrorResponse(requestID, code, err) BaseResponse]: three
    independent [if] statements, each overwriting [code]. *)
Definition ErrorResponse (requestID : string) (code : Z) (e : error) : BaseResponse :=
  let code := if errors.Is e apikit.ErrBadRequest then 400 else code in
  let code := if errors.Is e apikit.ErrInvalidUserPassword then 401 else code in
  let code := if errors.Is e apikit.ErrKeynotFound then apikit.StatusNotFound else code in
  {| RequestID := requestID; StatusCode := code; StatusText := httpStatusText code;
     Data := None; Error := errorMessage e; Pagination := None |}.

End ErrorResponse.

End response.

Module logging.

(** A value of the key/value list handed to a logger. *)
Inductive logValue : Type :=
| LString (s : string)
| LTime (t : Z)
| LDuration (d : Z).

(** The two methods of [log.Logger] the middleware calls, as effects on
    the world. *)
Record Logger (W : Type) : Type := {
  Info : string -> list logValue -> W -> W;
  Error : string -> list logValue -> W -> W;
}.
Arguments Info {W} _ _ _ _.
Arguments Error {W} _ _ _ _.

Section Logging.
Context {W I O : Type}.
(** [router.ReqIDFromContext], the clock read by [time.Now], the [Error]
    method of error values, [http.StatusText], and the conversion of a
    [BaseResponse] to the interface value an endpoint returns. *)
Variable ReqIDFromContext : Context -> option string.
Variable now : W -> Z.
Variable errorMessage : error -> string.
Variable httpStatusText : Z -> string.
Variable box : response.BaseResponse -> O.

(** [func MakeEndpointLoggingMiddleware(logger, endPointMethod)
    endpoint.Middleware]; a nil logger gives the nil middleware.  The
    deferred function logs once, also when [next] panics. *)
Definition MakeEndpointLoggingMiddleware (logger : option (Logger W))
           (endPointMethod : string) : option (api.Middleware W I O) :=
  match logger with
  | None => None
  | Some logger =>
      Some (fun next c request w =>
        let reqid := match ReqIDFromContext c with
                     | Some id => id
                     | None => ""
                     end in
        let fields := [LString "event"; LString "endpoint return";
                       LString "request-id"; LString reqid;
                       LString "endpoint"; LString endPointMethod;
                       LString "ts"; LTime (now w)] in
        let begin := now w in
        match next c request w with
        | (Panicked msg, w') =>
            let fields := (fields ++ [LString "duration"; LDuration (now w' - begin)])%list in
            (Panicked msg, Info logger "request success" fields w')
        | (Done (result, e), w') =>
            let result := match e with
                          | Some e' => box (response.ErrorResponse httpStatusText errorMessage
                                                                   reqid 500 e')
                          | None => result
                          end in
            let fields := (fields ++ [LString "duration"; LDuration (now w' - begin)])%list in
            match e with
            | Some e' =>
                let fields := (fields ++ [LString "error"; LString (errorMessage e')])%list in
                if apikit.Err2code e' =? 500
                then (Done (result, e), Error logger "request failed" fields w')
                else (Done (result, e), Info logger "request success" fields w')
            | None => (Done (result, e), Info logger "request success" fields w')
            end
        end)
  end.

End Logging.

End logging.

(** * Package transport/http: URL parameters and the streaming decoder *)

Module transport.
Import nethttp.

(** The URL parameters of the matched route as chi keeps them: the keys
    and, index by index, their values. *)
Record RouteParams : Type := { Keys : list string; Values : list string }.

(** The loop [for idx, key := range keys] of [ChiURLParamIntoContext],
    from index [idx] on. *)
Fixpoint routeLoop (keys : list string) (values : list string) (idx : Z)
         (params : gmap string string) : res (gmap string string) :=
  match keys with
  | [] => Done params
  | key :: keys' =>
      if negb (String.eqb key "*")
      then let? v := index values idx in
           routeLoop keys' values (idx + 1) (<[key := v]> params)
      else routeLoop keys' values (idx + 1) params
  end.

Section Chi.
(** [chi.RouteContext]. *)
Variable RouteContext : Context -> option RouteParams.

(** [func ChiURLParamIntoContext(ctx, r) context.Context] *)
Definition ChiURLParamIntoContext (c : Context) (r : Request) : res Context :=
  let? params :=
    match RouteContext c with
    | Some rctx => routeLoop (Keys rctx) (Values rctx) 0 ∅
    | None => Done ∅
    end in
  Done (WithValue c http.ContextKeyURLParams (AStringMap params)).

End Chi.

Definition ContextKeyRequestHost : Key := http.ContextKey 4.
Definition ContextKeyRequestScheme : Key := http.ContextKey 20.

(** [func GetBaseUrlFromContext(ctx) string] *)
Definition GetBaseUrlFromContext (c : Context) : string :=
  match as_string (Value c ContextKeyRequestHost) with
  | None => ""
  | Some host =>
      match as_string (Value c ContextKeyRequestScheme) with
      | None => ""
      | Some proto => proto ++ "://" ++ host
      end
  end.

(** [r.URL.Query()] with every URL parameter of the context set in place
    of the values of its key ([query.Set]). *)
Definition queryWithParamsSet (c : Context) (r : Request) : gmap string (list string) :=
  match Value c http.ContextKeyURLParams with
  | Some (AStringMap params) =>
      merge (fun q p =>
               match p with
               | None => q
               | Some v => Some [v]
               end) (Query r) params
  | _ => Query r
  end.

(** [url.Values.Get] *)
Definition ValuesGet (v : gmap string (list string)) (key : string) : string :=
  match v !! key with
  | Some (first :: _) => first
  | _ => ""
  end.

(** [func DefaultGetByIDStringRequestDecoder(ctx, r) (string, error)] *)
Definition DefaultGetByIDStringRequestDecoder (c : Context) (r : Request)
  : string * option error :=
  (ValuesGet (queryWithParamsSet c r) "id", None).

(** [type FileStreamObject struct], without its [Reader]: that is the
    read end of a pipe a further goroutine copies the part into while the
    producer goes on to the next part, so what it yields depends on the
    scheduling and is not modelled. *)
Record FileStreamObject : Type := {
  Name : string;
  FileName_ : string;
  ContentType : string;
}.

(** The producer of the multi-file decoder: the file objects it sends on
    the file channel, in order, and the error it sends on the error
    channel before it closes both.  The receiving side is not
    modelled. *)
Fixpoint streamLoop (ps : list Part) (final : option error)
  : list FileStreamObject * option error :=
  match ps with
  | [] =>
      (* [if err == io.EOF { break }; if err != nil { errChan <- err; return }] *)
      let err := default EOF final in
      if decode.isEOF err then ([], None) else ([], Some err)
  | part :: rest =>
      if String.eqb (FileName part) ""
      then streamLoop rest final
      else
        let '(files, e) := streamLoop rest final in
        ({| Name := FormName part; FileName_ := FileName part;
            ContentType := textproto.Get (PartHeader part) "content-type" |}
           :: files, e)
  end.

(** [type FileUploadStreamRequestDTO struct], with the channels as what
    is sent on them. *)
Record FileUploadStreamRequestDTO : Type := {
  DTOQuery : gmap string (list string);
  FileChan : list FileStreamObject;
  ErrChan : option error;
}.

(** [func CommonFileUploadStreamDecoder(ctx, r) (FileUploadStreamRequestDTO, error)] *)
Definition CommonFileUploadStreamDecoder (c : Context) (r : Request)
  : FileUploadStreamRequestDTO * option error :=
  let query := decode.queryWithParams c r in
  match Multipart r with
  | inr e => ({| DTOQuery := ∅; FileChan := []; ErrChan := None |}, Some e)
  | inl reader =>
      let '(files, e) := streamLoop (parts reader) (final reader) in
      ({| DTOQuery := query; FileChan := files; ErrChan := e |}, None)
  end.

End transport.

(** * Fixtures

    Concrete handlers, tokens and bodies on which the properties below are
    exercised. *)

Module fixtures.

(** A middleware that logs around the call of the endpoint it wraps. *)
Definition logging (name : string) : api.Middleware (list string) unit unit :=
  fun next c request w =>
    let '(r, w') := next c request (w ++ [(name ++ ":pre")%string])%list in
    (r, (w' ++ [(name ++ ":post")%string])%list).

Definition business : api.Endpoint (list string) unit unit :=
  fun _ _ w => (Done (tt, None), (w ++ ["H"])%list).

(** An endpoint that only counts its invocations. *)
Definition tick : api.Endpoint unit unit unit :=
  fun _ _ w => (Done (tt, None), w).

Definition tokenOf (method : jwt.SigningMethod) (kid : string) : jwt.Token :=
  api.withKid (jwt.NewWithClaims method (api.StandardClaimsFactory tt)) (AString kid).

(** A stand-in for the token library that knows three token strings. *)
Definition lib : jwt.Library :=
  {| jwt.ParseUnverified := fun tokenString _ =>
       if String.eqb tokenString "hs256.kid0.sig"
       then inl (tokenOf jwt.SigningMethodHS256 "0", ("hs256.kid0", "sig"))
       else if String.eqb tokenString "hs384.kid0.sig"
       then inl (tokenOf jwt.SigningMethodHS384 "0", ("hs384.kid0", "sig"))
       else if String.eqb tokenString "hs256.kid-1.sig"
       then inl (tokenOf jwt.SigningMethodHS256 "-1", ("hs256.kid-1", "sig"))
       else inr (jwtError MalformedTokenError
                          "token contains an invalid number of segments");
     jwt.Verify := fun _ _ sig key =>
       match key with
       | Some (ABytes _) => if String.eqb sig "sig" then None
                            else Some (fmt.Errorf "signature is invalid")
       | _ => Some (fmt.Errorf "key is of invalid type")
       end;
     jwt.ClaimsValid := fun _ _ => None;
     jwt.SignedString := fun token _ =>
       match jwt.Header token !! "kid" with
       | Some (AString kid) => ("hs256.kid" ++ kid ++ ".sig", None)
       | _ => ("", Some (fmt.Errorf "no kid"))
       end |}.

Definition withToken (tokenString : string) : Context :=
  WithValue Background api.ContextKeyJWTToken (AString tokenString).

(** An HTTP handler that records the claims and the API key it finds in
    the context of the request it is handed. *)
Definition spy : nethttp.Handler (list (option any * string)) :=
  fun w r world =>
    Done (w, (world ++ [(Value (nethttp.ctx r) api.ContextKeyAuthClaims,
                         api.GetApikeyFromContext (nethttp.ctx r))])%list).

Definition ErrNotMultipart : error :=
  errors.New "http" "ErrNotMultipart" "request Content-Type isn't multipart/form-data".

Definition requestWith (h : textproto.MIMEHeader) : nethttp.Request :=
  {| nethttp.Header := h; nethttp.ctx := Background; nethttp.Query := ∅;
     nethttp.Multipart := inr ErrNotMultipart |}.

Definition apikeyRequest : nethttp.Request :=
  requestWith {[ "X-Api-Key" := ["k-123"] ]}.

Definition serviceClaims : any := AClaims (ClaimsMap [("role", "service")]).

Definition validateFn (apikey : string) : option any :=
  if String.eqb apikey "k-123" then Some serviceClaims else None.

Definition bearerRequest (authorization : string) : nethttp.Request :=
  requestWith {[ "Authorization" := [authorization] ]}.

Definition noTable : Z -> Z := fun r => r.

(** A request type for uploads and its binders: the file, the bound form
    fields, the bound query and the JSON documents are kept as they
    arrive. *)
Record Upload : Type := {
  File : option (string * string * decode.Stream * string);
  Form : gmap string (list string);
  Params : gmap string (list string);
  Json : list string;
}.

Definition newUpload : Upload := {| File := None; Form := ∅; Params := ∅; Json := [] |}.

Definition AddFileStream (fileName : string) (reader : decode.Stream)
           (contentType : string) (u : Upload) : Upload :=
  {| File := Some ("", fileName, reader, contentType);
     Form := Form u; Params := Params u; Json := Json u |}.

Definition SetFileStream (formName fileName : string) (reader : decode.Stream)
           (contentType : string) (u : Upload) : Upload :=
  {| File := Some (formName, fileName, reader, contentType);
     Form := Form u; Params := Params u; Json := Json u |}.

Definition BindFormData (u : Upload) (formData : gmap string (list string))
  : Upload * option error :=
  ({| File := File u; Form := formData; Params := Params u; Json := Json u |}, None).

Definition BindURLQuery (u : Upload) (query : gmap string (list string))
  : Upload * option error :=
  ({| File := File u; Form := Form u; Params := query; Json := Json u |}, None).

Definition Unmarshal (doc : string) (u : Upload) : Upload * option error :=
  ({| File := File u; Form := Form u; Params := Params u;
      Json := (Json u ++ [doc])%list |}, None).

Definition field (name value : string) : nethttp.Part :=
  {| nethttp.FormName := name; nethttp.FileName := "";
     nethttp.PartHeader := ∅; nethttp.Content := value; nethttp.ReadErr := None |}.

Definition file (name fileName contentType content : string) : nethttp.Part :=
  {| nethttp.FormName := name; nethttp.FileName := fileName;
     nethttp.PartHeader := {[ "Content-Type" := [contentType] ]};
     nethttp.Content := content; nethttp.ReadErr := None |}.

Definition upload (ps : list nethttp.Part) : nethttp.Request :=
  {| nethttp.Header := ∅; nethttp.ctx := Background; nethttp.Query := ∅;
     nethttp.Multipart := inl {| nethttp.parts := ps; nethttp.final := None |} |}.

Definition doc : nethttp.Part := file "doc" "report.pdf" "application/pdf" "%PDF-1.7".

(** A value of 5 MiB + 1 bytes. *)
Definition oversize : string := N.iter 5242881 (String "x") "".

End fixtures.

(** ** Further fixtures *)

Module fixtures2.

(** A stand-in for the token library that knows one token, signed with
    HS256 and carrying "kid" = "7". *)
Definition lib : jwt.Library :=
  {| jwt.ParseUnverified := fun tokenString _ =>
       if String.eqb tokenString "hs256.kid7.sig"
       then inl (fixtures.tokenOf jwt.SigningMethodHS256 "7", ("hs256.kid7", "sig"))
       else inr (jwtError MalformedTokenError
                          "token contains an invalid number of segments");
     jwt.Verify := jwt.Verify fixtures.lib;
     jwt.ClaimsValid := jwt.ClaimsValid fixtures.lib;
     jwt.SignedString := jwt.SignedString fixtures.lib |}.

End fixtures2.

Module fixtures3.

(** A logger that records the level and the message of each call. *)
Definition recorder : logging.Logger (list (string * string)) :=
  {| logging.Info := fun msg _ w => (w ++ [("info", msg)])%list;
     logging.Error := fun msg _ w => (w ++ [("error", msg)])%list |}.

(** An endpoint that fails with the given error. *)
Definition failing (e : error) : api.Endpoint (list (string * string)) unit (option any) :=
  fun _ _ w => (Done (None, Some e), w).

Definition statusText (code : Z) : string :=
  if code =? 404 then "Not Found" else if code =? 500 then "Internal Server Error" else "".

Definition boxed (r : response.BaseResponse) : option any :=
  Some (ANumber (response.StatusCode r)).

End fixtures3.

Module fixtures4.

(** A non-file part whose read breaks off with an error. *)
Definition broken : nethttp.Part :=
  {| nethttp.FormName := "note"; nethttp.FileName := "";
     nethttp.PartHeader := ∅; nethttp.Content := "ab";
     nethttp.ReadErr := Some (fmt.Errorf "unexpected EOF") |}.

Definition uploadOf (ps : list nethttp.Part) (final : option error) : nethttp.Request :=
  {| nethttp.Header := ∅; nethttp.ctx := Background; nethttp.Query := ∅;
     nethttp.Multipart := inl {| nethttp.parts := ps; nethttp.final := final |} |}.

Definition route : transport.RouteParams :=
  {| transport.Keys := ["id"; "*"]; transport.Values := ["42"; "rest/of/path"] |}.

End fixtures4.

(** The values a body carries under a form name: the contents of its
    parts of that name, in arrival order; [None] when there is no such
    part. *)
Definition valuesOf (name : string) (ps : list nethttp.Part) : option (list string) :=
  match map nethttp.Content
            (List.filter (fun p => String.eqb (nethttp.FormName p) name) ps) with
  | [] => None
  | values => Some values
  end.

(** What the streaming decoder makes of a file-bearing part: the fields of
    the [FileStreamObject] it sends, the reader apart. *)
Definition fileObject (p : nethttp.Part) : transport.FileStreamObject :=
  {| transport.Name := nethttp.FormName p;
     transport.FileName_ := nethttp.FileName p;
     transport.ContentType := textproto.Get (nethttp.PartHeader p) "content-type" |}.

(** * Properties *)

(** ** Endpoint composition *)

Section ChainFacts.
Context {W I O : Type}.
Implicit Types (ms others : list (api.Middleware W I O)) (h next : api.Endpoint W I O).

Lemma nested_app ms1 ms2 h :
  api.nested (ms1 ++ ms2) h = api.nested ms1 (api.nested ms2 h).
Proof. induction ms1 as [|m ms1 IH]; simpl; [reflexivity | now rewrite IH]. Qed.

(** The countdown loop over a prefix [pre] of the slice nests [pre]
    around the endpoint. *)
Lemma chainLoop_prefix pre post next :
  api.chainLoop (pre ++ post) (length pre) next = api.nested pre next.
Proof.
  revert post next. induction pre as [|m pre IH] using rev_ind; intros post next.
  - reflexivity.
  - rewrite length_app, Nat.add_1_r. simpl.
    rewrite <- app_assoc. simpl.
    rewrite (lookup_app_r pre) by lia. rewrite Nat.sub_diag. simpl.
    rewrite IH. now rewrite nested_app.
Qed.

Lemma chainLoop_nested others next :
  api.chainLoop others (length others) next = api.nested others next.
Proof.
  rewrite <- (app_nil_r others) at 1. apply chainLoop_prefix.
Qed.

Lemma Chain_unfold outer others next :
  api.Chain outer others next = outer (api.nested others next).
Proof. unfold api.Chain. now rewrite chainLoop_nested. Qed.

Lemma Endpoint_Chain_unfold h outer others :
  api.Endpoint_Chain h outer others = api.nested (outer :: others) h.
Proof. unfold api.Endpoint_Chain. now rewrite chainLoop_nested. Qed.

(** C3.  For the middleware [M0], every list [M1; ...; Mn] of further
    middlewares (n >= 0) and every handler [h], the endpoint composed by
    [Chain(M0, M1, ..., Mn)(h)] is the nested application
    [M0 (M1 (... (Mn h)))] of the design document, the first-declared
    middleware outermost; the method form [h.Chain(M0, M1, ..., Mn)] is
    the same endpoint.  The composition of the further middlewares is
    the identity when there are none, and a chain splits at any point
    into the chain of its front applied to the composition of its
    back. *)
Theorem Chain_is_nested_application outer others others' h :
  api.Chain outer others h = api.nested (outer :: others) h /\
  api.Endpoint_Chain h outer others = api.Chain outer others h /\
  api.Chain outer (others ++ others') h = api.Chain outer others (api.nested others' h).
Proof.
  split; [apply Chain_unfold|]. split.
  - now rewrite Endpoint_Chain_unfold, Chain_unfold.
  - now rewrite !Chain_unfold, nested_app.
Qed.

End ChainFacts.

(** With no further middleware the loop leaves the handler as it is and
    the composition is the outer middleware. *)
Lemma Chain_single_is_outer {W I O} (outer : api.Middleware W I O) h :
  api.Chain outer [] h = outer h.
Proof. reflexivity. Qed.

(** Invocation order of [Chain(A, B)(H)]: A before, B before, H, B after,
    A after. *)
Example Chain_runs_outer_first :
  snd (api.Chain (fixtures.logging "A") [fixtures.logging "B"] fixtures.business
                 Background tt [])
  = ["A:pre"; "B:pre"; "H"; "B:post"; "A:post"].
Proof. reflexivity. Qed.

(** ** Key selection and key lookup *)

Lemma len_nonneg {A} (l : list A) : 0 <= len l.
Proof. unfold len. lia. Qed.

Lemma index_in_range {A} (l : list A) (n : Z) :
  0 <= n < len l -> exists x, index l n = Done x /\ l !! Z.to_nat n = Some x.
Proof.
  intros Hn. unfold index, len in *.
  destruct (Z.ltb_spec n 0) as [|_]; [lia|].
  destruct (l !! Z.to_nat n) as [x|] eqn:E.
  - now exists x.
  - apply lookup_ge_None in E. lia.
Qed.

Lemma index_negative {A} (l : list A) (n : Z) :
  n < 0 -> index l n = Panicked "index out of range".
Proof.
  intros Hn. unfold index. destruct (Z.ltb_spec n 0); [reflexivity | lia].
Qed.

(** With two or more keys the selected index lies in [[0, N-2]]: the
    range check never fires and the last key is never selected. *)
Lemma selectKeyIndex_many keys sample :
  2 <= len keys ->
  exists n, api.selectKeyIndex keys sample = Done n /\
            n = sample mod (len keys - 1) /\ 0 <= n <= len keys - 2.
Proof.
  intros HN. unfold api.selectKeyIndex, rand.Intn.
  destruct (Z.leb_spec (len keys - 1) 0) as [|_]; [lia|].
  simpl. pose proof (Z.mod_pos_bound sample (len keys - 1) ltac:(lia)) as Hb.
  exists (sample mod (len keys - 1)).
  destruct (Z.ltb_spec (sample mod (len keys - 1)) 0); [lia|].
  destruct (Z.gtb_spec (sample mod (len keys - 1)) (len keys - 1)); [lia|].
  simpl. repeat split; lia.
Qed.

(** With two or more keys [CreateToken] signs with the key at the
    selected index and stamps that index into the header as "kid". *)
Lemma CreateToken_many lib claimFactory keys sample :
  2 <= len keys ->
  exists n key,
    0 <= n <= len keys - 2 /\ keys !! Z.to_nat n = Some key /\
    api.CreateToken lib claimFactory keys sample =
      Done (jwt.SignedString lib
              (api.withKid (jwt.NewWithClaims api.jwtSigningMethod (claimFactory tt))
                           (AString (strconv.Itoa n)))
              (ABytes key)).
Proof.
  intros HN. destruct (selectKeyIndex_many keys sample HN) as (n & Hsel & _ & Hn).
  destruct (index_in_range keys n ltac:(lia)) as (key & Hidx & Hkey).
  exists n, key. split; [lia|]. split; [exact Hkey|].
  unfold api.CreateToken. rewrite Hsel. simpl. now rewrite Hidx.
Qed.

(** C1.  Evaluation of the code on a registry of exactly one key: the
    bound handed to [Intn] is [len(keys) - 1 = 0], so [CreateToken] panics
    for every state of the generator instead of selecting index 0. *)
Theorem CreateToken_single_key_panics lib claimFactory key sample :
  api.selectKeyIndex [key] sample = Panicked "invalid argument to Intn" /\
  api.CreateToken lib claimFactory [key] sample = Panicked "invalid argument to Intn".
Proof. split; reflexivity. Qed.

(** With the sixteen keys of api/auth_middleware.go the index stays
    below 15: the last key never signs a token. *)
Example last_default_key_never_selected sample :
  api.selectKeyIndex api.DefaultKeys16 sample <> Done 15.
Proof.
  destruct (selectKeyIndex_many api.DefaultKeys16 sample ltac:(vm_compute; discriminate))
    as (n & -> & _ & Hn).
  change (len api.DefaultKeys16) with 16 in Hn. intros [= ->]. lia.
Qed.

(** The range check of [CreateToken], taken on its own, does not clamp
    into the registry: with one key its fallback index 1 is out of
    range. *)
Example fallback_index_out_of_range :
  index api.DefaultKeys 1 = Panicked "index out of range".
Proof. reflexivity. Qed.

Lemma getKey_kid token kid keys :
  api.getKey (api.withKid token kid) keys =
  match kid with
  | AString k =>
      match strconv.Atoi k with
      | (_, Some e) => Done (None, Some (fmt.Errorfw "failed to parse the kid ID. " e))
      | (n, None) =>
          if n >? len keys - 1
          then Done (None, Some (fmt.Errorf "kid index is out of range"))
          else res_bind (index keys n) (fun key => Done (Some (ABytes key), None))
      end
  | _ => Panicked "interface conversion: interface {} is not string"
  end.
Proof.
  unfold api.getKey, api.withKid. simpl. rewrite lookup_insert_eq.
  destruct kid; reflexivity.
Qed.

(** A "kid" that parses to an index of the registry yields the secret at
    that index. *)
Lemma getKey_in_range token k keys n :
  strconv.Atoi k = (n, None) -> 0 <= n < len keys ->
  exists key, keys !! Z.to_nat n = Some key /\
              api.getKey (api.withKid token (AString k)) keys
              = Done (Some (ABytes key), None).
Proof.
  intros HA Hn. rewrite getKey_kid, HA.
  destruct (Z.gtb_spec n (len keys - 1)); [lia|].
  destruct (index_in_range keys n Hn) as (key & Hidx & Hkey).
  exists key. now rewrite Hidx.
Qed.

(** A "kid" at or above the registry length is a validation error. *)
Lemma getKey_too_large token k keys n :
  strconv.Atoi k = (n, None) -> len keys <= n ->
  api.getKey (api.withKid token (AString k)) keys
  = Done (None, Some (fmt.Errorf "kid index is out of range")).
Proof.
  intros HA Hn. rewrite getKey_kid, HA.
  destruct (Z.gtb_spec n (len keys - 1)); [reflexivity | lia].
Qed.

(** A "kid" that is not a number is a validation error. *)
Lemma getKey_not_numeric token k keys v e :
  strconv.Atoi k = (v, Some e) ->
  api.getKey (api.withKid token (AString k)) keys
  = Done (None, Some (fmt.Errorfw "failed to parse the kid ID. " e)).
Proof. intros HA. now rewrite getKey_kid, HA. Qed.

(** A negative "kid" passes the bounds check [n > len(keys) - 1] and
    reaches [keys[n]]. *)
Lemma getKey_negative token k keys n :
  strconv.Atoi k = (n, None) -> n < 0 ->
  api.getKey (api.withKid token (AString k)) keys = Panicked "index out of range".
Proof.
  intros HA Hn. rewrite getKey_kid, HA. pose proof (len_nonneg keys).
  destruct (Z.gtb_spec n (len keys - 1)); [lia|].
  now rewrite index_negative.
Qed.

(** C4.  Evaluation of the code on a token whose header carries
    "kid" = "-1": for every key list the lookup panics with an index out
    of range, where a validation error is due. *)
Theorem getKey_negative_kid_panics token keys :
  strconv.Atoi "-1" = (-1, None) /\
  api.getKey (api.withKid token (AString "-1")) keys = Panicked "index out of range".
Proof.
  split; [reflexivity|]. now apply (getKey_negative token "-1" keys (-1)).
Qed.

Example getKey_default_kid0 :
  api.DefaultJwtKeyGetterFunc (fixtures.tokenOf jwt.SigningMethodHS256 "0")
  = Done (Some (ABytes "6ai1Vz6dHy9PbLCKUc8QtadUIuOUMuHQ"), None).
Proof. reflexivity. Qed.

Example getKey_default_kid1 :
  api.DefaultJwtKeyGetterFunc (fixtures.tokenOf jwt.SigningMethodHS256 "1")
  = Done (None, Some (fmt.Errorf "kid index is out of range")).
Proof. reflexivity. Qed.

Example getKey_default_kid_text :
  api.DefaultJwtKeyGetterFunc (fixtures.tokenOf jwt.SigningMethodHS256 "first")
  = Done (None, Some (fmt.Errorfw "failed to parse the kid ID. "
                                  (NumError "Atoi" "first" ErrSyntax))).
Proof. reflexivity. Qed.

(** ** The JWT endpoint middleware *)

Section JWTFacts.
Context {W I O : Type}.
Variable out : O.
Variable lib : jwt.Library.
Implicit Types (ep : api.Endpoint W I O) (keyFn : jwt.Keyfunc)
         (options : list api.JwtOption) (c : Context) (request : I) (w : W).

Lemma middleware_without_token ep keyFn options c request w :
  as_string (Value c api.ContextKeyJWTToken) = None ->
  api.WithJWTAuthEPMiddleware out lib ep keyFn options c request w
  = (Done (out, Some api.ErrTokenContextMissing), w).
Proof.
  intros Hc. unfold api.WithJWTAuthEPMiddleware. now rewrite Hc.
Qed.

(** The parser turns every error of the key callback into an
    unverifiable-token error. *)
Lemma ParseWithClaims_keyfunc_error tokenString claims keyFunc popts token parts err key :
  jwt.ParseUnverified lib tokenString claims = inl (token, parts) ->
  keyFunc token = Done (key, Some err) ->
  jwt.ParseWithClaims lib tokenString claims keyFunc popts
  = Done (inr (jwtWrapped UnverfiableTokenError "Keyfunc returned an error" err)).
Proof.
  intros HP HK. unfold jwt.ParseWithClaims. rewrite HP.
  destruct parts as [signingInput sig]. now rewrite HK.
Qed.

Lemma checkedKeyfunc_wrong_method keyFn token :
  jwt.Method token <> api.jwtSigningMethod ->
  api.checkedKeyfunc keyFn token = Done (None, Some api.ErrUnexpectedSigningMethod).
Proof.
  intros Hm. unfold api.checkedKeyfunc.
  destruct (jwt.Method token); try reflexivity. now contradict Hm.
Qed.

Lemma checkedKeyfunc_right_method keyFn token :
  jwt.Method token = api.jwtSigningMethod ->
  api.checkedKeyfunc keyFn token = keyFn token.
Proof. intros Hm. unfold api.checkedKeyfunc. now rewrite Hm. Qed.

(** Every parse error outside the three types of the switch leaves the
    middleware as the generic error. *)
Lemma middleware_parse_error ep keyFn options c request w tokenString err :
  as_string (Value c api.ContextKeyJWTToken) = Some tokenString ->
  jwt.ParseWithClaims lib tokenString (api.claimsFor options)
                      (api.checkedKeyfunc keyFn)
                      (api.ParserOptions (api.applyOptions options api.zeroJwtOption))
  = Done (inr err) ->
  api.WithJWTAuthEPMiddleware out lib ep keyFn options c request w
  = (Done (out, Some match jwt.typeOf err with
                     | Some MalformedTokenError => api.ErrTokenMalformed
                     | Some TokenExpiredError => api.ErrTokenExpired
                     | Some TokenNotValidYetError => api.ErrTokenNotActive
                     | _ => api.notAuthorized
                     end), w).
Proof.
  intros Hc HP. unfold api.WithJWTAuthEPMiddleware. rewrite Hc.
  unfold api.claimsFor in HP. cbv zeta. rewrite HP.
  destruct (jwt.typeOf err) as [[]|]; reflexivity.
Qed.

End JWTFacts.

(** C5.  When the context carries no token string under the JWT-token
    key, the middleware returns the zero output with the
    token-context-missing error, an error distinct from token-invalid,
    and the wrapped handler is not invoked: the world is unchanged and a
    counter of handler invocations stays at 0. *)
Theorem missing_token_context {W I O} (out : O) (lib : jwt.Library)
        (ep : api.Endpoint W I O) (keyFn : jwt.Keyfunc) (options : list api.JwtOption)
        (c : Context) (request : I) (w : W) :
  as_string (Value c api.ContextKeyJWTToken) = None ->
  api.WithJWTAuthEPMiddleware out lib ep keyFn options c request w
  = (Done (out, Some api.ErrTokenContextMissing), w) /\
  api.WithJWTAuthEPMiddleware out lib (api.counting ep) keyFn options c request (0%nat, w)
  = (Done (out, Some api.ErrTokenContextMissing), (0%nat, w)) /\
  api.ErrTokenContextMissing <> api.ErrTokenInvalid /\
  errors.Is api.ErrTokenContextMissing api.ErrTokenInvalid = false.
Proof.
  intros Hc. split; [now apply middleware_without_token|].
  split; [now apply middleware_without_token|].
  split; [discriminate | reflexivity].
Qed.

Lemma missing_token_context_witness :
  as_string (Value Background api.ContextKeyJWTToken) = None /\
  api.WithJWTAuthEPMiddleware tt fixtures.lib (api.counting fixtures.tick)
    api.DefaultJwtKeyGetterFunc [] Background tt (0%nat, tt)
  = (Done (tt, Some api.ErrTokenContextMissing), (0%nat, tt)).
Proof.
  split; [reflexivity|].
  apply (missing_token_context tt fixtures.lib fixtures.tick
           api.DefaultJwtKeyGetterFunc [] Background tt tt).
  reflexivity.
Defined.

(** A context whose JWT-token entry is not a string counts as carrying no
    token. *)
Example token_entry_of_other_type :
  api.WithJWTAuthEPMiddleware tt fixtures.lib (api.counting fixtures.tick)
    api.DefaultJwtKeyGetterFunc []
    (WithValue Background api.ContextKeyJWTToken (ANumber 7)) tt (0%nat, tt)
  = (Done (tt, Some api.ErrTokenContextMissing), (0%nat, tt)).
Proof. reflexivity. Qed.

(** A token that passes every check reaches the handler, with the claims
    in the context. *)
Example accepted_token_reaches_handler :
  api.WithJWTAuthEPMiddleware tt fixtures.lib (api.counting fixtures.tick)
    api.DefaultJwtKeyGetterFunc [] (fixtures.withToken "hs256.kid0.sig") tt (0%nat, tt)
  = (Done (tt, None), (1%nat, tt)).
Proof. reflexivity. Qed.

(** The key lookup runs on the unverified header: a token with
    "kid" = "-1" makes the middleware panic, whatever its signature. *)
Example negative_kid_panics_in_middleware :
  api.WithJWTAuthEPMiddleware tt fixtures.lib (api.counting fixtures.tick)
    api.DefaultJwtKeyGetterFunc [] (fixtures.withToken "hs256.kid-1.sig") tt (0%nat, tt)
  = (Panicked "index out of range", (0%nat, tt)).
Proof. reflexivity. Qed.

(** C2.  What the code does with a token whose signing method differs
    from HS256: the key callback rejects it with
    unexpected-signing-method without consulting the key lookup, the
    parser wraps that rejection, and the middleware, whose switch has no
    case for it, returns the zero output with a fresh generic
    not-authorized error.  That error is not the
    unexpected-signing-method error and does not wrap it: the cause the
    callback reported is lost.  The handler is not invoked. *)
Theorem wrong_method_is_not_authorized {W I O} (out : O) (lib : jwt.Library)
        (ep : api.Endpoint W I O) (keyFn : jwt.Keyfunc) (options : list api.JwtOption)
        (c : Context) (request : I) (w : W)
        (tokenString : string) (token : jwt.Token) (parts : string * string) :
  as_string (Value c api.ContextKeyJWTToken) = Some tokenString ->
  jwt.ParseUnverified lib tokenString (api.claimsFor options) = inl (token, parts) ->
  jwt.Method token <> api.jwtSigningMethod ->
  api.checkedKeyfunc keyFn token = Done (None, Some api.ErrUnexpectedSigningMethod) /\
  api.WithJWTAuthEPMiddleware out lib ep keyFn options c request w
  = (Done (out, Some api.notAuthorized), w) /\
  errors.Is api.notAuthorized api.ErrUnexpectedSigningMethod = false.
Proof.
  intros Hc HP Hm.
  pose proof (checkedKeyfunc_wrong_method keyFn token Hm) as HK.
  split; [exact HK|]. split; [|reflexivity].
  erewrite middleware_parse_error; [|exact Hc|].
  2:{ eapply ParseWithClaims_keyfunc_error; [exact HP | exact HK]. }
  reflexivity.
Qed.

Lemma wrong_method_is_not_authorized_witness :
  as_string (Value (fixtures.withToken "hs384.kid0.sig") api.ContextKeyJWTToken)
  = Some "hs384.kid0.sig" /\
  jwt.Method (fixtures.tokenOf jwt.SigningMethodHS384 "0") <> api.jwtSigningMethod /\
  api.WithJWTAuthEPMiddleware tt fixtures.lib (api.counting fixtures.tick)
    api.DefaultJwtKeyGetterFunc [] (fixtures.withToken "hs384.kid0.sig") tt (0%nat, tt)
  = (Done (tt, Some api.notAuthorized), (0%nat, tt)).
Proof.
  split; [reflexivity|]. split; [discriminate|].
  apply (wrong_method_is_not_authorized tt fixtures.lib (api.counting fixtures.tick)
           api.DefaultJwtKeyGetterFunc [] (fixtures.withToken "hs384.kid0.sig") tt
           (0%nat, tt) "hs384.kid0.sig" (fixtures.tokenOf jwt.SigningMethodHS384 "0")
           ("hs384.kid0", "sig")).
  - reflexivity.
  - reflexivity.
  - discriminate.
Defined.

(** At a concrete input: a token signed with HS384 leaves the middleware
    with the generic not-authorized error, not with
    unexpected-signing-method. *)
Lemma wrong_method_not_reported :
  api.WithJWTAuthEPMiddleware tt fixtures.lib fixtures.tick
    api.DefaultJwtKeyGetterFunc [] (fixtures.withToken "hs384.kid0.sig") tt tt
  = (Done (tt, Some api.notAuthorized), tt) /\
  api.notAuthorized <> api.ErrUnexpectedSigningMethod.
Proof. split; [reflexivity | discriminate]. Qed.

(** The HTTP transport reports the same token with the generic text. *)
Example wrong_method_http_text :
  api.ParseJwtError
    (jwtWrapped UnverfiableTokenError "Keyfunc returned an error"
                api.ErrUnexpectedSigningMethod)
  = "not authorized to access this resource".
Proof. reflexivity. Qed.

(** ** The error-to-status translator *)

Lemma Err2code_fresh msg : apikit.Err2code (fmt.Errorf msg) = apikit.StatusInternalServerError.
Proof. reflexivity. Qed.

Lemma Err2code_wraps_bad_request msg :
  apikit.Err2code (fmt.Errorfw msg apikit.ErrBadRequest) = apikit.StatusBadRequest.
Proof. reflexivity. Qed.

(** C6 (amended).  The translator maps its token-invalid, token-expired,
    token-malformed and token-not-active errors (and its unauthorized
    error) to 401, and every error wrapping its bad-request error to 400;
    token-context-missing and unexpected-signing-method have no case of
    their own and get the default 500, as does a payload-too-large error
    that wraps no bad-request error. *)
Theorem Err2code_auth_table :
  apikit.Err2code apikit.ErrTokenInvalid = 401 /\
  apikit.Err2code apikit.ErrTokenExpired = 401 /\
  apikit.Err2code apikit.ErrTokenMalformed = 401 /\
  apikit.Err2code apikit.ErrTokenNotActive = 401 /\
  apikit.Err2code apikit.ErrUnauthorized = 401 /\
  apikit.Err2code apikit.ErrTokenContextMissing = 500 /\
  apikit.Err2code apikit.ErrUnexpectedSigningMethod = 500 /\
  (forall msg, apikit.Err2code (fmt.Errorfw msg apikit.ErrBadRequest) = 400) /\
  (forall msg, apikit.Err2code (fmt.Errorf msg) = 500).
Proof. repeat split. Qed.

(** C6, as stated, fails: token-context-missing and
    unexpected-signing-method are translated to 500, not to 401. *)
Lemma Err2code_context_missing_is_500 :
  apikit.Err2code apikit.ErrTokenContextMissing <> apikit.StatusUnauthorized /\
  apikit.Err2code apikit.ErrUnexpectedSigningMethod <> apikit.StatusUnauthorized.
Proof. split; discriminate. Qed.

(** The errors of package api are other variables than the translator's
    own: it does not recognise them. *)
Example Err2code_api_errors :
  apikit.Err2code api.ErrTokenExpired = 500 /\
  apikit.Err2code api.ErrTokenContextMissing = 500 /\
  apikit.Err2code api.notAuthorized = 500.
Proof. repeat split. Qed.

(** ** The HTTP transport: credentials from headers *)

Section ApikeyFacts.
Context {W : Type}.
Implicit Types (next : nethttp.Handler W) (w : nethttp.ResponseWriter)
         (r : nethttp.Request) (world : W).

(** An accepted API key: [next] is served the request as it came in,
    with the context it came in with. *)
Lemma apikey_accepted_request_unchanged validateFn next w r world claims :
  http.ApikeyFromHeader r <> "" ->
  validateFn (http.ApikeyFromHeader r) = Some claims ->
  http.MakeHttpApikeyMiddleware validateFn next w r world = next w r world.
Proof.
  intros Hk Hv. unfold http.MakeHttpApikeyMiddleware.
  destruct (String.eqb_spec (http.ApikeyFromHeader r) ""); [contradiction|].
  now rewrite Hv.
Qed.

Lemma apikey_missing_rejected validateFn next w r world :
  http.ApikeyFromHeader r = "" ->
  http.MakeHttpApikeyMiddleware validateFn next w r world
  = Done (nethttp.Error w "Apikey required. Authorized" 401, world).
Proof.
  intros Hk. unfold http.MakeHttpApikeyMiddleware. now rewrite Hk.
Qed.

Lemma apikey_refused_rejected validateFn next w r world :
  http.ApikeyFromHeader r <> "" ->
  validateFn (http.ApikeyFromHeader r) = None ->
  http.MakeHttpApikeyMiddleware validateFn next w r world
  = Done (nethttp.Error w "Apikey Validation failed. Not Authorized" 401, world).
Proof.
  intros Hk Hv. unfold http.MakeHttpApikeyMiddleware.
  destruct (String.eqb_spec (http.ApikeyFromHeader r) ""); [contradiction|].
  now rewrite Hv.
Qed.

End ApikeyFacts.

(** C9.  Evaluation of the code on a request with the header
    "X-Api-Key: k-123", accepted by the validation function, and an empty
    context: the handler behind the API-key middleware, and likewise the
    one behind the combined middleware, finds neither the claims nor the
    API key in the context of its request. *)
Theorem apikey_context_not_forwarded :
  fixtures.validateFn (http.ApikeyFromHeader fixtures.apikeyRequest)
  = Some fixtures.serviceClaims /\
  http.MakeHttpApikeyMiddleware fixtures.validateFn fixtures.spy
    nethttp.newResponseWriter fixtures.apikeyRequest []
  = Done (nethttp.newResponseWriter, [(None, "")]) /\
  http.MakeHttpJwtAndApikeyMiddleware fixtures.noTable fixtures.lib
    api.DefaultJwtKeyGetterFunc fixtures.validateFn [] fixtures.spy
    nethttp.newResponseWriter fixtures.apikeyRequest []
  = Done (nethttp.newResponseWriter, [(None, "")]).
Proof. repeat split; vm_compute; reflexivity. Qed.

(** The JWT transport middleware, which keeps the derived request, does
    hand the claims on. *)
Example jwt_context_forwarded :
  http.MakeHttpJwtMiddleware fixtures.noTable fixtures.lib
    api.DefaultJwtKeyGetterFunc [] fixtures.spy
    nethttp.newResponseWriter (fixtures.bearerRequest "Bearer hs256.kid0.sig") []
  = Done (nethttp.newResponseWriter,
          [(Some (AClaims (api.StandardClaimsFactory tt)), "")]).
Proof. vm_compute. reflexivity. Qed.

(** ** Bytes, runes and case *)

Lemma byte_range c : 0 <= byte c < 256.
Proof.
  unfold byte. pose proof (N_ascii_bounded c). lia.
Qed.

Lemma byte_chr v : byte (chr v) = v mod 256.
Proof.
  unfold byte, chr. pose proof (Z.mod_pos_bound v 256 ltac:(lia)).
  rewrite N_ascii_embedding by lia. lia.
Qed.

Lemma chr_byte c : chr (byte c) = c.
Proof.
  unfold chr, byte. pose proof (N_ascii_bounded c).
  rewrite Z.mod_small by lia. rewrite N2Z.id. apply ascii_N_embedding.
Qed.

Lemma high_bit_mod v : Z.testbit v 7 = true -> 128 <= v mod 256.
Proof.
  intros Hb. apply Z.testbit_true in Hb; [|lia].
  change 256 with (2 ^ 7 * 2). rewrite Z.rem_mul_r by lia.
  rewrite Hb. pose proof (Z.mod_pos_bound v (2 ^ 7) ltac:(lia)). lia.
Qed.

Lemma chr_lor_high K z :
  Z.testbit K 7 = true -> (byte (chr (Z.lor K z)) <? utf8.RuneSelf) = false.
Proof.
  intros HK. rewrite byte_chr. apply Z.ltb_ge. apply high_bit_mod.
  rewrite Z.lor_spec, HK. reflexivity.
Qed.

Lemma EncodeRune_ascii r :
  strings.isASCII (utf8.EncodeRune r) = true -> String.length (utf8.EncodeRune r) = 1%nat.
Proof.
  unfold utf8.EncodeRune, utf8.encode3.
  repeat match goal with |- context [if ?b then _ else _] => destruct b end;
    cbn [strings.isASCII String.length]; try reflexivity;
    rewrite chr_lor_high by reflexivity; discriminate.
Qed.

Lemma encode_RuneError_not_ascii :
  strings.isASCII (utf8.EncodeRune utf8.RuneError) = false.
Proof. reflexivity. Qed.

Lemma isASCII_app a b :
  strings.isASCII (a ++ b) = strings.isASCII a && strings.isASCII b.
Proof.
  induction a as [|c a IH]; [reflexivity|].
  change (String c a ++ b) with (String c (a ++ b)).
  cbn [strings.isASCII]. rewrite IH. now rewrite andb_assoc.
Qed.

Lemma length_app_string a b : String.length (a ++ b) = (String.length a + String.length b)%nat.
Proof.
  induction a as [|c a IH]; [reflexivity|].
  change (String c a ++ b) with (String c (a ++ b)).
  cbn [String.length]. now rewrite IH.
Qed.

(** The three outcomes of decoding the first rune of a non-empty string:
    an ASCII byte, an invalid byte, or a sequence of two to four bytes. *)
Lemma DecodeRune_cases c s r w :
  utf8.DecodeRuneInString (String c s) = (r, w) ->
  (w = 1%nat /\ r = byte c /\ byte c < utf8.RuneSelf) \/
  (w = 1%nat /\ r = utf8.RuneError /\ utf8.RuneSelf <= byte c) \/
  ((2 <= w)%nat /\ (w <= S (String.length s))%nat /\ utf8.RuneSelf <= byte c).
Proof.
  unfold utf8.DecodeRuneInString.
  destruct (Z.ltb_spec (byte c) utf8.RuneSelf) as [Hlt|Hge].
  { intros [= <- <-]. left. auto. }
  destruct (utf8.lead (byte c)) as [[sz [lo hi]]|]; [|intros [= <- <-]; right; left; auto].
  destruct s as [|c1 s2]; [intros [= <- <-]; right; left; auto|].
  destruct (negb _); [intros [= <- <-]; right; left; auto|].
  destruct (sz <=? 2); [intros [= <- <-]; right; right; simpl; split; [lia|split; [lia|auto]]|].
  destruct s2 as [|c2 s3]; [intros [= <- <-]; right; left; auto|].
  destruct (negb _); [intros [= <- <-]; right; left; auto|].
  destruct (sz <=? 3); [intros [= <- <-]; right; right; simpl; split; [lia|split; [lia|auto]]|].
  destruct s3 as [|c3 s4]; [intros [= <- <-]; right; left; auto|].
  destruct (negb _); [intros [= <- <-]; right; left; auto|].
  intros [= <- <-]; right; right; simpl; split; [lia|split; [lia|auto]].
Qed.

Section MapFacts.
Variable mapping : Z -> Z.
Hypothesis mapping_RuneError : mapping utf8.RuneError = utf8.RuneError.

Lemma MapFrom_ascii_length s : forall skip,
  strings.isASCII (strings.MapFrom mapping s skip) = true ->
  (String.length (strings.MapFrom mapping s skip) <= String.length s - skip)%nat /\
  (String.length (strings.MapFrom mapping s skip) = String.length s ->
   strings.isASCII s = true).
Proof.
  induction s as [|c s IH]; intros skip Hout.
  - simpl. split; [lia | reflexivity].
  - destruct skip as [|k].
    + cbn [strings.MapFrom] in Hout |- *.
      destruct (utf8.DecodeRuneInString (String c s)) as [r0 w] eqn:Hdec.
      rewrite isASCII_app in Hout. apply andb_true_iff in Hout as [He Hrest].
      destruct (IH _ Hrest) as [Hlen Heq].
      rewrite length_app_string. cbn [String.length strings.isASCII].
      assert (Hle : (String.length (if (0 <=? mapping r0)%Z then utf8.EncodeRune (mapping r0) else "") <= 1)%nat).
      { destruct (0 <=? mapping r0); [rewrite EncodeRune_ascii by exact He; lia | simpl; lia]. }
      split; [lia|]. intros Htot.
      assert (Hrl : String.length (strings.MapFrom mapping s (w - 1)) = String.length s) by lia.
      rewrite (Heq Hrl), andb_true_r. apply Z.ltb_lt.
      apply DecodeRune_cases in Hdec as [(-> & -> & Hc)|[(-> & -> & Hc)|(Hw & Hws & Hc)]].
      * exact Hc.
      * rewrite mapping_RuneError in He. simpl in He. discriminate.
      * lia.
    + cbn [strings.MapFrom String.length] in Hout |- *.
      destruct (IH _ Hout) as [Hlen _]. split; lia.
Qed.
End MapFacts.

Lemma upperASCII_range b : 0 <= b < 256 -> 0 <= unicode.upperASCII b < 256.
Proof.
  unfold unicode.upperASCII, utf8.between. intros.
  repeat match goal with
    | |- context [?x <=? ?y] => destruct (Z.leb_spec x y)
    end; simpl; lia.
Qed.

Lemma lowerASCII_range b : 0 <= b < 256 -> 0 <= unicode.lowerASCII b < 256.
Proof.
  unfold unicode.lowerASCII, utf8.between. intros.
  repeat match goal with
    | |- context [?x <=? ?y] => destruct (Z.leb_spec x y)
    end; simpl; lia.
Qed.

Ltac split_bounds :=
  repeat match goal with
    | |- context [?x <=? ?y] => destruct (Z.leb_spec x y)
    end; simpl; try lia.

Lemma lower_upper b : unicode.lowerASCII (unicode.upperASCII b) = unicode.lowerASCII b.
Proof.
  unfold unicode.upperASCII, utf8.between.
  destruct (Z.leb_spec 97 b); destruct (Z.leb_spec b 122); cbn [andb];
    unfold unicode.lowerASCII, utf8.between; split_bounds.
Qed.

Lemma upper_lower b : unicode.upperASCII (unicode.lowerASCII b) = unicode.upperASCII b.
Proof.
  unfold unicode.lowerASCII, utf8.between.
  destruct (Z.leb_spec 65 b); destruct (Z.leb_spec b 90); cbn [andb];
    unfold unicode.upperASCII, utf8.between; split_bounds.
Qed.

Lemma chr_inj x y : 0 <= x < 256 -> 0 <= y < 256 -> chr x = chr y -> x = y.
Proof.
  intros Hx Hy H. apply (f_equal byte) in H. rewrite !byte_chr in H.
  rewrite !Z.mod_small in H by lia. exact H.
Qed.

Lemma upper_char_eq_iff c d :
  chr (unicode.upperASCII (byte c)) = chr (unicode.upperASCII (byte d)) <->
  chr (unicode.lowerASCII (byte c)) = chr (unicode.lowerASCII (byte d)).
Proof.
  pose proof (byte_range c). pose proof (byte_range d). split; intros E.
  - apply chr_inj in E; try now apply upperASCII_range.
    rewrite <- (lower_upper (byte c)), <- (lower_upper (byte d)). now rewrite E.
  - apply chr_inj in E; try now apply lowerASCII_range.
    rewrite <- (upper_lower (byte c)), <- (upper_lower (byte d)). now rewrite E.
Qed.

Lemma upper_eq_iff_fold a : forall b,
  strings.mapBytes unicode.upperASCII a = strings.mapBytes unicode.upperASCII b <->
  strings.foldASCII a = strings.foldASCII b.
Proof.
  unfold strings.foldASCII.
  induction a as [|c a IH]; intros [|d b]; simpl; try (split; [reflexivity | reflexivity]);
    try (split; discriminate).
  split; intros [= E1 E2]; f_equal;
    try (now apply upper_char_eq_iff); now apply IH.
Qed.

Lemma isASCII_upper p :
  strings.isASCII (strings.mapBytes unicode.upperASCII p) = strings.isASCII p.
Proof.
  induction p as [|c p IH]; [reflexivity|]. cbn [strings.mapBytes strings.isASCII].
  rewrite IH. f_equal. rewrite byte_chr.
  pose proof (byte_range c) as Hc. pose proof (upperASCII_range _ Hc).
  rewrite Z.mod_small by lia.
  unfold unicode.upperASCII, utf8.between, utf8.RuneSelf.
  destruct (Z.ltb_spec (byte c) 128);
    repeat match goal with
      | |- context [?x <=? ?y] => destruct (Z.leb_spec x y)
      end; simpl; lia.
Qed.

Lemma ToUpper_RuneError table : unicode.ToUpper table utf8.RuneError = utf8.RuneError.
Proof. reflexivity. Qed.

(** On a target made of ASCII bytes, of the length of the argument,
    [strings.ToUpper] agrees with the bytewise ASCII upper-casing. *)
Lemma ToUpper_matches_ascii table p target :
  strings.isASCII target = true -> String.length p = String.length target ->
  strings.ToUpper table p = target <-> strings.mapBytes unicode.upperASCII p = target.
Proof.
  intros Ht Hl. unfold strings.ToUpper. destruct (strings.isASCII p) eqn:E; [tauto|].
  split; intros H; exfalso.
  - pose proof (MapFrom_ascii_length (unicode.ToUpper table) (ToUpper_RuneError table) p 0) as [_ Hall].
    { fold (strings.Map (unicode.ToUpper table) p). now rewrite H. }
    fold (strings.Map (unicode.ToUpper table) p) in Hall. rewrite H in Hall.
    rewrite Hall in E by congruence. discriminate.
  - rewrite <- H, isASCII_upper in Ht. congruence.
Qed.

Lemma slen_nonneg s : 0 <= slen s.
Proof. unfold slen. lia. Qed.

Lemma slen_String c s : slen (String c s) = slen s + 1.
Proof. unfold slen. cbn [String.length]. lia. Qed.

Lemma slen_stake s : forall n, 0 <= n <= slen s -> slen (stake n s) = n.
Proof.
  induction s as [|c s IH]; intros n Hn.
  - unfold slen in *. simpl in *. lia.
  - rewrite slen_String in Hn. cbn [stake].
    destruct (Z.leb_spec n 0).
    + unfold slen. simpl. lia.
    + rewrite slen_String, IH by lia. lia.
Qed.

Lemma slen_sdrop s : forall n, 0 <= n <= slen s -> slen (sdrop n s) = slen s - n.
Proof.
  induction s as [|c s IH]; intros n Hn.
  - unfold slen in *. simpl in *. lia.
  - rewrite slen_String in Hn. cbn [sdrop].
    destruct (Z.leb_spec n 0).
    + rewrite slen_String. lia.
    + rewrite IH, slen_String by lia. lia.
Qed.

Lemma stake_sdrop s : forall n, stake n s ++ sdrop n s = s.
Proof.
  induction s as [|c s IH]; intros n; [reflexivity|]. cbn [stake sdrop].
  destruct (n <=? 0); [reflexivity|].
  change (String c (stake (n - 1) s) ++ sdrop (n - 1) s)
    with (String c (stake (n - 1) s ++ sdrop (n - 1) s)).
  now rewrite IH.
Qed.

Lemma stake_all s : forall n, slen s <= n -> stake n s = s.
Proof.
  induction s as [|c s IH]; intros n Hn; [reflexivity|].
  rewrite slen_String in Hn. pose proof (slen_nonneg s). cbn [stake].
  destruct (Z.leb_spec n 0); [lia|]. now rewrite IH by lia.
Qed.

Section BearerFacts.
Variable upperTable : Z -> Z.

Lemma bearer_prefix_test bearer :
  7 < slen bearer ->
  String.eqb (strings.ToUpper upperTable (stake 7 bearer)) "BEARER "
  = strings.EqualFoldASCII (stake 7 bearer) "BEARER ".
Proof.
  intros Hlen. apply eq_true_iff_eq. unfold strings.EqualFoldASCII.
  rewrite !String.eqb_eq.
  rewrite ToUpper_matches_ascii; [|reflexivity|].
  - apply (upper_eq_iff_fold (stake 7 bearer) "BEARER ").
  - pose proof (slen_stake bearer 7 ltac:(lia)) as H. unfold slen in H.
    change (String.length "BEARER ") with 7%nat. lia.
Qed.

Lemma TokenFromHeader_unfold r :
  http.TokenFromHeader upperTable r =
  let bearer := textproto.Get (nethttp.Header r) "Authorization" in
  if (7 <? slen bearer) && strings.EqualFoldASCII (stake 7 bearer) "BEARER "
  then sdrop 7 bearer else "".
Proof.
  unfold http.TokenFromHeader. cbv zeta.
  set (bearer := textproto.Get _ _). rewrite Z.gtb_ltb.
  destruct (Z.ltb_spec 7 (slen bearer)) as [Hlen|Hlen]; [|reflexivity].
  cbn [andb]. now rewrite bearer_prefix_test.
Qed.

Lemma sdrop_nonempty bearer : 7 < slen bearer -> sdrop 7 bearer <> "".
Proof.
  intros Hlen E. pose proof (slen_sdrop bearer 7 ltac:(lia)) as H.
  rewrite E in H. unfold slen at 1 in H. simpl in H. lia.
Qed.
End BearerFacts.

(** C10.  With [bearer] the Authorization header, [TokenFromHeader]
    returns [bearer[7:]], a non-empty string, exactly when [bearer] is
    longer than 7 bytes and its first 7 bytes equal "BEARER " up to ASCII
    case; in every other case it returns the empty string, on which the
    JWT middleware answers 401 without calling the next handler and the
    combined middleware falls back to the API key (401 when that is
    absent too). *)
Theorem TokenFromHeader_bearer {W : Type} (upperTable : Z -> Z) (lib : jwt.Library)
        (keyFn : jwt.Keyfunc) (validateFn : string -> option any)
        (options : list api.JwtOption) (next : nethttp.Handler W)
        (w : nethttp.ResponseWriter) (r : nethttp.Request) (world : W) :
  let bearer := textproto.Get (nethttp.Header r) "Authorization" in
  let token := http.TokenFromHeader upperTable r in
  if (7 <? slen bearer) && strings.EqualFoldASCII (stake 7 bearer) "BEARER "
  then token = sdrop 7 bearer /\ token <> "" /\ stake 7 bearer ++ token = bearer
  else token = "" /\
       http.MakeHttpJwtMiddleware upperTable lib keyFn options next w r world
       = Done (nethttp.Error w "Not Authorized" 401, world) /\
       http.MakeHttpJwtAndApikeyMiddleware upperTable lib keyFn validateFn options
                                           next w r world
       = if String.eqb (http.ApikeyFromHeader r) ""
         then Done (nethttp.Error w "Not Authorized" 401, world)
         else match validateFn (http.ApikeyFromHeader r) with
              | None => Done (nethttp.Error w "Apikey Validation failed. Not Authorized"
                                            401, world)
              | Some _ => next w r world
              end.
Proof.
  intros bearer token. subst token.
  unfold http.MakeHttpJwtMiddleware, http.MakeHttpJwtAndApikeyMiddleware.
  rewrite TokenFromHeader_unfold. cbv zeta. fold bearer.
  destruct ((7 <? slen bearer) && strings.EqualFoldASCII (stake 7 bearer) "BEARER ")
    eqn:Hacc.
  - apply andb_true_iff in Hacc as [Hlen _]. apply Z.ltb_lt in Hlen.
    split; [reflexivity|]. split; [now apply sdrop_nonempty | apply stake_sdrop].
  - split; [reflexivity|]. split; [reflexivity|].
    cbn [String.eqb andb negb].
    destruct (String.eqb (http.ApikeyFromHeader r) ""); [reflexivity|].
    destruct (http.optionsOf options) as [[claimFactory method] parserOptions].
    reflexivity.
Qed.

Example TokenFromHeader_mixed_case :
  http.TokenFromHeader fixtures.noTable (fixtures.bearerRequest "bEaReR abc.def.ghi")
  = "abc.def.ghi".
Proof. vm_compute. reflexivity. Qed.

Example TokenFromHeader_empty_token :
  http.TokenFromHeader fixtures.noTable (fixtures.bearerRequest "Bearer ") = "".
Proof. vm_compute. reflexivity. Qed.

Example TokenFromHeader_other_scheme :
  http.TokenFromHeader fixtures.noTable (fixtures.bearerRequest "Basic dXNlcjpwYXNz") = "".
Proof. vm_compute. reflexivity. Qed.

Example TokenFromHeader_absent :
  http.TokenFromHeader fixtures.noTable (fixtures.requestWith ∅) = "".
Proof. vm_compute. reflexivity. Qed.

(** A prefix with the dotless i (U+0131, two bytes), which Unicode maps to
    "I", is not taken for a letter of "BEARER ". *)
Example TokenFromHeader_non_ascii_prefix :
  http.TokenFromHeader fixtures.noTable
    (fixtures.bearerRequest ("Beare" ++ String (chr 0xC4) (String (chr 0xB1) " abc")))
  = "".
Proof. vm_compute. reflexivity. Qed.

Example missing_bearer_is_rejected :
  http.MakeHttpJwtMiddleware fixtures.noTable fixtures.lib api.DefaultJwtKeyGetterFunc []
    fixtures.spy nethttp.newResponseWriter (fixtures.bearerRequest "Bearer ") []
  = Done ({| nethttp.Status := Some 401;
             nethttp.Body := "Not Authorized" ++ String (chr 10) "" |}, []).
Proof. vm_compute. reflexivity. Qed.

(** ** Multipart decoding *)

Lemma slen_iter c : forall n s, slen (N.iter n (String c) s) = Z.of_N n + slen s.
Proof.
  intros n s. induction n as [|n IH] using N.peano_ind; [reflexivity|].
  rewrite N.iter_succ, slen_String, IH. lia.
Qed.

Lemma slen_oversize : slen fixtures.oversize = decode.defaultMaxMemory + 1.
Proof. unfold fixtures.oversize. rewrite slen_iter. reflexivity. Qed.

Section DecoderFacts.
Import nethttp.
Variable T : Type.
Variable newT : T.
Variable AddFileStream : string -> decode.Stream -> string -> T -> T.
Variable SetFileStream : string -> string -> decode.Stream -> string -> T -> T.
Variable BindFormData : T -> decode.Values -> T * option error.
Variable BindURLQuery : T -> decode.Values -> T * option error.
Variable Unmarshal : string -> T -> T * option error.
Variable ErrBadRequest : error.
Variable HeaderContentType : string.
Variable HttpContentTypeJson : string.

Lemma CopyN_within part maxMemory :
  slen (Content part) <= maxMemory ->
  CopyN part (maxMemory + 1)
  = (Content part, slen (Content part),
     Some match ReadErr part with Some e => e | None => EOF end).
Proof.
  intros Hle. unfold CopyN. pose proof (slen_nonneg (Content part)).
  rewrite Z.max_l by lia.
  destruct (Z.leb_spec (maxMemory + 1) (slen (Content part))); [lia | reflexivity].
Qed.

Lemma CopyN_beyond part maxMemory :
  0 <= maxMemory -> maxMemory < slen (Content part) ->
  CopyN part (maxMemory + 1)
  = (stake (maxMemory + 1) (Content part), maxMemory + 1, None).
Proof.
  intros H0 Hlt. unfold CopyN. rewrite Z.max_l by lia.
  destruct (Z.leb_spec (maxMemory + 1) (slen (Content part))); [reflexivity | lia].
Qed.

Lemma singleFileLoop_field cw maxMemory part rest final reqObj formData :
  decode.isField maxMemory part = true ->
  decode.singleFileLoop T AddFileStream cw maxMemory (part :: rest) final reqObj formData
  = decode.singleFileLoop T AddFileStream cw maxMemory rest final reqObj
      (decode.appendValue formData (FormName part) (Content part)).
Proof.
  unfold decode.isField. intros H.
  apply andb_true_iff in H as [H Herr]. apply andb_true_iff in H as [Hname Hlen].
  apply Z.leb_le in Hlen. cbn [decode.singleFileLoop]. rewrite Hname.
  rewrite CopyN_within by exact Hlen.
  destruct (ReadErr part); [discriminate|]. cbn [decode.isEOF negb].
  destruct (Z.ltb_spec (maxMemory - slen (Content part)) 0); [lia | reflexivity].
Qed.

Lemma singleFileLoop_fields cw maxMemory pre : forall rest final reqObj formData,
  forallb (decode.isField maxMemory) pre = true ->
  decode.singleFileLoop T AddFileStream cw maxMemory (pre ++ rest)%list final reqObj formData
  = decode.singleFileLoop T AddFileStream cw maxMemory rest final reqObj
      (decode.collect pre formData).
Proof.
  induction pre as [|p pre IH]; intros rest final reqObj formData Hpre; [reflexivity|].
  cbn [forallb] in Hpre. apply andb_true_iff in Hpre as [Hp Hpre].
  rewrite <- app_comm_cons.
  rewrite singleFileLoop_field by exact Hp. now rewrite IH.
Qed.

Lemma singleFileLoop_oversize cw maxMemory big post final reqObj formData :
  0 <= maxMemory -> FileName big = "" -> maxMemory < slen (Content big) ->
  decode.singleFileLoop T AddFileStream cw maxMemory (big :: post) final reqObj formData
  = inr (fmt.Errorf "multipart: message to large").
Proof.
  intros H0 Hname Hlen. cbn [decode.singleFileLoop]. rewrite Hname. cbn [String.eqb].
  rewrite CopyN_beyond by assumption.
  destruct (Z.ltb_spec (maxMemory - (maxMemory + 1)) 0); [reflexivity | lia].
Qed.

Lemma singleFileLoop_file cw maxMemory file post final reqObj formData :
  FileName file <> "" ->
  decode.singleFileLoop T AddFileStream cw maxMemory (file :: post) final reqObj formData
  = inl (AddFileStream (FileName file)
           {| decode.Data := Content file;
              decode.Err := if cw then ReadErr file else None |}
           (textproto.Get (PartHeader file) "content-type") reqObj,
         formData).
Proof.
  intros Hname. cbn [decode.singleFileLoop].
  destruct (String.eqb_spec (FileName file) ""); [contradiction | reflexivity].
Qed.

Lemma isField_isWithin maxMemory maxFileSize p :
  decode.isField maxMemory p = true -> decode.isWithin maxMemory maxFileSize p = true.
Proof.
  unfold decode.isField, decode.isWithin. intros H.
  apply andb_true_iff in H as [H Herr]. apply andb_true_iff in H as [Hname Hlen].
  destruct (ReadErr p); [discriminate|]. now rewrite Hname.
Qed.

(** The buffering loop passes over a part within its limit. *)
Lemma multipartLoop_within maxMemory maxFileSize part rest final reqObj formData jsonData :
  decode.isWithin maxMemory maxFileSize part = true ->
  exists reqObj' formData' jsonData',
    decode.multipartLoop T SetFileStream ErrBadRequest HeaderContentType HttpContentTypeJson
      maxMemory maxFileSize (part :: rest) final reqObj formData jsonData
    = decode.multipartLoop T SetFileStream ErrBadRequest HeaderContentType HttpContentTypeJson
        maxMemory maxFileSize rest final reqObj' formData' jsonData'.
Proof.
  unfold decode.isWithin. intros H. cbn [decode.multipartLoop].
  destruct (ReadErr part) eqn:Herr; [discriminate|].
  destruct (String.eqb (FileName part) ""); apply Z.leb_le in H;
    rewrite CopyN_within by exact H; rewrite Herr; cbn [decode.isEOF negb].
  - destruct (Z.ltb_spec (maxMemory - slen (Content part)) 0); [lia|].
    destruct (String.eqb _ HttpContentTypeJson); eauto.
  - destruct (Z.ltb_spec (maxFileSize - slen (Content part)) 0); [lia|]. eauto.
Qed.

(** Over parts within their limits the buffering loop stores every form
    value and every JSON document with its whole content, in arrival
    order, and hands every file to [SetFileStream] with its whole
    content. *)
Lemma multipartLoop_parts maxMemory maxFileSize pre :
  forall rest final reqObj formData jsonData,
  forallb (decode.isWithin maxMemory maxFileSize) pre = true ->
  decode.multipartLoop T SetFileStream ErrBadRequest HeaderContentType HttpContentTypeJson
    maxMemory maxFileSize (pre ++ rest)%list final reqObj formData jsonData
  = decode.multipartLoop T SetFileStream ErrBadRequest HeaderContentType HttpContentTypeJson
      maxMemory maxFileSize rest final
      (decode.buffered T SetFileStream pre reqObj)
      (decode.collect
         (List.filter (decode.isFormValue HeaderContentType HttpContentTypeJson) pre)
         formData)
      (jsonData
       ++ map Content (List.filter (decode.isJson HeaderContentType HttpContentTypeJson) pre))%list.
Proof.
  induction pre as [|p pre IH]; intros rest final reqObj formData jsonData Hpre.
  - cbn [app List.filter map decode.buffered decode.collect fold_left].
    now rewrite app_nil_r.
  - cbn [forallb] in Hpre. apply andb_true_iff in Hpre as [Hp Hpre].
    rewrite <- app_comm_cons. unfold decode.isWithin in Hp.
    cbn [decode.multipartLoop List.filter].
    unfold decode.isFormValue at 1, decode.isJson at 1, decode.buffered.
    cbn [fold_left]. fold (decode.buffered T SetFileStream).
    destruct (ReadErr p) eqn:Herr; [discriminate|].
    destruct (String.eqb (FileName p) "") eqn:Hname; apply Z.leb_le in Hp;
      rewrite CopyN_within by exact Hp; rewrite Herr; cbn [decode.isEOF negb andb].
    + destruct (Z.ltb_spec (maxMemory - slen (Content p)) 0); [lia|].
      destruct (String.eqb _ HttpContentTypeJson); cbn [negb map].
      * rewrite IH by exact Hpre. now rewrite <- app_assoc.
      * rewrite IH by exact Hpre. reflexivity.
    + destruct (Z.ltb_spec (maxFileSize - slen (Content p)) 0); [lia|].
      rewrite IH by exact Hpre. reflexivity.
Qed.

Lemma multipartLoop_oversize maxMemory maxFileSize pre :
  forall big post final reqObj formData jsonData,
  0 <= maxMemory -> forallb (decode.isWithin maxMemory maxFileSize) pre = true ->
  FileName big = "" -> maxMemory < slen (Content big) ->
  decode.multipartLoop T SetFileStream ErrBadRequest HeaderContentType HttpContentTypeJson
    maxMemory maxFileSize (pre ++ big :: post)%list final reqObj formData jsonData
  = inr (fmt.Errorfw ". multipart: message too large" ErrBadRequest).
Proof.
  induction pre as [|p pre IH];
    intros big post final reqObj formData jsonData H0 Hpre Hname Hlen.
  - cbn [app decode.multipartLoop]. rewrite Hname. cbn [String.eqb].
    rewrite CopyN_beyond by assumption.
    destruct (Z.ltb_spec (maxMemory - (maxMemory + 1)) 0); [reflexivity | lia].
  - cbn [forallb] in Hpre. apply andb_true_iff in Hpre as [Hp Hpre].
    rewrite <- app_comm_cons.
    destruct (multipartLoop_within maxMemory maxFileSize p (pre ++ big :: post)%list
                final reqObj formData jsonData Hp) as (obj & fd & jd & ->).
    now apply IH.
Qed.

Local Abbreviation DefaultWith := (decode.DefaultSingleFileUploadStreamDecoderWith
                                 T newT AddFileStream BindFormData BindURLQuery).
Local Abbreviation CommonWith := (decode.CommonFileUploadStreamDecoderWith
                                T newT AddFileStream BindFormData BindURLQuery).
Local Abbreviation CreateWith := (decode.CreateMultipartStreamDecoderWith
                                T newT SetFileStream BindFormData BindURLQuery Unmarshal
                                ErrBadRequest HeaderContentType HttpContentTypeJson).

(** A non-file part beyond the cap, reached after fields within the cap,
    aborts the single-file decoders. *)
Lemma single_file_decoders_oversize maxMemory pre big post final c r :
  0 <= maxMemory -> forallb (decode.isField maxMemory) pre = true ->
  FileName big = "" -> maxMemory < slen (Content big) ->
  Multipart r = inl {| parts := (pre ++ big :: post)%list; final := final |} ->
  DefaultWith maxMemory c r = (Some newT, Some (fmt.Errorf "multipart: message to large")) /\
  CommonWith maxMemory c r = (None, Some (fmt.Errorf "multipart: message to large")).
Proof.
  intros H0 Hpre Hname Hlen Hr.
  unfold decode.DefaultSingleFileUploadStreamDecoderWith,
    decode.CommonFileUploadStreamDecoderWith.
  rewrite Hr. cbn [nethttp.parts nethttp.final].
  rewrite !singleFileLoop_fields by exact Hpre.
  now rewrite !singleFileLoop_oversize by assumption.
Qed.

(** A non-file part beyond the cap, reached after parts within their
    limits, aborts the buffering decoder. *)
Lemma buffering_decoder_oversize maxMemory maxFileSize pre big post final c r :
  0 <= maxMemory -> forallb (decode.isWithin maxMemory maxFileSize) pre = true ->
  FileName big = "" -> maxMemory < slen (Content big) ->
  Multipart r = inl {| parts := (pre ++ big :: post)%list; final := final |} ->
  CreateWith maxMemory maxFileSize c r
  = (None, Some (fmt.Errorfw ". multipart: message too large" ErrBadRequest)).
Proof.
  intros H0 Hpre Hname Hlen Hr. unfold decode.CreateMultipartStreamDecoderWith.
  rewrite Hr. cbn [nethttp.parts nethttp.final].
  now rewrite multipartLoop_oversize by assumption.
Qed.

(** The first file part ends the loop of the single-file decoders: the
    form data are the fields before it, and what follows is not read. *)
Lemma decoders_first_file maxMemory pre file post final c r :
  forallb (decode.isField maxMemory) pre = true -> FileName file <> "" ->
  Multipart r = inl {| parts := (pre ++ file :: post)%list; final := final |} ->
  DefaultWith maxMemory c r
  = decode.bindAll T BindFormData BindURLQuery c r
      (AddFileStream (FileName file)
         {| decode.Data := Content file; decode.Err := ReadErr file |}
         (textproto.Get (PartHeader file) "content-type") newT)
      (decode.collect pre ∅) /\
  CommonWith maxMemory c r
  = decode.bindAll T BindFormData BindURLQuery c r
      (AddFileStream (FileName file)
         {| decode.Data := Content file; decode.Err := None |}
         (textproto.Get (PartHeader file) "content-type") newT)
      (decode.collect pre ∅).
Proof.
  intros Hpre Hname Hr.
  unfold decode.DefaultSingleFileUploadStreamDecoderWith,
    decode.CommonFileUploadStreamDecoderWith.
  rewrite Hr. cbn [nethttp.parts nethttp.final].
  rewrite !singleFileLoop_fields by exact Hpre.
  now rewrite !singleFileLoop_file by exact Hname.
Qed.


(** C8 (amended).  In single-file mode the iteration stops at the first
    file-bearing part: the decoder binds the form-value parts that occur
    before that part (fields within the cap), attaches the file stream,
    and does not read the parts after it, so that the result does not
    depend on them and they are not bound. *)
Theorem single_file_stops_at_first_file maxMemory pre file post final post' final' c r r' :
  forallb (decode.isField maxMemory) pre = true -> FileName file <> "" ->
  Multipart r = inl {| parts := (pre ++ file :: post)%list; final := final |} ->
  Multipart r' = inl {| parts := (pre ++ file :: post')%list; final := final' |} ->
  Query r' = Query r ->
  CommonWith maxMemory c r
  = decode.bindAll T BindFormData BindURLQuery c r
      (AddFileStream (FileName file)
         {| decode.Data := Content file; decode.Err := None |}
         (textproto.Get (PartHeader file) "content-type") newT)
      (decode.collect pre ∅) /\
  CommonWith maxMemory c r' = CommonWith maxMemory c r /\
  DefaultWith maxMemory c r' = DefaultWith maxMemory c r.
Proof.
  intros Hpre Hname Hr Hr' Hq.
  destruct (decoders_first_file maxMemory pre file post final c r Hpre Hname Hr)
    as [HD HC].
  destruct (decoders_first_file maxMemory pre file post' final' c r' Hpre Hname Hr')
    as [HD' HC'].
  assert (Hbind : forall obj fd,
             decode.bindAll T BindFormData BindURLQuery c r' obj fd
             = decode.bindAll T BindFormData BindURLQuery c r obj fd).
  { intros obj fd. unfold decode.bindAll, decode.queryWithParams. now rewrite Hq. }
  split; [exact HC|]. split.
  - now rewrite HC', HC, Hbind.
  - now rewrite HD', HD, Hbind.
Qed.

End DecoderFacts.



(** With the default cap: an oversize field ahead of the file part aborts
    the decode of each decoder. *)
Lemma oversize_field_before_file_is_rejected :
  decode.DefaultSingleFileUploadStreamDecoder fixtures.Upload fixtures.newUpload
    fixtures.AddFileStream fixtures.BindFormData fixtures.BindURLQuery Background
    (fixtures.upload [fixtures.field "note" fixtures.oversize; fixtures.doc])
  = (Some fixtures.newUpload, Some (fmt.Errorf "multipart: message to large")) /\
  decode.CommonFileUploadStreamDecoder fixtures.Upload fixtures.newUpload
    fixtures.AddFileStream fixtures.BindFormData fixtures.BindURLQuery Background
    (fixtures.upload [fixtures.field "note" fixtures.oversize; fixtures.doc])
  = (None, Some (fmt.Errorf "multipart: message to large")) /\
  decode.CreateMultipartStreamDecoder fixtures.Upload fixtures.newUpload
    fixtures.SetFileStream fixtures.BindFormData fixtures.BindURLQuery fixtures.Unmarshal
    apikit.ErrBadRequest "Content-Type" "application/json" 1024 Background
    (fixtures.upload [fixtures.field "note" fixtures.oversize; fixtures.doc])
  = (None, Some (fmt.Errorfw ". multipart: message too large" apikit.ErrBadRequest)).
Proof.
  assert (Hlen : decode.defaultMaxMemory
                 < slen (nethttp.Content (fixtures.field "note" fixtures.oversize))).
  { cbn [fixtures.field nethttp.Content]. rewrite slen_oversize. lia. }
  split; [|split].
  - apply (single_file_decoders_oversize fixtures.Upload fixtures.newUpload
             fixtures.AddFileStream fixtures.BindFormData fixtures.BindURLQuery
             decode.defaultMaxMemory [] (fixtures.field "note" fixtures.oversize)
             [fixtures.doc] None); [discriminate | reflexivity | reflexivity
                                   | exact Hlen | reflexivity].
  - apply (single_file_decoders_oversize fixtures.Upload fixtures.newUpload
             fixtures.AddFileStream fixtures.BindFormData fixtures.BindURLQuery
             decode.defaultMaxMemory [] (fixtures.field "note" fixtures.oversize)
             [fixtures.doc] None); [discriminate | reflexivity | reflexivity
                                   | exact Hlen | reflexivity].
  - apply (buffering_decoder_oversize fixtures.Upload fixtures.newUpload
             fixtures.SetFileStream fixtures.BindFormData fixtures.BindURLQuery
             fixtures.Unmarshal apikit.ErrBadRequest "Content-Type" "application/json"
             decode.defaultMaxMemory 1024 [] (fixtures.field "note" fixtures.oversize)
             [fixtures.doc] None); [discriminate | reflexivity | reflexivity
                                   | exact Hlen | reflexivity].
Qed.

(** The buffering decoder reads on after a file part: an oversize field
    behind a file within the limit aborts its decode. *)
Example buffering_decoder_rejects_trailing_oversize :
  decode.CreateMultipartStreamDecoder fixtures.Upload fixtures.newUpload
    fixtures.SetFileStream fixtures.BindFormData fixtures.BindURLQuery fixtures.Unmarshal
    apikit.ErrBadRequest "Content-Type" "application/json" 1024 Background
    (fixtures.upload [fixtures.doc; fixtures.field "note" fixtures.oversize])
  = (None, Some (fmt.Errorfw ". multipart: message too large" apikit.ErrBadRequest)).
Proof.
  apply (buffering_decoder_oversize fixtures.Upload fixtures.newUpload
           fixtures.SetFileStream fixtures.BindFormData fixtures.BindURLQuery
           fixtures.Unmarshal apikit.ErrBadRequest "Content-Type" "application/json"
           decode.defaultMaxMemory 1024 [fixtures.doc]
           (fixtures.field "note" fixtures.oversize) [] None).
  - discriminate.
  - reflexivity.
  - reflexivity.
  - cbn [fixtures.field nethttp.Content]. rewrite slen_oversize. lia.
  - reflexivity.
Qed.

Lemma single_file_stops_at_first_file_witness :
  nethttp.FileName fixtures.doc <> "" /\
  decode.CommonFileUploadStreamDecoderWith fixtures.Upload fixtures.newUpload
    fixtures.AddFileStream fixtures.BindFormData fixtures.BindURLQuery 16 Background
    (fixtures.upload [fixtures.field "sheet" "Q1"; fixtures.doc])
  = decode.CommonFileUploadStreamDecoderWith fixtures.Upload fixtures.newUpload
      fixtures.AddFileStream fixtures.BindFormData fixtures.BindURLQuery 16 Background
      (fixtures.upload [fixtures.field "sheet" "Q1"; fixtures.doc;
                        fixtures.field "owner" "ann"]).
Proof.
  split; [discriminate|].
  apply (single_file_stops_at_first_file fixtures.Upload fixtures.newUpload
           fixtures.AddFileStream fixtures.BindFormData fixtures.BindURLQuery 16
           [fixtures.field "sheet" "Q1"] fixtures.doc
           [fixtures.field "owner" "ann"] None [] None Background
           (fixtures.upload [fixtures.field "sheet" "Q1"; fixtures.doc;
                             fixtures.field "owner" "ann"])
           (fixtures.upload [fixtures.field "sheet" "Q1"; fixtures.doc])).
  - reflexivity.
  - discriminate.
  - reflexivity.
  - reflexivity.
  - reflexivity.
Defined.

(** C8, as stated, fails: a form value that follows the file part is not
    bound; the same value ahead of the file part is. *)
Lemma field_after_file_is_not_bound :
  exists u,
    decode.CommonFileUploadStreamDecoder fixtures.Upload fixtures.newUpload
      fixtures.AddFileStream fixtures.BindFormData fixtures.BindURLQuery Background
      (fixtures.upload [fixtures.doc; fixtures.field "sheet" "Q1"])
    = (Some u, None) /\
    fixtures.File u = Some ("", "report.pdf",
                            {| decode.Data := "%PDF-1.7"; decode.Err := None |},
                            "application/pdf") /\
    fixtures.Form u !! "sheet" = None.
Proof.
  eexists. split; [vm_compute; reflexivity|]. split; reflexivity.
Qed.

Example field_before_file_is_bound :
  decode.CommonFileUploadStreamDecoder fixtures.Upload fixtures.newUpload
    fixtures.AddFileStream fixtures.BindFormData fixtures.BindURLQuery Background
    (fixtures.upload [fixtures.field "sheet" "Q1"; fixtures.doc])
  = (Some {| fixtures.File :=
               Some ("", "report.pdf",
                     {| decode.Data := "%PDF-1.7"; decode.Err := None |},
                     "application/pdf");
             fixtures.Form := {[ "sheet" := ["Q1"] ]};
             fixtures.Params := ∅; fixtures.Json := [] |}, None).
Proof. vm_compute. reflexivity. Qed.

(** The buffering decoder reads every part: there the same value is
    bound wherever it stands. *)
Example buffering_decoder_binds_trailing_field :
  decode.CreateMultipartStreamDecoder fixtures.Upload fixtures.newUpload
    fixtures.SetFileStream fixtures.BindFormData fixtures.BindURLQuery fixtures.Unmarshal
    apikit.ErrBadRequest "Content-Type" "application/json" 1024 Background
    (fixtures.upload [fixtures.doc; fixtures.field "sheet" "Q1"])
  = (Some {| fixtures.File :=
               Some ("doc", "report.pdf",
                     {| decode.Data := "%PDF-1.7"; decode.Err := None |},
                     "application/pdf");
             fixtures.Form := {[ "sheet" := ["Q1"] ]};
             fixtures.Params := ∅; fixtures.Json := [] |}, None).
Proof. vm_compute. reflexivity. Qed.

(** * Further properties *)

(** ** The key index survives the round trip through a token *)

Lemma parse_digits_step c s acc k :
  strconv.is_digit c = true -> strconv.digit_val c = k ->
  strconv.parse_digits (String c s) acc = strconv.parse_digits s (acc * 10 + k).
Proof. intros Hd Hv. cbn [strconv.parse_digits]. now rewrite Hd, Hv. Qed.

Lemma parse_digits_uint_acc d : forall acc : positive,
  strconv.parse_digits (NilEmpty.string_of_uint d) (Z.pos acc)
  = Some (Z.pos (Pos.of_uint_acc d acc)).
Proof.
  induction d; intros acc; cbn [NilEmpty.string_of_uint Pos.of_uint_acc];
    [reflexivity|..];
    (erewrite parse_digits_step by reflexivity;
     match goal with
     | |- context [strconv.digit_val ?c] =>
         let v := eval vm_compute in (strconv.digit_val c) in
         change (strconv.digit_val c) with v
     end;
     match goal with
     | |- strconv.parse_digits _ ?z = Some (Z.pos (Pos.of_uint_acc _ ?p)) =>
         replace z with (Z.pos p) by lia
     end; apply IHd).
Qed.

Lemma parse_digits_uint d :
  strconv.parse_digits (NilEmpty.string_of_uint d) 0 = Some (Z.of_N (Pos.of_uint d)).
Proof.
  induction d; cbn [NilEmpty.string_of_uint Pos.of_uint]; [reflexivity|..];
    erewrite parse_digits_step by reflexivity;
    match goal with
    | |- context [strconv.digit_val ?c] =>
        let v := eval vm_compute in (strconv.digit_val c) in
        change (strconv.digit_val c) with v
    end; cbn [Z.mul Z.add];
    first [exact IHd | apply (parse_digits_uint_acc d)].
Qed.

Lemma string_of_uint_digits d :
  d <> Decimal.Nil ->
  exists c s, NilEmpty.string_of_uint d = String c s /\ strconv.is_digit c = true.
Proof.
  destruct d; [congruence|..]; intros _; cbn [NilEmpty.string_of_uint]; eauto.
Qed.

Lemma digit_not_sign c : strconv.is_digit c = true -> c <> "+"%char /\ c <> "-"%char.
Proof. intros H; split; intros ->; discriminate. Qed.

Lemma Atoi_digits c s v :
  strconv.is_digit c = true -> strconv.parse_digits (String c s) 0 = Some v ->
  0 <= v <= strconv.maxInt -> strconv.Atoi (String c s) = (v, None).
Proof.
  intros Hd Hp Hv. destruct (digit_not_sign c Hd) as [Hplus Hminus].
  unfold strconv.Atoi.
  destruct c as [[] [] [] [] [] [] [] []]; try discriminate Hd; try congruence;
    cbv zeta iota beta; rewrite Hp;
    (destruct (Z.gtb_spec v strconv.maxInt); [lia|]);
    (destruct (Z.ltb_spec v strconv.minInt); [unfold strconv.minInt, strconv.maxInt in *; lia|]);
    reflexivity.
Qed.

(** [strconv.Atoi] reads back what [strconv.Itoa] prints. *)
Lemma Atoi_Itoa n :
  0 <= n <= strconv.maxInt -> strconv.Atoi (strconv.Itoa n) = (n, None).
Proof.
  intros Hn. destruct n as [|p|p]; [reflexivity| |lia].
  unfold strconv.Itoa. cbn [Z.to_int NilZero.string_of_int].
  pose proof (DecimalPos.Unsigned.to_uint_nonnil p) as Hnil.
  assert (Hs : NilZero.string_of_uint (Pos.to_uint p)
               = NilEmpty.string_of_uint (Pos.to_uint p)).
  { unfold NilZero.string_of_uint. destruct (Pos.to_uint p); [congruence|reflexivity..]. }
  rewrite Hs. destruct (string_of_uint_digits _ Hnil) as (c & s & Hcs & Hd).
  pose proof (parse_digits_uint (Pos.to_uint p)) as Hp.
  rewrite DecimalPos.Unsigned.of_to in Hp. rewrite Hcs in Hp |- *.
  now apply Atoi_digits.
Qed.

(** X1.  Round trip of the key index: with two or more keys, the token
    [CreateToken] signs carries as "kid" the index of the key it is
    signed with, and the key lookup applied to that token and the same
    registry hands out that very key. *)
Theorem CreateToken_getKey_round_trip lib claimFactory keys sample :
  2 <= len keys -> len keys <= strconv.maxInt ->
  exists n key token,
    0 <= n <= len keys - 2 /\ keys !! Z.to_nat n = Some key /\
    token = api.withKid (jwt.NewWithClaims api.jwtSigningMethod (claimFactory tt))
                        (AString (strconv.Itoa n)) /\
    api.CreateToken lib claimFactory keys sample
    = Done (jwt.SignedString lib token (ABytes key)) /\
    api.getKey token keys = Done (Some (ABytes key), None).
Proof.
  intros HN Hmax.
  destruct (CreateToken_many lib claimFactory keys sample HN) as (n & key & Hn & Hkey & HC).
  exists n, key, (api.withKid (jwt.NewWithClaims api.jwtSigningMethod (claimFactory tt))
                              (AString (strconv.Itoa n))).
  split; [exact Hn|]. split; [exact Hkey|]. split; [reflexivity|]. split; [exact HC|].
  destruct (getKey_in_range (jwt.NewWithClaims api.jwtSigningMethod (claimFactory tt))
              (strconv.Itoa n) keys n) as (key' & Hkey' & HG).
  - apply Atoi_Itoa. lia.
  - lia.
  - rewrite Hkey in Hkey'. injection Hkey' as <-. exact HG.
Qed.

(** ** More on the key registry and the endpoint middleware *)

(** X2.  Whatever the token, a key handed out by the key lookup is a
    secret of the registry and comes with the nil error; when no key is
    handed out, an error is. *)
Theorem getKey_key_from_registry token keys k e :
  api.getKey token keys = Done (k, e) ->
  match k with
  | Some key => e = None /\ exists (n : nat) secret,
                  key = ABytes secret /\ keys !! n = Some secret
  | None => exists err, e = Some err
  end.
Proof.
  unfold api.getKey. destruct (jwt.Header token !! "kid") as [[kid| | | | |]|];
    try discriminate.
  destruct (strconv.Atoi kid) as [n [err|]].
  - intros [= <- <-]. eauto.
  - destruct (n >? len keys - 1).
    + intros [= <- <-]. eauto.
    + unfold index. destruct (n <? 0); [discriminate|].
      destruct (keys !! Z.to_nat n) as [secret|] eqn:E; [|discriminate].
      intros [= <- <-]. split; [reflexivity|]. eauto.
Qed.

Lemma getKey_key_from_registry_witness :
  api.getKey (fixtures.tokenOf jwt.SigningMethodHS256 "0") api.DefaultKeys
  = Done (Some (ABytes "6ai1Vz6dHy9PbLCKUc8QtadUIuOUMuHQ"), None) /\
  exists (n : nat) secret,
    ABytes "6ai1Vz6dHy9PbLCKUc8QtadUIuOUMuHQ" = ABytes secret /\
    api.DefaultKeys !! n = Some secret.
Proof.
  split; [reflexivity|].
  apply (getKey_key_from_registry (fixtures.tokenOf jwt.SigningMethodHS256 "0")
           api.DefaultKeys (Some (ABytes "6ai1Vz6dHy9PbLCKUc8QtadUIuOUMuHQ")) None).
  reflexivity.
Defined.

Section MoreJWTFacts.
Context {W I O : Type}.
Variable out : O.
Variable lib : jwt.Library.
Implicit Types (ep : api.Endpoint W I O) (keyFn : jwt.Keyfunc)
         (options : list api.JwtOption) (c : Context) (request : I) (w : W).

Lemma SigningMethod_eqb_eq (a b : jwt.SigningMethod) :
  jwt.SigningMethod_eqb a b = true -> a = b.
Proof. destruct a, b; (reflexivity || discriminate). Qed.

(** X3.  The middleware has three outcomes only: it panics (when the key
    function does), or it returns the zero output with one of its six
    errors and leaves the world as it found it, or it is the wrapped
    handler run once on the context extended with the claims of the
    token found in the context; and in that last case the token string
    parsed, the token has the configured method, the key function gave
    a key for it without an error, the signature verified against that
    key and the claims were valid. *)
Theorem middleware_outcomes ep keyFn options c request w :
  (exists msg,
     api.WithJWTAuthEPMiddleware out lib ep keyFn options c request w = (Panicked msg, w)) \/
  (exists e,
     In e [api.ErrTokenContextMissing; api.ErrTokenMalformed; api.ErrTokenExpired;
           api.ErrTokenNotActive; api.ErrTokenInvalid; api.notAuthorized] /\
     api.WithJWTAuthEPMiddleware out lib ep keyFn options c request w
     = (Done (out, Some e), w)) \/
  (exists tokenString token input sig key,
     as_string (Value c api.ContextKeyJWTToken) = Some tokenString /\
     jwt.ParseUnverified lib tokenString (api.claimsFor options)
     = inl (token, (input, sig)) /\
     jwt.Method token = api.jwtSigningMethod /\
     keyFn token = Done (key, None) /\
     jwt.Verify lib (jwt.Method token) input sig key = None /\
     jwt.ClaimsValid lib (jwt.TokenClaims token)
                     (api.ParserOptions (api.applyOptions options api.zeroJwtOption))
     = None /\
     api.WithJWTAuthEPMiddleware out lib ep keyFn options c request w
     = ep (WithValue c api.ContextKeyAuthClaims (AClaims (jwt.TokenClaims token)))
          request w).
Proof.
  unfold api.WithJWTAuthEPMiddleware.
  destruct (as_string (Value c api.ContextKeyJWTToken)) as [tokenString|] eqn:Hc.
  2:{ right; left. eexists. split; [|reflexivity]. simpl; auto. }
  cbv zeta. unfold jwt.ParseWithClaims.
  destruct (jwt.ParseUnverified lib tokenString _) as [[token [input sig]]|err] eqn:HP.
  2:{ right; left. destruct (jwt.typeOf err) as [[]|];
        (eexists; split; [|reflexivity]; simpl; auto 10). }
  unfold api.checkedKeyfunc.
  destruct (jwt.SigningMethod_eqb (jwt.Method token) api.jwtSigningMethod) eqn:Hm;
    cbn [negb res_bind].
  2:{ right; left. eexists; split; [|reflexivity]; simpl; auto 10. }
  destruct (keyFn token) as [[key [kerr|]]|msg] eqn:HK; cbn [res_bind].
  - right; left. eexists; split; [|reflexivity]; simpl; auto 10.
  - destruct (jwt.Verify lib (jwt.Method token) input sig key) eqn:HV.
    { right; left. eexists; split; [|reflexivity]; simpl; auto 10. }
    destruct (jwt.ClaimsValid lib (jwt.TokenClaims token) _) as [verr|] eqn:HC.
    { right; left. destruct (jwt.typeOf verr) as [[]|];
        (eexists; split; [|reflexivity]; simpl; auto 10). }
    cbn [jwt.Valid negb jwt.TokenClaims]. right; right.
    exists tokenString, token, input, sig, key.
    split; [reflexivity|]. split; [exact HP|].
    split; [now apply SigningMethod_eqb_eq|]. split; [exact HK|].
    split; [exact HV|]. split; [exact HC | reflexivity].
  - left. eauto.
Qed.

(** What the parser returns for a token that passes every check. *)
Lemma ParseWithClaims_accepts tokenString claims keyFunc popts token input sig key :
  jwt.ParseUnverified lib tokenString claims = inl (token, (input, sig)) ->
  keyFunc token = Done (key, None) ->
  jwt.Verify lib (jwt.Method token) input sig key = None ->
  jwt.ClaimsValid lib (jwt.TokenClaims token) popts = None ->
  exists token',
    jwt.ParseWithClaims lib tokenString claims keyFunc popts = Done (inl token') /\
    jwt.Valid token' = true /\ jwt.TokenClaims token' = jwt.TokenClaims token.
Proof.
  intros HP HK HV HC. unfold jwt.ParseWithClaims. rewrite HP, HK. cbn [res_bind].
  rewrite HV, HC. eexists. split; [reflexivity|]. split; reflexivity.
Qed.

(** X4.  A token of the configured method whose key is found, whose
    signature verifies and whose claims are valid reaches the handler:
    the middleware is the handler on the context extended with the
    token's claims, in which the token string is still present, and the
    handler's result is returned as it is. *)
Theorem valid_token_reaches_handler ep keyFn options c request w
        tokenString token input sig key :
  as_string (Value c api.ContextKeyJWTToken) = Some tokenString ->
  jwt.ParseUnverified lib tokenString (api.claimsFor options) = inl (token, (input, sig)) ->
  jwt.Method token = api.jwtSigningMethod ->
  keyFn token = Done (key, None) ->
  jwt.Verify lib (jwt.Method token) input sig key = None ->
  jwt.ClaimsValid lib (jwt.TokenClaims token)
                  (api.ParserOptions (api.applyOptions options api.zeroJwtOption)) = None ->
  let c' := WithValue c api.ContextKeyAuthClaims (AClaims (jwt.TokenClaims token)) in
  api.WithJWTAuthEPMiddleware out lib ep keyFn options c request w = ep c' request w /\
  Value c' api.ContextKeyAuthClaims = Some (AClaims (jwt.TokenClaims token)) /\
  as_string (Value c' api.ContextKeyJWTToken) = Some tokenString.
Proof.
  intros Hc HP Hm HK HV HC c'.
  destruct (ParseWithClaims_accepts tokenString (api.claimsFor options)
              (api.checkedKeyfunc keyFn) _ token input sig key HP
              ltac:(now rewrite checkedKeyfunc_right_method) HV HC)
    as (token' & HPW & Hvalid & Hclaims).
  split; [|split; [reflexivity | exact Hc]].
  unfold api.WithJWTAuthEPMiddleware. rewrite Hc. cbv zeta.
  unfold api.claimsFor in HPW. rewrite HPW, Hvalid. cbn [negb].
  now rewrite Hclaims.
Qed.

(** X5.  When the key function finds no key for a token of the
    configured method (a "kid" beyond the registry, or one that is not a
    number), the middleware answers with the generic not-authorized
    error and does not invoke the handler. *)
Theorem key_lookup_failure_is_not_authorized ep keyFn options c request w
        tokenString token parts key err :
  as_string (Value c api.ContextKeyJWTToken) = Some tokenString ->
  jwt.ParseUnverified lib tokenString (api.claimsFor options) = inl (token, parts) ->
  jwt.Method token = api.jwtSigningMethod ->
  keyFn token = Done (key, Some err) ->
  api.WithJWTAuthEPMiddleware out lib ep keyFn options c request w
  = (Done (out, Some api.notAuthorized), w).
Proof.
  intros Hc HP Hm HK.
  erewrite middleware_parse_error; [|exact Hc|].
  2:{ eapply ParseWithClaims_keyfunc_error; [exact HP|].
      rewrite checkedKeyfunc_right_method by exact Hm. exact HK. }
  reflexivity.
Qed.

Lemma applyOptions_app options options' opt :
  api.applyOptions (options ++ options') opt
  = api.applyOptions options' (api.applyOptions options opt).
Proof. unfold api.applyOptions. apply fold_left_app. Qed.

(** X6.  The endpoint middleware does not look at the signing method of
    its options: with [WithJwtSigningMethod] added as the last option it
    is the same endpoint, still expecting HS256. *)
Theorem signing_method_option_has_no_effect ep keyFn options method c request w :
  api.WithJWTAuthEPMiddleware out lib ep keyFn
    (options ++ [api.WithJwtSigningMethod method]) c request w
  = api.WithJWTAuthEPMiddleware out lib ep keyFn options c request w.
Proof.
  unfold api.WithJWTAuthEPMiddleware. rewrite applyOptions_app. reflexivity.
Qed.

(** X7.  With the JWT middleware outermost in a chain, a request without
    a token is turned away before any inner middleware or the handler
    runs. *)
Theorem auth_outermost_short_circuits keyFn options
        (others : list (api.Middleware W I O)) ep c request w :
  as_string (Value c api.ContextKeyJWTToken) = None ->
  api.Chain (api.JWTMiddleware out lib keyFn options) others ep c request w
  = (Done (out, Some api.ErrTokenContextMissing), w).
Proof.
  intros Hc. rewrite Chain_unfold. unfold api.JWTMiddleware.
  now apply middleware_without_token.
Qed.

(** X8.  For any parser error, the text the HTTP transport writes
    ([ParseJwtError]) is the message of the error the endpoint middleware
    returns. *)
Theorem ParseJwtError_agrees_with_middleware ep keyFn options c request w tokenString err :
  as_string (Value c api.ContextKeyJWTToken) = Some tokenString ->
  jwt.ParseWithClaims lib tokenString (api.claimsFor options)
                      (api.checkedKeyfunc keyFn)
                      (api.ParserOptions (api.applyOptions options api.zeroJwtOption))
  = Done (inr err) ->
  exists e,
    api.WithJWTAuthEPMiddleware out lib ep keyFn options c request w
    = (Done (out, Some e), w) /\
    http.errorText e = api.ParseJwtError err.
Proof.
  intros Hc HP. erewrite middleware_parse_error by eassumption.
  eexists. split; [reflexivity|].
  unfold api.ParseJwtError. destruct (jwt.typeOf err) as [[]|]; reflexivity.
Qed.

End MoreJWTFacts.

(** ** Status translation, response envelopes and endpoint logging *)

Lemma Is_wrap msg e target : errors.Is (fmt.Errorfw msg e) target = errors.Is e target.
Proof. reflexivity. Qed.

(** X9.  Wrapping an error with [fmt.Errorf("...%w...")], any number of
    times, does not change the status [Err2code] gives it. *)
Theorem Err2code_wrap_invariant (msgs : list string) (e : error) :
  apikit.Err2code (fold_right fmt.Errorfw e msgs) = apikit.Err2code e.
Proof.
  induction msgs as [|msg msgs IH]; [reflexivity|].
  cbn [fold_right]. rewrite <- IH. unfold apikit.Err2code. now rewrite !Is_wrap.
Qed.

(** X10.  [Err2code] only ever answers 400, 401, 403, 404, 500 or 511. *)
Theorem Err2code_range (e : error) :
  In (apikit.Err2code e) [400; 401; 403; 404; 500; 511].
Proof.
  unfold apikit.Err2code.
  repeat match goal with
    | |- context [if ?b then _ else _] => destruct b
    end; simpl; auto 10.
Qed.

Section ResponseFacts.
Variable httpStatusText : Z -> string.
Variable errorMessage : error -> string.

(** X11.  Built with the status [Err2code] gives the error,
    [ErrorResponse] keeps that status in the envelope, with its status
    text and the error's message, unless the error is an
    invalid-user-password error. *)
Theorem ErrorResponse_keeps_Err2code requestID (e : error) :
  errors.Is e apikit.ErrInvalidUserPassword = false ->
  let r := response.ErrorResponse httpStatusText errorMessage requestID
                                  (apikit.Err2code e) e in
  response.StatusCode r = apikit.Err2code e /\
  response.StatusText r = httpStatusText (apikit.Err2code e) /\
  response.Error r = errorMessage e /\
  response.RequestID r = requestID /\ response.Data r = None.
Proof.
  intros Hp. cbv zeta.
  assert (Hcode : response.StatusCode
                    (response.ErrorResponse httpStatusText errorMessage requestID
                                            (apikit.Err2code e) e)
                  = apikit.Err2code e).
  { unfold response.ErrorResponse, apikit.Err2code. cbn [response.StatusCode]. rewrite Hp.
    destruct (errors.Is e apikit.ErrKeynotFound); [reflexivity|].
    destruct (errors.Is e apikit.ErrBadRequest); reflexivity. }
  split; [exact Hcode|]. split; [|repeat split].
  unfold response.ErrorResponse in *. cbn [response.StatusCode response.StatusText] in *.
  now rewrite Hcode.
Qed.

(** For an invalid-user-password error the two disagree: the envelope
    says 401 (404 for a key-not-found error), [Err2code] 511, 400 or
    404. *)
Lemma ErrorResponse_invalid_password requestID code (e : error) :
  errors.Is e apikit.ErrInvalidUserPassword = true ->
  errors.Is e apikit.ErrKeynotFound = false ->
  response.StatusCode (response.ErrorResponse httpStatusText errorMessage requestID code e)
  = 401.
Proof.
  intros Hp Hk. unfold response.ErrorResponse. cbn [response.StatusCode].
  now rewrite Hp, Hk.
Qed.

End ResponseFacts.

Section LoggingFacts.
Context {W I O : Type}.
Variable ReqIDFromContext : Context -> option string.
Variable now : W -> Z.
Variable errorMessage : error -> string.
Variable httpStatusText : Z -> string.
Variable box : response.BaseResponse -> O.

Local Abbreviation Middleware logger method :=
  (logging.MakeEndpointLoggingMiddleware ReqIDFromContext now errorMessage httpStatusText
                                         box logger method).

(** X12.  The logging middleware runs the endpoint once and hands its
    error on unchanged; a successful result passes as it is, and a
    failure's result is replaced by the error envelope built with status
    500 and the request id of the context. *)
Theorem logging_middleware_result logger method (next : api.Endpoint W I O)
        c request w result e w' :
  next c request w = (Done (result, e), w') ->
  exists mw, Middleware (Some logger) method = Some mw /\
    fst (mw next c request w)
    = Done (match e with
            | Some e' =>
                box (response.ErrorResponse httpStatusText errorMessage
                       (default "" (ReqIDFromContext c)) 500 e')
            | None => result
            end, e).
Proof.
  intros Hnext. eexists. split; [reflexivity|]. cbv beta zeta. rewrite Hnext.
  destruct e as [e'|]; [|reflexivity].
  destruct (ReqIDFromContext c); destruct (apikit.Err2code e' =? 500); reflexivity.
Qed.

(** X13.  The middleware logs exactly once per call, after the endpoint:
    "request failed" at error level when the endpoint's error has status
    500 under [Err2code], and "request success" at info level in every
    other case, including an error of another status and a panic of the
    endpoint. *)
Theorem logging_middleware_level logger method (next : api.Endpoint W I O) c request w :
  exists mw fields, Middleware (Some logger) method = Some mw /\
    snd (mw next c request w)
    = match fst (next c request w) with
      | Done (_, Some e) =>
          if apikit.Err2code e =? 500
          then logging.Error logger "request failed" fields (snd (next c request w))
          else logging.Info logger "request success" fields (snd (next c request w))
      | _ => logging.Info logger "request success" fields (snd (next c request w))
      end.
Proof.
  eexists. destruct (next c request w) as [[[result [e|]]|msg] w'] eqn:Hnext.
  - destruct (apikit.Err2code e =? 500) eqn:Hcode;
      eexists; (split; [reflexivity|]); cbv beta zeta; rewrite Hnext;
      cbn [fst snd]; rewrite Hcode; reflexivity.
  - eexists; (split; [reflexivity|]); cbv beta zeta; rewrite Hnext; reflexivity.
  - eexists; (split; [reflexivity|]); cbv beta zeta; rewrite Hnext; reflexivity.
Qed.

End LoggingFacts.

(** An expired token is reported to the caller and logged as a
    success. *)
Example expired_token_logged_as_success :
  exists mw,
    logging.MakeEndpointLoggingMiddleware (fun _ => Some "req-1") (fun _ => 0)
      http.errorText fixtures3.statusText fixtures3.boxed
      (Some fixtures3.recorder) "GetUser" = Some mw /\
    mw (fixtures3.failing apikit.ErrTokenExpired) Background tt []
    = (Done (Some (ANumber 500), Some apikit.ErrTokenExpired),
       [("info", "request success")]).
Proof. eexists. split; reflexivity. Qed.

(** ** More on the HTTP transport middlewares *)

Section HttpFacts.
Context {W : Type}.
Variable upperTable : Z -> Z.
Variable lib : jwt.Library.
Implicit Types (next : nethttp.Handler W) (w : nethttp.ResponseWriter)
         (r : nethttp.Request) (world : W) (keyFn : jwt.Keyfunc)
         (options : list api.JwtOption).

(** X14.  The HTTP JWT middleware has three outcomes only: it panics
    (when the key function does), or it writes a 401 and does not call
    the next handler, or it serves the next handler a copy of the request
    whose context carries the bearer token and the claims of that token
    on top of the context of the request; and in that last case the
    bearer token is not empty, it parsed, the token has the method of the
    options, the key function gave a key for it without an error, the
    signature verified against that key and the claims were valid. *)
Theorem http_jwt_middleware_outcomes keyFn options next w r world :
  let '(claimFactory, method, parserOptions) := http.optionsOf options in
  (exists msg,
     http.MakeHttpJwtMiddleware upperTable lib keyFn options next w r world
     = Panicked msg) \/
  (exists text,
     http.MakeHttpJwtMiddleware upperTable lib keyFn options next w r world
     = Done (nethttp.Error w text 401, world)) \/
  (exists token input sig key,
     http.TokenFromHeader upperTable r <> "" /\
     jwt.ParseUnverified lib (http.TokenFromHeader upperTable r) (claimFactory tt)
     = inl (token, (input, sig)) /\
     jwt.Method token = method /\
     keyFn token = Done (key, None) /\
     jwt.Verify lib (jwt.Method token) input sig key = None /\
     jwt.ClaimsValid lib (jwt.TokenClaims token) parserOptions = None /\
     http.MakeHttpJwtMiddleware upperTable lib keyFn options next w r world
     = next w
         (nethttp.WithContext r
            (WithValue (WithValue (nethttp.ctx r) api.ContextKeyJWTToken
                                  (AString (http.TokenFromHeader upperTable r)))
                       api.ContextKeyAuthClaims (AClaims (jwt.TokenClaims token))))
         world).
Proof.
  unfold http.MakeHttpJwtMiddleware.
  destruct (http.optionsOf options) as [[claimFactory method] parserOptions].
  destruct (String.eqb_spec (http.TokenFromHeader upperTable r) "") as [|Hne].
  { right; left. eauto. }
  unfold jwt.ParseWithClaims.
  destruct (jwt.ParseUnverified lib _ _) as [[token [input sig]]|err] eqn:HP;
    cbn [res_bind].
  2:{ right; left. eauto. }
  unfold http.httpKeyfunc.
  destruct (jwt.SigningMethod_eqb (jwt.Method token) method) eqn:Hm; cbn [negb res_bind].
  2:{ right; left. eauto. }
  destruct (keyFn token) as [[key [kerr|]]|msg] eqn:HK; cbn [res_bind].
  - right; left. eauto.
  - destruct (jwt.Verify lib (jwt.Method token) input sig key) eqn:HV; cbn [res_bind].
    { right; left. eauto. }
    destruct (jwt.ClaimsValid lib (jwt.TokenClaims token) parserOptions) eqn:HC;
      cbn [res_bind].
    { right; left. eauto. }
    cbn [jwt.Valid negb jwt.TokenClaims]. right; right.
    exists token, input, sig, key.
    split; [exact Hne|]. split; [reflexivity|].
    split; [now apply SigningMethod_eqb_eq|].
    repeat split; first [assumption | reflexivity].
  - left. eauto.
Qed.

(** X15.  The API-key middleware turns a request away with a 401, without
    calling the next handler and without touching the world, when the
    X-Api-Key header is missing or empty or when the validation function
    returns nil for it. *)
Theorem apikey_middleware_rejects validateFn next w r world :
  http.ApikeyFromHeader r = "" \/ validateFn (http.ApikeyFromHeader r) = None ->
  exists text,
    http.MakeHttpApikeyMiddleware validateFn next w r world
    = Done (nethttp.Error w text 401, world).
Proof.
  intros H. unfold http.MakeHttpApikeyMiddleware.
  destruct (String.eqb_spec (http.ApikeyFromHeader r) "") as [Heq|Hne]; [eauto|].
  destruct H as [H|H]; [contradiction|]. rewrite H. eauto.
Qed.

(** X16.  In the combined middleware a bearer token takes precedence:
    when the Authorization header carries one, the API key and its
    validation function play no part in the outcome. *)
Theorem bearer_takes_precedence keyFn validateFn validateFn' options next w r world :
  http.TokenFromHeader upperTable r <> "" ->
  http.MakeHttpJwtAndApikeyMiddleware upperTable lib keyFn validateFn options
                                      next w r world
  = http.MakeHttpJwtAndApikeyMiddleware upperTable lib keyFn validateFn' options
                                        next w r world.
Proof.
  intros Hne. unfold http.MakeHttpJwtAndApikeyMiddleware.
  destruct (String.eqb_spec (http.TokenFromHeader upperTable r) ""); [contradiction|].
  reflexivity.
Qed.

End HttpFacts.

(** X17.  Options apply from left to right: audiences accumulate in the
    order given, and of several claims factories the last one decides the
    claims the middleware parses into. *)
Theorem options_compose (options : list api.JwtOption) (auds : list string)
        (claimFactory : api.ClaimsFactory) (opt : api.jwtOption) :
  api.ParserOptions (api.applyOptions (options ++ map api.WithAudience auds) opt)
  = (api.ParserOptions (api.applyOptions options opt) ++ map jwt.WithAudience auds)%list /\
  api.claimsFor (options ++ [api.WithClaimsFactory claimFactory]) = claimFactory tt /\
  api.claimsFor (options ++ [api.WithClaimsFactory claimFactory] ++ map api.WithAudience auds)
  = claimFactory tt.
Proof.
  assert (Haud : forall o,
    api.ParserOptions (api.applyOptions (map api.WithAudience auds) o)
    = (api.ParserOptions o ++ map jwt.WithAudience auds)%list /\
    api.ClaimFactory (api.applyOptions (map api.WithAudience auds) o)
    = api.ClaimFactory o).
  { induction auds as [|a auds' IH]; intros o.
    - unfold api.applyOptions. cbn [map fold_left]. now rewrite app_nil_r.
    - unfold api.applyOptions in *. cbn [map fold_left].
      destruct (IH (api.WithAudience a o)) as [IH1 IH2]. rewrite IH1, IH2.
      cbn [api.WithAudience api.ParserOptions api.ClaimFactory].
      now rewrite <- app_assoc. }
  split; [|split].
  - rewrite applyOptions_app. apply Haud.
  - unfold api.claimsFor. rewrite applyOptions_app. reflexivity.
  - unfold api.claimsFor. rewrite !applyOptions_app.
    destruct (Haud (api.applyOptions [api.WithClaimsFactory claimFactory]
                      (api.applyOptions options api.zeroJwtOption))) as [_ ->].
    reflexivity.
Qed.

(** ** More on the multipart decoders *)

(** After the parts [ps], the values under a name are those that were
    there before, followed by the contents of the parts of that name. *)
Lemma collect_lookup (ps : list nethttp.Part) (name : string) :
  forall formData : gmap string (list string),
  decode.collect ps formData !! name
  = match map nethttp.Content
              (List.filter (fun p => String.eqb (nethttp.FormName p) name) ps) with
    | [] => formData !! name
    | values => Some (default [] (formData !! name) ++ values)%list
    end.
Proof.
  induction ps as [|p ps IH]; intros formData; [reflexivity|].
  unfold decode.collect in *. cbn [fold_left List.filter]. rewrite IH.
  unfold decode.appendValue.
  destruct (String.eqb_spec (nethttp.FormName p) name) as [->|Hne].
  - rewrite lookup_insert_eq. cbn [map].
    destruct (map nethttp.Content _) as [|v vs]; [reflexivity|].
    simpl. now rewrite <- app_assoc.
  - now rewrite lookup_insert_ne by exact Hne.
Qed.

Section MoreDecoderFacts.
Import nethttp.
Variable T : Type.
Variable newT : T.
Variable AddFileStream : string -> decode.Stream -> string -> T -> T.
Variable SetFileStream : string -> string -> decode.Stream -> string -> T -> T.
Variable BindFormData : T -> decode.Values -> T * option error.
Variable BindURLQuery : T -> decode.Values -> T * option error.
Variable Unmarshal : string -> T -> T * option error.
Variable ErrBadRequest : error.
Variable HeaderContentType : string.
Variable HttpContentTypeJson : string.

Local Abbreviation DefaultWith := (decode.DefaultSingleFileUploadStreamDecoderWith
                                     T newT AddFileStream BindFormData BindURLQuery).
Local Abbreviation CommonWith := (decode.CommonFileUploadStreamDecoderWith
                                    T newT AddFileStream BindFormData BindURLQuery).
Local Abbreviation CreateWith := (decode.CreateMultipartStreamDecoderWith
                                    T newT SetFileStream BindFormData BindURLQuery Unmarshal
                                    ErrBadRequest HeaderContentType HttpContentTypeJson).
Local Abbreviation bufferingLoop := (decode.multipartLoop T SetFileStream ErrBadRequest
                                       HeaderContentType HttpContentTypeJson).

(** The buffering loop passes over parts within their limits, whatever
    state it has reached. *)
Lemma multipartLoop_skip maxMemory maxFileSize pre rest final (P : _ -> Prop) :
  forallb (decode.isWithin maxMemory maxFileSize) pre = true ->
  (forall reqObj formData jsonData,
     P (bufferingLoop maxMemory maxFileSize rest final reqObj formData jsonData)) ->
  forall reqObj formData jsonData,
    P (bufferingLoop maxMemory maxFileSize (pre ++ rest)%list final
                     reqObj formData jsonData).
Proof.
  intros Hpre HP. induction pre as [|p pre IH]; intros reqObj formData jsonData.
  - apply HP.
  - cbn [forallb] in Hpre. apply andb_true_iff in Hpre as [Hp Hpre].
    rewrite <- app_comm_cons.
    destruct (multipartLoop_within T SetFileStream ErrBadRequest HeaderContentType
                HttpContentTypeJson maxMemory maxFileSize p (pre ++ rest)%list
                final reqObj formData jsonData Hp) as (obj & fd & jd & ->).
    now apply IH.
Qed.

Lemma forallb_isField_isWithin maxMemory maxFileSize ps :
  forallb (decode.isField maxMemory) ps = true ->
  forallb (decode.isWithin maxMemory maxFileSize) ps = true.
Proof.
  induction ps as [|p ps IH]; [reflexivity|]. cbn [forallb]. intros H.
  apply andb_true_iff in H as [Hp Hps].
  now rewrite (isField_isWithin _ maxFileSize _ Hp), IH.
Qed.

Lemma collect_valuesOf ps name : decode.collect ps ∅ !! name = valuesOf name ps.
Proof.
  rewrite collect_lookup. unfold valuesOf. rewrite lookup_empty.
  now destruct (map Content _).
Qed.

Lemma buffered_fields maxMemory ps reqObj :
  forallb (decode.isField maxMemory) ps = true ->
  decode.buffered T SetFileStream ps reqObj = reqObj.
Proof.
  unfold decode.buffered. induction ps as [|p ps IH]; [reflexivity|].
  cbn [forallb fold_left]. intros H. apply andb_true_iff in H as [Hp Hps].
  unfold decode.isField in Hp. apply andb_true_iff in Hp as [Hp _].
  apply andb_true_iff in Hp as [Hname _]. rewrite Hname. now apply IH.
Qed.

(** X18.  Form values are kept per field name in arrival order.  For a
    body of non-file parts within the cap the single-file decoders bind
    form data that hold, under each name, the contents of the parts of
    that name in arrival order and nothing else; the loop of the
    buffering decoder does the same with the parts that are not
    JSON-typed, and keeps the JSON-typed ones, in arrival order, for
    [json.Unmarshal]. *)
Theorem form_values_in_arrival_order maxMemory maxFileSize ps c r :
  forallb (decode.isField maxMemory) ps = true ->
  Multipart r = inl {| parts := ps; final := None |} ->
  exists formData formData',
    DefaultWith maxMemory c r
    = decode.bindAll T BindFormData BindURLQuery c r newT formData /\
    CommonWith maxMemory c r
    = decode.bindAll T BindFormData BindURLQuery c r newT formData /\
    bufferingLoop maxMemory maxFileSize ps None newT ∅ []
    = inl (newT, formData',
           map Content
               (List.filter (decode.isJson HeaderContentType HttpContentTypeJson) ps)) /\
    (forall name, formData !! name = valuesOf name ps) /\
    (forall name,
       formData' !! name
       = valuesOf name
           (List.filter (decode.isFormValue HeaderContentType HttpContentTypeJson) ps)).
Proof.
  intros Hps Hr.
  exists (decode.collect ps ∅),
    (decode.collect
       (List.filter (decode.isFormValue HeaderContentType HttpContentTypeJson) ps) ∅).
  unfold decode.DefaultSingleFileUploadStreamDecoderWith,
    decode.CommonFileUploadStreamDecoderWith.
  rewrite Hr. cbn [nethttp.parts nethttp.final].
  rewrite <- (app_nil_r ps) at 1 3 5.
  rewrite !singleFileLoop_fields by exact Hps.
  rewrite multipartLoop_parts by (now apply forallb_isField_isWithin).
  rewrite (buffered_fields maxMemory) by exact Hps.
  split; [reflexivity|]. split; [reflexivity|]. split; [reflexivity|].
  split; intros name; apply collect_valuesOf.
Qed.

(** X19.  A body made of non-file parts within the cap only is decoded by
    the single-file decoders into the fresh object bound with every
    field, each with its whole content, and no file attached. *)
Theorem fields_only_body_is_bound maxMemory ps c r :
  forallb (decode.isField maxMemory) ps = true ->
  Multipart r = inl {| parts := ps; final := None |} ->
  DefaultWith maxMemory c r
  = decode.bindAll T BindFormData BindURLQuery c r newT (decode.collect ps ∅) /\
  CommonWith maxMemory c r
  = decode.bindAll T BindFormData BindURLQuery c r newT (decode.collect ps ∅).
Proof.
  intros Hps Hr.
  unfold decode.DefaultSingleFileUploadStreamDecoderWith,
    decode.CommonFileUploadStreamDecoderWith.
  rewrite Hr. cbn [nethttp.parts nethttp.final].
  rewrite <- (app_nil_r ps) at 1 3.
  rewrite !singleFileLoop_fields by exact Hps. split; reflexivity.
Qed.

(** X20.  A non-file part that ends in a read error other than end of
    file, reached after fields within the cap, aborts each decoder with
    that very error; nothing is bound. *)
Theorem field_read_error_aborts maxMemory maxFileSize pre bad post final c r e :
  forallb (decode.isField maxMemory) pre = true ->
  FileName bad = "" -> slen (Content bad) <= maxMemory ->
  ReadErr bad = Some e -> decode.isEOF e = false ->
  Multipart r = inl {| parts := (pre ++ bad :: post)%list; final := final |} ->
  DefaultWith maxMemory c r = (Some newT, Some e) /\
  CommonWith maxMemory c r = (None, Some e) /\
  CreateWith maxMemory maxFileSize c r = (None, Some e).
Proof.
  intros Hpre Hname Hlen Herr Heof Hr.
  unfold decode.DefaultSingleFileUploadStreamDecoderWith,
    decode.CommonFileUploadStreamDecoderWith, decode.CreateMultipartStreamDecoderWith.
  rewrite Hr. cbn [nethttp.parts nethttp.final].
  rewrite !singleFileLoop_fields by exact Hpre.
  cbn [decode.singleFileLoop]. rewrite Hname. cbn [String.eqb].
  rewrite CopyN_within by exact Hlen. rewrite Herr, Heof. cbn [negb].
  split; [reflexivity|]. split; [reflexivity|].
  apply (multipartLoop_skip maxMemory maxFileSize pre (bad :: post) final
           (fun res => match res with
                       | inl (reqObj, formData, jsonData) => _
                       | inr err => (None, Some err)
                       end = (None, Some e)));
    [now apply forallb_isField_isWithin|].
  intros reqObj formData jsonData. cbn [decode.multipartLoop].
  rewrite Hname. cbn [String.eqb]. rewrite CopyN_within by exact Hlen.
  rewrite Herr, Heof. reflexivity.
Qed.

(** X21.  A body that turns out malformed after fields within the cap
    and before any file part ([NextPart] fails with an error other than
    [io.EOF]) aborts each decoder with the error of the multipart
    reader; nothing is bound. *)
Theorem malformed_body_aborts maxMemory maxFileSize pre c r e :
  forallb (decode.isField maxMemory) pre = true ->
  decode.isEOF e = false ->
  Multipart r = inl {| parts := pre; final := Some e |} ->
  DefaultWith maxMemory c r = (Some newT, Some e) /\
  CommonWith maxMemory c r = (None, Some e) /\
  CreateWith maxMemory maxFileSize c r = (None, Some e).
Proof.
  intros Hpre Heof Hr.
  unfold decode.DefaultSingleFileUploadStreamDecoderWith,
    decode.CommonFileUploadStreamDecoderWith, decode.CreateMultipartStreamDecoderWith.
  rewrite Hr. cbn [nethttp.parts nethttp.final].
  rewrite <- (app_nil_r pre).
  rewrite !singleFileLoop_fields by exact Hpre. cbn [decode.singleFileLoop].
  change (default EOF (Some e)) with e. rewrite Heof.
  split; [reflexivity|]. split; [reflexivity|].
  apply (multipartLoop_skip maxMemory maxFileSize pre [] (Some e)
           (fun res => match res with
                       | inl (reqObj, formData, jsonData) => _
                       | inr err => (None, Some err)
                       end = (None, Some e)));
    [now apply forallb_isField_isWithin|].
  intros reqObj formData jsonData. cbn [decode.multipartLoop].
  change (default EOF (Some e)) with e. now rewrite Heof.
Qed.

(** X22.  The buffering decoder turns away a file part larger than its
    file-size limit, reached after parts within their limits: the decode
    fails with a file-too-large error that wraps bad-request, and returns
    nil. *)
Theorem oversize_file_aborts_buffering_decoder maxMemory maxFileSize pre big post final c r :
  forallb (decode.isWithin maxMemory maxFileSize) pre = true ->
  FileName big <> "" -> maxFileSize < slen (Content big) ->
  Multipart r = inl {| parts := (pre ++ big :: post)%list; final := final |} ->
  CreateWith maxMemory maxFileSize c r
  = (None, Some (fmt.Errorfw ". multipart: file too large" ErrBadRequest)).
Proof.
  intros Hpre Hname Hlen Hr. unfold decode.CreateMultipartStreamDecoderWith.
  rewrite Hr. cbn [nethttp.parts nethttp.final].
  apply (multipartLoop_skip maxMemory maxFileSize pre (big :: post) final
           (fun res => match res with
                       | inl (reqObj, formData, jsonData) => _
                       | inr err => (None, Some err)
                       end = (None, Some (fmt.Errorfw ". multipart: file too large"
                                                      ErrBadRequest))));
    [exact Hpre|].
  intros reqObj formData jsonData. cbn [decode.multipartLoop].
  destruct (String.eqb_spec (FileName big) ""); [contradiction|].
  unfold CopyN. pose proof (slen_nonneg (Content big)) as H0.
  destruct (Z.leb_spec (Z.max (maxFileSize + 1) 0) (slen (Content big))); [|lia].
  cbn [negb]. destruct (Z.ltb_spec (maxFileSize - Z.max (maxFileSize + 1) 0) 0); [|lia].
  reflexivity.
Qed.

End MoreDecoderFacts.

(** A file-too-large error of the buffering decoder, built on the
    translator's bad-request error, is a 400 for [Err2code]. *)
Example file_too_large_is_400 :
  apikit.Err2code (fmt.Errorfw ". multipart: file too large" apikit.ErrBadRequest) = 400.
Proof. reflexivity. Qed.

(** ** URL parameters and the streaming decoder *)

(** X23.  [DefaultGetByIDStringRequestDecoder] never fails and gives the
    URL parameter "id" when the route has one, the first query value of
    "id" otherwise, and the empty string when there is neither. *)
Theorem path_id_overrides_query_id (c : Context) (r : nethttp.Request) :
  transport.DefaultGetByIDStringRequestDecoder c r
  = (match Value c http.ContextKeyURLParams with
     | Some (AStringMap params) =>
         match params !! "id" with
         | Some id => id
         | None => transport.ValuesGet (nethttp.Query r) "id"
         end
     | _ => transport.ValuesGet (nethttp.Query r) "id"
     end, None).
Proof.
  unfold transport.DefaultGetByIDStringRequestDecoder, transport.queryWithParamsSet.
  f_equal. destruct (Value c http.ContextKeyURLParams) as [[| | | | |params]|];
    try reflexivity.
  unfold transport.ValuesGet. rewrite lookup_merge.
  destruct (params !! "id"), (nethttp.Query r !! "id"); reflexivity.
Qed.

Lemma streamLoop_files ps final :
  transport.streamLoop ps final
  = (map fileObject
         (List.filter (fun p => negb (String.eqb (nethttp.FileName p) "")) ps),
     match final with
     | Some e => if decode.isEOF e then None else Some e
     | None => None
     end).
Proof.
  induction ps as [|p ps IH].
  - cbn [transport.streamLoop List.filter map]. destruct final as [e|]; [|reflexivity].
    change (default EOF (Some e)) with e. now destruct (decode.isEOF e).
  - cbn [transport.streamLoop List.filter].
    rewrite IH. destruct (String.eqb (nethttp.FileName p) ""); reflexivity.
Qed.

(** X24.  Once it has the multipart reader, the multi-file decoder returns
    no error and sends one file object per file-bearing part, in arrival
    order, each with the part's form name, file name and content type;
    non-file parts are passed over whatever their size.  When the body
    ends with [io.EOF] nothing goes to the error channel; the error of a
    malformed body goes to it after the files that precede it. *)
Theorem streaming_decoder_sends_files_in_order (c : Context) (r : nethttp.Request)
        ps final :
  nethttp.Multipart r = inl {| nethttp.parts := ps; nethttp.final := final |} ->
  transport.CommonFileUploadStreamDecoder c r
  = ({| transport.DTOQuery := decode.queryWithParams c r;
        transport.FileChan :=
          map fileObject
              (List.filter (fun p => negb (String.eqb (nethttp.FileName p) "")) ps);
        transport.ErrChan :=
          match final with
          | Some e => if decode.isEOF e then None else Some e
          | None => None
          end |}, None).
Proof.
  intros Hr. unfold transport.CommonFileUploadStreamDecoder. rewrite Hr.
  cbn [nethttp.parts nethttp.final]. now rewrite streamLoop_files.
Qed.

Lemma len_cons {A} (x : A) (l : list A) : len (x :: l) = len l + 1.
Proof. unfold len. cbn [length]. lia. Qed.

Lemma routeLoop_params keys values : forall idx params,
  0 <= idx -> len keys + idx <= len values ->
  exists params',
    transport.routeLoop keys values idx params = Done params' /\
    (params !! "*" = None -> params' !! "*" = None) /\
    (forall k v, params' !! k = Some v ->
       params !! k = Some v \/ (In k keys /\ In v values)).
Proof.
  induction keys as [|key keys IH]; intros idx params Hidx Hlen.
  - exists params. cbn [transport.routeLoop]. auto.
  - rewrite len_cons in Hlen. pose proof (len_nonneg keys).
    cbn [transport.routeLoop].
    destruct (String.eqb_spec key "*") as [->|Hne]; cbn [negb].
    + destruct (IH (idx + 1) params ltac:(lia) ltac:(lia)) as (p' & -> & Hstar & Hin).
      exists p'. split; [reflexivity|]. split; [exact Hstar|].
      intros k v Hk. destruct (Hin k v Hk) as [|[? ?]]; [auto|right; split; [now right|auto]].
    + destruct (index_in_range values idx ltac:(lia)) as (v0 & -> & Hv0).
      cbn [res_bind].
      destruct (IH (idx + 1) (<[key := v0]> params) ltac:(lia) ltac:(lia))
        as (p' & -> & Hstar & Hin).
      exists p'. split; [reflexivity|]. split.
      * intros Hs. apply Hstar. rewrite lookup_insert_ne by exact Hne. exact Hs.
      * intros k v Hk. destruct (Hin k v Hk) as [Hins|[? ?]].
        -- destruct (decide (key = k)) as [<-|Hkk].
           ++ rewrite lookup_insert_eq in Hins. injection Hins as <-.
              right. split; [now left|]. apply list_elem_of_In. eapply list_elem_of_lookup_2, Hv0.
           ++ rewrite lookup_insert_ne in Hins by exact Hkk. now left.
        -- right. split; [now right|auto].
Qed.

(** X25.  When the route context lists a value for every key,
    [ChiURLParamIntoContext] does not panic and stores a parameter map
    under the URL-parameters key in which the wildcard "*" never
    appears and every entry pairs a key of the route with one of its
    values; the other entries of the context are as before. *)
Theorem ChiURLParamIntoContext_params (RouteContext : Context -> option transport.RouteParams)
        (c : Context) (r : nethttp.Request) (rctx : transport.RouteParams) :
  RouteContext c = Some rctx ->
  len (transport.Keys rctx) <= len (transport.Values rctx) ->
  exists params,
    transport.ChiURLParamIntoContext RouteContext c r
    = Done (WithValue c http.ContextKeyURLParams (AStringMap params)) /\
    params !! "*" = None /\
    (forall k v, params !! k = Some v ->
       In k (transport.Keys rctx) /\ In v (transport.Values rctx)) /\
    (forall k, Key_eqb http.ContextKeyURLParams k = false ->
       Value (WithValue c http.ContextKeyURLParams (AStringMap params)) k = Value c k).
Proof.
  intros Hrc Hlen. unfold transport.ChiURLParamIntoContext. rewrite Hrc.
  destruct (routeLoop_params (transport.Keys rctx) (transport.Values rctx) 0 ∅
              ltac:(lia) ltac:(lia)) as (params & -> & Hstar & Hin).
  exists params. split; [reflexivity|]. split; [now apply Hstar|]. split.
  - intros k v Hk. destruct (Hin k v Hk) as [He|H]; [|exact H].
    rewrite lookup_empty in He. discriminate.
  - intros k Hk. cbn [Value WithValue]. now rewrite Hk.
Qed.

(** ** Package result *)

(** X26.  [MapResult] never returns the nil interface and keeps the
    outcome: a success stays a success and a failure a failure; mapping
    twice is mapping once with the composed function. *)
Theorem MapResult_composes {T U V : Type} (zeroU : U) (zeroV : V)
        (res : result.result T) (f : T -> U) (g : U -> V) :
  (exists r, result.MapResult zeroU res f = Some r /\
             result.IsOk r = result.IsOk res /\ result.err r = result.err res) /\
  (result.MapResult zeroU res f ≫= fun r => result.MapResult zeroV r g)
  = result.MapResult zeroV res (fun v => g (f v)).
Proof.
  destruct res as [v [e|]]; split; try (eexists; split; [reflexivity|]; split; reflexivity);
    reflexivity.
Qed.

(** X27.  [UnwrapOrElse] after [MapResult] gives the mapped value of a
    success and the alternative for a failure; an [Err] built from the
    nil error counts as a success carrying the zero value. *)
Theorem UnwrapOrElse_after_MapResult {T U : Type} (zeroT elseT : T) (zeroU : U)
        (res : result.result T) (f : T -> U) (elseVal : U) :
  (exists r, result.MapResult zeroU res f = Some r /\
             result.UnwrapOrElse r elseVal
             = if result.IsOk res then f (result.val res) else elseVal) /\
  result.UnwrapOrElse (result.Err zeroT None) elseT = zeroT /\
  result.MapResult zeroU (result.Err zeroT None) f = Some (result.Ok (f zeroT)).
Proof.
  split; [|split; reflexivity].
  destruct res as [v [e|]]; eexists; split; reflexivity.
Qed.

(** ** Instances of the properties above *)

Lemma CreateToken_getKey_round_trip_witness :
  2 <= len api.DefaultKeys16 /\
  exists n key token,
    0 <= n <= len api.DefaultKeys16 - 2 /\
    api.DefaultKeys16 !! Z.to_nat n = Some key /\
    token = api.withKid (jwt.NewWithClaims api.jwtSigningMethod
                                           (api.StandardClaimsFactory tt))
                        (AString (strconv.Itoa n)) /\
    api.CreateToken fixtures.lib api.StandardClaimsFactory api.DefaultKeys16 5
    = Done (jwt.SignedString fixtures.lib token (ABytes key)) /\
    api.getKey token api.DefaultKeys16 = Done (Some (ABytes key), None).
Proof.
  split; [vm_compute; discriminate|].
  apply (CreateToken_getKey_round_trip fixtures.lib api.StandardClaimsFactory
           api.DefaultKeys16 5).
  - vm_compute. discriminate.
  - vm_compute. discriminate.
Defined.

Lemma valid_token_reaches_handler_witness :
  jwt.Method (fixtures.tokenOf jwt.SigningMethodHS256 "0") = api.jwtSigningMethod /\
  api.WithJWTAuthEPMiddleware tt fixtures.lib (api.counting fixtures.tick)
    api.DefaultJwtKeyGetterFunc [] (fixtures.withToken "hs256.kid0.sig") tt (0%nat, tt)
  = api.counting fixtures.tick
      (WithValue (fixtures.withToken "hs256.kid0.sig") api.ContextKeyAuthClaims
                 (AClaims (jwt.TokenClaims (fixtures.tokenOf jwt.SigningMethodHS256 "0"))))
      tt (0%nat, tt).
Proof.
  split; [reflexivity|].
  apply (valid_token_reaches_handler tt fixtures.lib (api.counting fixtures.tick)
           api.DefaultJwtKeyGetterFunc [] (fixtures.withToken "hs256.kid0.sig") tt
           (0%nat, tt) "hs256.kid0.sig" (fixtures.tokenOf jwt.SigningMethodHS256 "0")
           "hs256.kid0" "sig" (Some (ABytes "6ai1Vz6dHy9PbLCKUc8QtadUIuOUMuHQ")));
    reflexivity.
Defined.

Lemma key_lookup_failure_is_not_authorized_witness :
  api.DefaultJwtKeyGetterFunc (fixtures.tokenOf jwt.SigningMethodHS256 "7")
  = Done (None, Some (fmt.Errorf "kid index is out of range")) /\
  api.WithJWTAuthEPMiddleware tt fixtures2.lib (api.counting fixtures.tick)
    api.DefaultJwtKeyGetterFunc [] (fixtures.withToken "hs256.kid7.sig") tt (0%nat, tt)
  = (Done (tt, Some api.notAuthorized), (0%nat, tt)).
Proof.
  split; [reflexivity|].
  apply (key_lookup_failure_is_not_authorized tt fixtures2.lib
           (api.counting fixtures.tick) api.DefaultJwtKeyGetterFunc []
           (fixtures.withToken "hs256.kid7.sig") tt (0%nat, tt) "hs256.kid7.sig"
           (fixtures.tokenOf jwt.SigningMethodHS256 "7") ("hs256.kid7", "sig")
           None (fmt.Errorf "kid index is out of range"));
    reflexivity.
Defined.

Lemma auth_outermost_short_circuits_witness :
  as_string (Value Background api.ContextKeyJWTToken) = None /\
  api.Chain (api.JWTMiddleware tt fixtures.lib api.DefaultJwtKeyGetterFunc [])
            [fixtures.logging "B"] fixtures.business Background tt []
  = (Done (tt, Some api.ErrTokenContextMissing), []).
Proof.
  split; [reflexivity|].
  apply (auth_outermost_short_circuits tt fixtures.lib api.DefaultJwtKeyGetterFunc []
           [fixtures.logging "B"] fixtures.business Background tt []).
  reflexivity.
Defined.

Lemma ParseJwtError_agrees_with_middleware_witness :
  exists e,
    api.WithJWTAuthEPMiddleware tt fixtures.lib fixtures.tick
      api.DefaultJwtKeyGetterFunc [] (fixtures.withToken "garbage") tt tt
    = (Done (tt, Some e), tt) /\
    http.errorText e
    = api.ParseJwtError (jwtError MalformedTokenError
                                  "token contains an invalid number of segments").
Proof.
  apply (ParseJwtError_agrees_with_middleware tt fixtures.lib fixtures.tick
           api.DefaultJwtKeyGetterFunc [] (fixtures.withToken "garbage") tt tt "garbage");
    reflexivity.
Defined.

Lemma ErrorResponse_keeps_Err2code_witness :
  errors.Is apikit.ErrKeynotFound apikit.ErrInvalidUserPassword = false /\
  response.StatusCode
    (response.ErrorResponse fixtures3.statusText http.errorText "req-1"
                            (apikit.Err2code apikit.ErrKeynotFound) apikit.ErrKeynotFound)
  = apikit.Err2code apikit.ErrKeynotFound.
Proof.
  split; [reflexivity|].
  apply (ErrorResponse_keeps_Err2code fixtures3.statusText http.errorText "req-1"
           apikit.ErrKeynotFound).
  reflexivity.
Defined.

Lemma logging_middleware_result_witness :
  fixtures3.failing apikit.ErrKeynotFound Background tt []
  = (Done (None, Some apikit.ErrKeynotFound), []) /\
  exists mw,
    logging.MakeEndpointLoggingMiddleware (fun _ => Some "req-1") (fun _ => 0)
      http.errorText fixtures3.statusText fixtures3.boxed
      (Some fixtures3.recorder) "GetUser" = Some mw /\
    fst (mw (fixtures3.failing apikit.ErrKeynotFound) Background tt [])
    = Done (fixtures3.boxed
              (response.ErrorResponse fixtures3.statusText http.errorText
                 (default "" (Some "req-1")) 500 apikit.ErrKeynotFound),
            Some apikit.ErrKeynotFound).
Proof.
  split; [reflexivity|].
  apply (logging_middleware_result (fun _ => Some "req-1") (fun _ => 0)
           http.errorText fixtures3.statusText fixtures3.boxed fixtures3.recorder
           "GetUser" (fixtures3.failing apikit.ErrKeynotFound) Background tt []
           None (Some apikit.ErrKeynotFound) []).
  reflexivity.
Defined.

Lemma apikey_middleware_rejects_witness :
  http.ApikeyFromHeader (fixtures.requestWith ∅) = "" /\
  exists text,
    http.MakeHttpApikeyMiddleware fixtures.validateFn fixtures.spy
      nethttp.newResponseWriter (fixtures.requestWith ∅) []
    = Done (nethttp.Error nethttp.newResponseWriter text 401, []).
Proof.
  split; [reflexivity|].
  apply (apikey_middleware_rejects fixtures.validateFn fixtures.spy
           nethttp.newResponseWriter (fixtures.requestWith ∅) []).
  left. reflexivity.
Defined.

Lemma bearer_takes_precedence_witness :
  http.TokenFromHeader fixtures.noTable (fixtures.bearerRequest "Bearer hs256.kid0.sig")
  <> "" /\
  http.MakeHttpJwtAndApikeyMiddleware fixtures.noTable fixtures.lib
    api.DefaultJwtKeyGetterFunc fixtures.validateFn [] fixtures.spy
    nethttp.newResponseWriter (fixtures.bearerRequest "Bearer hs256.kid0.sig") []
  = http.MakeHttpJwtAndApikeyMiddleware fixtures.noTable fixtures.lib
      api.DefaultJwtKeyGetterFunc (fun _ => None) [] fixtures.spy
      nethttp.newResponseWriter (fixtures.bearerRequest "Bearer hs256.kid0.sig") [].
Proof.
  split; [vm_compute; discriminate|].
  apply (bearer_takes_precedence fixtures.noTable fixtures.lib
           api.DefaultJwtKeyGetterFunc fixtures.validateFn (fun _ => None) []
           fixtures.spy nethttp.newResponseWriter
           (fixtures.bearerRequest "Bearer hs256.kid0.sig") []).
  vm_compute. discriminate.
Defined.

Lemma form_values_in_arrival_order_witness :
  forallb (decode.isField 16)
          [fixtures.field "sheet" "Q1"; fixtures.field "note" "n"; fixtures.field "sheet" "Q2"]
  = true /\
  exists formData formData' : gmap string (list string),
    decode.DefaultSingleFileUploadStreamDecoderWith fixtures.Upload fixtures.newUpload
      fixtures.AddFileStream fixtures.BindFormData fixtures.BindURLQuery 16 Background
      (fixtures.upload [fixtures.field "sheet" "Q1"; fixtures.field "note" "n";
                        fixtures.field "sheet" "Q2"])
    = decode.bindAll fixtures.Upload fixtures.BindFormData fixtures.BindURLQuery Background
        (fixtures.upload [fixtures.field "sheet" "Q1"; fixtures.field "note" "n";
                          fixtures.field "sheet" "Q2"])
        fixtures.newUpload formData /\
    formData !! "sheet" = Some ["Q1"; "Q2"] /\
    formData' !! "sheet" = Some ["Q1"; "Q2"].
Proof.
  split; [reflexivity|].
  destruct (form_values_in_arrival_order fixtures.Upload fixtures.newUpload
              fixtures.AddFileStream fixtures.SetFileStream fixtures.BindFormData
              fixtures.BindURLQuery apikit.ErrBadRequest
              "Content-Type" "application/json" 16 1024
              [fixtures.field "sheet" "Q1"; fixtures.field "note" "n";
               fixtures.field "sheet" "Q2"] Background
              (fixtures.upload [fixtures.field "sheet" "Q1"; fixtures.field "note" "n";
                                fixtures.field "sheet" "Q2"])
              eq_refl eq_refl) as (formData & formData' & HD & _ & _ & Hfd & Hfd').
  exists formData, formData'. split; [exact HD|].
  split; [exact (Hfd "sheet") | exact (Hfd' "sheet")].
Defined.

Lemma fields_only_body_is_bound_witness :
  forallb (decode.isField 16) [fixtures.field "sheet" "Q1"; fixtures.field "sheet" "Q2"]
  = true /\
  decode.CommonFileUploadStreamDecoderWith fixtures.Upload fixtures.newUpload
    fixtures.AddFileStream fixtures.BindFormData fixtures.BindURLQuery 16 Background
    (fixtures.upload [fixtures.field "sheet" "Q1"; fixtures.field "sheet" "Q2"])
  = decode.bindAll fixtures.Upload fixtures.BindFormData fixtures.BindURLQuery Background
      (fixtures.upload [fixtures.field "sheet" "Q1"; fixtures.field "sheet" "Q2"])
      fixtures.newUpload
      (decode.collect [fixtures.field "sheet" "Q1"; fixtures.field "sheet" "Q2"] ∅).
Proof.
  split; [reflexivity|].
  apply (fields_only_body_is_bound fixtures.Upload fixtures.newUpload
           fixtures.AddFileStream fixtures.BindFormData fixtures.BindURLQuery 16
           [fixtures.field "sheet" "Q1"; fixtures.field "sheet" "Q2"] Background
           (fixtures.upload [fixtures.field "sheet" "Q1"; fixtures.field "sheet" "Q2"]));
    reflexivity.
Defined.

Lemma field_read_error_aborts_witness :
  nethttp.ReadErr fixtures4.broken = Some (fmt.Errorf "unexpected EOF") /\
  decode.CommonFileUploadStreamDecoderWith fixtures.Upload fixtures.newUpload
    fixtures.AddFileStream fixtures.BindFormData fixtures.BindURLQuery 16 Background
    (fixtures4.uploadOf [fixtures.field "sheet" "Q1"; fixtures4.broken; fixtures.doc] None)
  = (None, Some (fmt.Errorf "unexpected EOF")).
Proof.
  split; [reflexivity|].
  apply (field_read_error_aborts fixtures.Upload fixtures.newUpload
           fixtures.AddFileStream fixtures.SetFileStream fixtures.BindFormData
           fixtures.BindURLQuery fixtures.Unmarshal apikit.ErrBadRequest
           "Content-Type" "application/json" 16 1024
           [fixtures.field "sheet" "Q1"] fixtures4.broken [fixtures.doc] None Background
           (fixtures4.uploadOf [fixtures.field "sheet" "Q1"; fixtures4.broken; fixtures.doc]
                               None)
           (fmt.Errorf "unexpected EOF")).
  - reflexivity.
  - reflexivity.
  - vm_compute. discriminate.
  - reflexivity.
  - reflexivity.
  - reflexivity.
Defined.

Lemma malformed_body_aborts_witness :
  forallb (decode.isField 16) [fixtures.field "sheet" "Q1"] = true /\
  decode.isEOF (fmt.Errorf "multipart: NextPart: unexpected EOF") = false /\
  decode.CommonFileUploadStreamDecoderWith fixtures.Upload fixtures.newUpload
    fixtures.AddFileStream fixtures.BindFormData fixtures.BindURLQuery 16 Background
    (fixtures4.uploadOf [fixtures.field "sheet" "Q1"]
                        (Some (fmt.Errorf "multipart: NextPart: unexpected EOF")))
  = (None, Some (fmt.Errorf "multipart: NextPart: unexpected EOF")).
Proof.
  split; [reflexivity|]. split; [reflexivity|].
  apply (malformed_body_aborts fixtures.Upload fixtures.newUpload
           fixtures.AddFileStream fixtures.SetFileStream fixtures.BindFormData
           fixtures.BindURLQuery fixtures.Unmarshal apikit.ErrBadRequest
           "Content-Type" "application/json" 16 1024
           [fixtures.field "sheet" "Q1"] Background
           (fixtures4.uploadOf [fixtures.field "sheet" "Q1"]
                               (Some (fmt.Errorf "multipart: NextPart: unexpected EOF")))
           (fmt.Errorf "multipart: NextPart: unexpected EOF"));
    reflexivity.
Defined.

Lemma oversize_file_aborts_buffering_decoder_witness :
  4 < slen (nethttp.Content fixtures.doc) /\
  decode.CreateMultipartStreamDecoder fixtures.Upload fixtures.newUpload
    fixtures.SetFileStream fixtures.BindFormData fixtures.BindURLQuery fixtures.Unmarshal
    apikit.ErrBadRequest "Content-Type" "application/json" 4 Background
    (fixtures.upload [fixtures.field "sheet" "Q1"; fixtures.doc])
  = (None, Some (fmt.Errorfw ". multipart: file too large" apikit.ErrBadRequest)).
Proof.
  split; [reflexivity|].
  apply (oversize_file_aborts_buffering_decoder fixtures.Upload fixtures.newUpload
           fixtures.SetFileStream fixtures.BindFormData fixtures.BindURLQuery
           fixtures.Unmarshal apikit.ErrBadRequest "Content-Type" "application/json"
           decode.defaultMaxMemory 4 [fixtures.field "sheet" "Q1"] fixtures.doc [] None
           Background (fixtures.upload [fixtures.field "sheet" "Q1"; fixtures.doc])).
  - reflexivity.
  - discriminate.
  - reflexivity.
  - reflexivity.
Defined.

Lemma streaming_decoder_sends_files_in_order_witness :
  transport.CommonFileUploadStreamDecoder Background
    (fixtures4.uploadOf [fixtures.field "sheet" "Q1"; fixtures.doc;
                         fixtures.field "note" fixtures.oversize]
                        (Some (fmt.Errorf "multipart: NextPart: unexpected EOF")))
  = ({| transport.DTOQuery := ∅;
        transport.FileChan := [fileObject fixtures.doc];
        transport.ErrChan := Some (fmt.Errorf "multipart: NextPart: unexpected EOF") |},
     None).
Proof.
  exact (streaming_decoder_sends_files_in_order Background
           (fixtures4.uploadOf [fixtures.field "sheet" "Q1"; fixtures.doc;
                                fixtures.field "note" fixtures.oversize]
                               (Some (fmt.Errorf "multipart: NextPart: unexpected EOF")))
           [fixtures.field "sheet" "Q1"; fixtures.doc;
            fixtures.field "note" fixtures.oversize]
           (Some (fmt.Errorf "multipart: NextPart: unexpected EOF")) eq_refl).
Defined.

Lemma ChiURLParamIntoContext_params_witness :
  len (transport.Keys fixtures4.route) <= len (transport.Values fixtures4.route) /\
  exists params,
    transport.ChiURLParamIntoContext (fun _ => Some fixtures4.route) Background
                                     (fixtures.requestWith ∅)
    = Done (WithValue Background http.ContextKeyURLParams (AStringMap params)) /\
    params !! "*" = None.
Proof.
  split; [vm_compute; discriminate|].
  destruct (ChiURLParamIntoContext_params (fun _ => Some fixtures4.route) Background
              (fixtures.requestWith ∅) fixtures4.route eq_refl
              ltac:(vm_compute; discriminate)) as (params & H1 & H2 & _).
  exists params. split; assumption.
Defined.
